(** * stock-dashboard: a shallow embedding of [api/main.py]

    The backend keeps a watchlist and a portfolio ledger as JSON documents
    in a remote repository and enriches them with market data.  This file
    embeds the parts of [api/main.py] that carry invariants: the GitHub
    document-store helpers, the RSI computation of [get_full_data], the
    [health_alert] classifier, the watchlist and portfolio endpoints and
    the delete-report endpoint; it then states and proves the properties
    the specification gives for them.

    Conventions of the embedding.
    - Python [int] is [Z].  A finite Python [float] is an exact rational
      [Q]; where the source can produce the special values (pandas series,
      indicator snapshots) the type [pfloat] adds NaN and the infinities.
    - A JSON object with a fixed set of keys is a record; a key that may be
      absent or [null] is an [option] field.
    - A Python [dict] used as an insertion-ordered map is an association
      list with unique keys ([pydict]).
    - Endpoints run in the monad [M]: state is the [World] (the remote
      files, the token, the scripted network faults, the clock, the market
      data provider), errors are Python exceptions.
    - [detail] strings of [HTTPException] and commit messages are not
      modelled; neither is the [updated_at] stamp that
      [github_update_json] writes into every document. *)

From Stdlib Require Import ZArith QArith Qround Qabs Qpower Lia Lqa List Ascii
  String.
From stdpp Require Import base option list gmap strings.

Local Open Scope Z_scope.

(* ===================================================================== *)
(** * Numbers *)

(** Round half to even, the rounding of Python's [round]. *)
Definition round_half_even (q : Q) : Z :=
  let f := Qfloor q in
  match Qcompare (q - inject_Z f) (1 # 2) with
  | Lt => f
  | Gt => f + 1
  | Eq => if Z.even f then f else f + 1
  end.

(** [x] rounded half-even to [ndigits] decimals in exact arithmetic; the
    result is kept in lowest terms. *)
Definition decimal_round (x : Q) (ndigits : nat) : Q :=
  let s := inject_Z (10 ^ Z.of_nat ndigits) in
  Qred (inject_Z (round_half_even (x * s)) / s).

(** ** Binary64

    A Python [float] is a binary64 number.  It is written here as a
    rational that denotes the double nearest to it, the way a number of a
    JSON document or of a request body does; an operation on floats takes
    the doubles its operands denote and rounds the exact result to the
    nearest double. *)

(** Floor of the binary logarithm of [p / d]. *)
Definition ilog2 (p d : positive) : Z :=
  let e := Z.log2 (Zpos p) - Z.log2 (Zpos d) in
  if Qle_bool (2 ^ e) (Zpos p # d) then e else e - 1.

(** The double nearest to [p / d], ties to even: 53 significant bits, and
    multiples of 2^-1074 below 2^-1022 (gradual underflow). *)
Definition fl_pos (p d : positive) : Q :=
  let e := Z.max (ilog2 p d - 52) (-1074) in
  Qred (inject_Z (round_half_even ((Zpos p # d) / 2 ^ e)) * 2 ^ e).

(** The double nearest to [x].  Magnitudes of 2^1024 and more, which
    Python turns into [inf] or an [OverflowError], are outside the
    model. *)
Definition fl (x : Q) : Q :=
  match Qred x with
  | Qmake Z0 _ => 0
  | Qmake (Zpos p) d => fl_pos p d
  | Qmake (Zneg p) d => - fl_pos p d
  end.

(** [float(n)] for an int [n]. *)
Definition float_of_int (n : Z) : Q := fl (inject_Z n).

(** [x + y] and [x - y] on floats. *)
Definition float_add (x y : Q) : Q := fl (fl x + fl y).

Definition float_sub (x y : Q) : Q := fl (fl x - fl y).

(** [x * n] for a float [x] and an int [n]. *)
Definition float_mul_int (x : Q) (n : Z) : Q := fl (fl x * float_of_int n).

(** [round(x, ndigits)] for a double [x]: CPython rounds the exact value
    of [x] correctly, ties to even; the decimal result stands for the
    double nearest to it. *)
Definition py_round (x : Q) (ndigits : nat) : Q := decimal_round x ndigits.

(** Floats with the special values of IEEE arithmetic. *)
Inductive pfloat : Type :=
| Fin (q : Q)
| PInf
| NInf
| NaN.

(** Python exceptions the endpoints raise or catch. *)
Inductive exn : Type :=
| FileNotFoundError
| RuntimeError
| ZeroDivisionError
| URLError
| IndexError
| HTTPException (status_code : nat).

Inductive result (A : Type) : Type :=
| Ok (a : A)
| Raise (e : exn).
Arguments Ok {A} a.
Arguments Raise {A} e.

Definition result_bind {A B} (r : result A) (k : A -> result B) : result B :=
  match r with
  | Ok a => k a
  | Raise e => Raise e
  end.

Definition result_to_option {A} (r : result A) : option A :=
  match r with
  | Ok a => Some a
  | Raise _ => None
  end.

(** [x / n] for a float [x] and an int [n]: a zero divisor raises. *)
Definition py_truediv (x : Q) (n : Z) : result Q :=
  if n =? 0 then Raise ZeroDivisionError else Ok (fl (fl x / float_of_int n)).

(* ===================================================================== *)
(** * Portfolio documents *)

Record Holding : Type := mkHolding {
  h_code : string;
  h_name : string;
  h_shares : Z;
  h_avg_cost : Q;
  h_purchase_date : string;
  h_note : string
}.

Record Trade : Type := mkTrade {
  t_date : string;
  t_code : string;
  t_name : string;
  t_action : string;
  t_shares : Z;
  t_price : Q;
  t_profit : option Q
}.

Record Portfolio : Type := mkPortfolio {
  holdings : list Holding;
  trade_history : list Trade
}.

Definition set_shares (h : Holding) (s : Z) : Holding :=
  mkHolding (h_code h) (h_name h) s (h_avg_cost h) (h_purchase_date h) (h_note h).

Definition set_avg_cost (h : Holding) (c : Q) : Holding :=
  mkHolding (h_code h) (h_name h) (h_shares h) c (h_purchase_date h) (h_note h).

(* ===================================================================== *)
(** * Python dictionaries (insertion ordered) *)

Definition pydict (V : Type) : Type := list (string * V).

Fixpoint dict_get {V} (k : string) (d : pydict V) : option V :=
  match d with
  | [] => None
  | (k', v) :: d' => if String.eqb k' k then Some v else dict_get k d'
  end.

(** [d[k] = v]: an existing key keeps its position, a new key goes last. *)
Fixpoint dict_set {V} (k : string) (v : V) (d : pydict V) : pydict V :=
  match d with
  | [] => [(k, v)]
  | (k', v') :: d' =>
      if String.eqb k' k then (k', v) :: d' else (k', v') :: dict_set k v d'
  end.

(** [del d[k]] for a key that is present. *)
Fixpoint dict_del {V} (k : string) (d : pydict V) : pydict V :=
  match d with
  | [] => []
  | (k', v') :: d' =>
      if String.eqb k' k then d' else (k', v') :: dict_del k d'
  end.

Definition dict_values {V} (d : pydict V) : list V := map snd d.

(* ===================================================================== *)
(** * Ledger replay: the loop of [delete_trade] *)

(** One iteration of [for t in history]. *)
Definition replay_trade (hs : pydict Holding) (t : Trade)
  : result (pydict Holding) :=
  let code := t_code t in
  if String.eqb (t_action t) "buy" then
    match dict_get code hs with
    | Some h =>
        let total_cost :=
          float_add (float_mul_int (h_avg_cost h) (h_shares h))
            (float_mul_int (t_price t) (t_shares t)) in
        let h1 := set_shares h (h_shares h + t_shares t) in
        result_bind (py_truediv total_cost (h_shares h1))
          (fun q => Ok (dict_set code (set_avg_cost h1 (py_round q 2)) hs))
    | None =>
        Ok (dict_set code
              (mkHolding code (t_name t) (t_shares t) (t_price t)
                 (t_date t) EmptyString)
              hs)
    end
  else if String.eqb (t_action t) "sell" then
    match dict_get code hs with
    | Some h =>
        let h1 := set_shares h (h_shares h - t_shares t) in
        let hs1 := dict_set code h1 hs in
        if h_shares h1 <=? 0 then Ok (dict_del code hs1) else Ok hs1
    | None => Ok hs
    end
  else Ok hs.

Fixpoint replay_from (hs : pydict Holding) (history : list Trade)
  : result (pydict Holding) :=
  match history with
  | [] => Ok hs
  | t :: rest => result_bind (replay_trade hs t) (fun hs' => replay_from hs' rest)
  end.

(** [holdings = {}; for t in history: ...; list(holdings.values())]. *)
Definition rebuild_holdings (history : list Trade) : result (list Holding) :=
  result_bind (replay_from [] history) (fun hs => Ok (dict_values hs)).

(** What [l.pop(index)] leaves in [l], for an index in range. *)
Definition pop_at {A} (index : nat) (l : list A) : list A :=
  firstn index l ++ skipn (S index) l.

(** [l.pop(index)]: the element and the rest; out of range it raises. *)
Definition list_pop {A} (index : nat) (l : list A) : result (A * list A) :=
  match nth_error l index with
  | Some x => Ok (x, pop_at index l)
  | None => Raise IndexError
  end.

(** [next((x for x in l if p(x)), None)] followed by an in-place update of
    the object found: the first match is replaced where it stands. *)
Fixpoint update_first {A} (p : A -> bool) (f : A -> A) (l : list A) : list A :=
  match l with
  | [] => []
  | x :: l' => if p x then f x :: l' else x :: update_first p f l'
  end.

(* ===================================================================== *)
(** * Watchlist, manifest and the remote files *)

Record PerRecord : Type := mkPerRecord {
  ph_date : string;
  ph_per : option Q;
  ph_source : string
}.

(** [w_per] is [None] when the key is absent and [Some None] when it is
    [null]; [w_status] and [w_per_history] are [None] when absent. *)
Record WatchEntry : Type := mkWatchEntry {
  w_code : string;
  w_name : string;
  w_added_date : string;
  w_note : string;
  w_kabumart_rank : string;
  w_status : option string;
  w_per : option (option Q);
  w_per_history : option (list PerRecord)
}.

Record Watchlist : Type := mkWatchlist {
  watchlist : list WatchEntry
}.

Record ManifestEntry : Type := mkManifestEntry {
  m_code : option string;
  m_title : string
}.

Record Manifest : Type := mkManifest {
  stocks : list ManifestEntry
}.

(** The documents of the stok-analyzer repository the backend touches.
    [f_stocks] maps the upper-cased code [C] to the content of
    [webapp/data/stocks/C.json]. *)
Record Files : Type := mkFiles {
  f_watchlist : option Watchlist;
  f_portfolio : option Portfolio;
  f_manifest : option Manifest;
  f_stocks : gmap string string
}.

(** A path of the repository together with the type of its document. *)
Record doc_path (A : Type) : Type := mkPath {
  read_file : Files -> option A;
  write_file : option A -> Files -> Files
}.
Arguments read_file {A} _ _.
Arguments write_file {A} _ _ _.

Definition GH_WATCHLIST_PATH : doc_path Watchlist :=
  mkPath _ f_watchlist
    (fun d f => mkFiles d (f_portfolio f) (f_manifest f) (f_stocks f)).

Definition GH_PORTFOLIO_PATH : doc_path Portfolio :=
  mkPath _ f_portfolio
    (fun d f => mkFiles (f_watchlist f) d (f_manifest f) (f_stocks f)).

Definition GH_MANIFEST_PATH : doc_path Manifest :=
  mkPath _ f_manifest
    (fun d f => mkFiles (f_watchlist f) (f_portfolio f) d (f_stocks f)).

(** [f"{GH_STOCKS_DIR}/{CODE}.json"] *)
Definition stock_path (CODE : string) : doc_path string :=
  mkPath _ (fun f => f_stocks f !! CODE)
    (fun d f =>
       mkFiles (f_watchlist f) (f_portfolio f) (f_manifest f)
         (match d with
          | Some c => <[CODE := c]> (f_stocks f)
          | None => delete CODE (f_stocks f)
          end)).

(* ===================================================================== *)
(** * The world and the endpoint monad *)

(** What the next [urlopen] does: answer, fail with an HTTP status, or
    fail below HTTP (an exception that is not an [HTTPError]). *)
Inductive http_outcome : Type :=
| HttpOk
| HttpError (code : nat)
| NetDown.

Record TickerInfo : Type := mkTickerInfo {
  forwardPE : option Q;
  trailingPE : option Q
}.

Record World : Type := mkWorld {
  files : Files;
  token : bool;                       (* GITHUB_TOKEN is set *)
  net : list http_outcome;            (* outcomes of the coming requests *)
  today : string;                     (* datetime.now().strftime("%Y-%m-%d") *)
  YFINANCE_AVAILABLE : bool;
  ticker_info : string -> option TickerInfo   (* None: [ticker.info] raises *)
}.

Definition set_files (f : Files) (w : World) : World :=
  mkWorld f (token w) (net w) (today w) (YFINANCE_AVAILABLE w) (ticker_info w).

Definition set_net (n : list http_outcome) (w : World) : World :=
  mkWorld (files w) (token w) n (today w) (YFINANCE_AVAILABLE w) (ticker_info w).

Definition M (A : Type) : Type := World -> result A * World.

Definition ret {A} (a : A) : M A := fun w => (Ok a, w).

Definition raise {A} (e : exn) : M A := fun w => (Raise e, w).

Definition bind {A B} (m : M A) (k : A -> M B) : M B :=
  fun w =>
    match m w with
    | (Ok a, w') => k a w'
    | (Raise e, w') => (Raise e, w')
    end.

(** [try: m  except ...: handler]; a handler re-raises what its [except]
    clauses do not match. *)
Definition try_except {A} (m : M A) (handler : exn -> M A) : M A :=
  fun w =>
    match m w with
    | (Ok a, w') => (Ok a, w')
    | (Raise e, w') => handler e w'
    end.

Definition lift {A} (r : result A) : M A := fun w => (r, w).

Declare Scope py_scope.
Delimit Scope py_scope with py.
Notation "'let*' x ':=' m 'in' k" := (bind m (fun x => k))
  (at level 10, x name, m at level 100, k at level 200) : py_scope.
Notation "m ';;' k" := (bind m (fun _ => k))
  (at level 100, k at level 200, right associativity) : py_scope.
Local Open Scope py_scope.

Definition get_world : M World := fun w => (Ok w, w).

(** One HTTP request: takes the next scripted outcome; an empty script
    means the network works. *)
Definition urlopen : M http_outcome :=
  fun w =>
    match net w with
    | [] => (Ok HttpOk, w)
    | o :: rest => (Ok o, set_net rest w)
    end.

Definition require_token : M unit :=
  fun w => if token w then (Ok tt, w) else (Raise RuntimeError, w).

(** [github_fetch_json(rel_path)] *)
Definition github_fetch_json {A} (rel_path : doc_path A) : M A :=
  require_token ;;
  let* o := urlopen in
  match o with
  | HttpError code =>
      if (code =? 404)%nat then raise FileNotFoundError else raise RuntimeError
  | NetDown => raise URLError
  | HttpOk =>
      let* w := get_world in
      match read_file rel_path (files w) with
      | Some d => ret d
      | None => raise FileNotFoundError     (* the host answers 404 *)
      end
  end.

(** [github_update_json(rel_path, data, message)]: GET for the sha (404
    means the file is created), then PUT. *)
Definition github_update_json {A} (rel_path : doc_path A) (data : A) : M unit :=
  require_token ;;
  let* o1 := urlopen in
  match o1 with
  | HttpError code =>
      if (code =? 404)%nat then ret tt else raise RuntimeError
  | NetDown => raise URLError
  | HttpOk => ret tt
  end ;;
  let* o2 := urlopen in
  match o2 with
  | HttpError _ => raise RuntimeError
  | NetDown => raise URLError
  | HttpOk => fun w => (Ok tt, set_files (write_file rel_path (Some data) (files w)) w)
  end.

(** [github_delete_file(rel_path, message)]: GET for the sha, then DELETE. *)
Definition github_delete_file {A} (rel_path : doc_path A) : M unit :=
  require_token ;;
  let* o1 := urlopen in
  match o1 with
  | HttpError code =>
      if (code =? 404)%nat then raise FileNotFoundError else raise RuntimeError
  | NetDown => raise URLError
  | HttpOk =>
      let* w := get_world in
      match read_file rel_path (files w) with
      | Some _ => ret tt
      | None => raise FileNotFoundError
      end
  end ;;
  let* o2 := urlopen in
  match o2 with
  | HttpError _ => raise RuntimeError
  | NetDown => raise URLError
  | HttpOk => fun w => (Ok tt, set_files (write_file rel_path None (files w)) w)
  end.

(* ===================================================================== *)
(** * Watchlist endpoints *)

Record WatchlistAddRequest : Type := mkWatchlistAddRequest {
  war_code : string;
  war_name : string;
  war_note : string;
  war_kabumart_rank : string;
  war_per : option Q
}.

Definition on_runtime_error_500 {A} (e : exn) : M A :=
  match e with
  | RuntimeError => raise (HTTPException 500)
  | _ => raise e
  end.

(** [POST /api/watchlist]; the answer is the [count] of the response. *)
Definition add_watchlist (req : WatchlistAddRequest) : M nat :=
  let* data :=
    try_except (github_fetch_json GH_WATCHLIST_PATH)
      (fun e => match e with
                | FileNotFoundError => ret (mkWatchlist [])
                | _ => raise (HTTPException 500)
                end) in
  (if existsb (fun item => String.eqb (w_code item) (war_code req)) (watchlist data)
   then raise (HTTPException 409) else ret tt) ;;
  let* w := get_world in
  let entry :=
    mkWatchEntry (war_code req) (war_name req) (today w) (war_note req)
      (war_kabumart_rank req) (Some "archived"%string)
      (match war_per req with Some p => Some (Some p) | None => None end)
      (match war_per req with
       | Some p => Some [mkPerRecord (today w) (Some p) "analysis"]
       | None => None
       end) in
  let data1 := mkWatchlist (watchlist data ++ [entry]) in
  try_except (github_update_json GH_WATCHLIST_PATH data1) on_runtime_error_500 ;;
  ret (length (watchlist data1)).

Record PerResult : Type := mkPerResult {
  pr_code : string;
  pr_name : string;
  pr_old_per : option Q;
  pr_new_per : option Q
}.

Record PerError : Type := mkPerError {
  pe_code : string;
  pe_name : string
}.

Record UpdatePerResponse : Type := mkUpdatePerResponse {
  updated : nat;
  results : list PerResult;
  errors : list PerError
}.

Definition is_archived (entry : WatchEntry) : bool :=
  match w_status entry with
  | Some s => String.eqb s "archived"
  | None => false
  end.

(** The body of the [try] of [update_watchlist_per] once [ticker.info] has
    answered. *)
Definition refresh_per (today : string) (info : TickerInfo) (entry : WatchEntry)
  : WatchEntry * PerResult :=
  let per :=
    match forwardPE info with
    | Some p => Some p
    | None => trailingPE info
    end in
  let per := option_map (fun p => py_round p 1) per in
  let old_per := match w_per entry with Some o => o | None => None end in
  let history := match w_per_history entry with Some h => h | None => [] end in
  let same_day h := String.eqb (ph_date h) today in
  let history1 :=
    if existsb same_day history
    then update_first same_day (fun h => mkPerRecord (ph_date h) per "yfinance") history
    else history ++ [mkPerRecord today per "yfinance"] in
  (mkWatchEntry (w_code entry) (w_name entry) (w_added_date entry) (w_note entry)
     (w_kabumart_rank entry) (w_status entry) (Some per) (Some history1),
   mkPerResult (w_code entry) (w_name entry) old_per per).

(** [for entry in data.get("watchlist", [])]: the entries after the loop,
    [results] and [errors]. *)
Fixpoint refresh_all (w : World) (entries : list WatchEntry)
  : list WatchEntry * list PerResult * list PerError :=
  match entries with
  | [] => ([], [], [])
  | entry :: rest =>
      let '(es, rs, errs) := refresh_all w rest in
      if is_archived entry then (entry :: es, rs, errs)
      else
        match ticker_info w (w_code entry) with
        | Some info =>
            let '(entry1, r) := refresh_per (today w) info entry in
            (entry1 :: es, r :: rs, errs)
        | None =>
            (entry :: es, rs, mkPerError (w_code entry) (w_name entry) :: errs)
        end
  end.

(** [POST /api/watchlist/update-per] *)
Definition update_watchlist_per : M UpdatePerResponse :=
  let* w0 := get_world in
  (if YFINANCE_AVAILABLE w0 then ret tt else raise (HTTPException 503)) ;;
  let* fetched :=
    try_except
      (let* d := github_fetch_json GH_WATCHLIST_PATH in ret (Some d))
      (fun e => match e with
                | FileNotFoundError => ret None
                | _ => raise (HTTPException 500)
                end) in
  match fetched with
  | None => ret (mkUpdatePerResponse 0 [] [])
  | Some data =>
      let* w := get_world in
      let '(entries, rs, errs) := refresh_all w (watchlist data) in
      (match rs with
       | [] => ret tt
       | _ :: _ =>
           try_except
             (github_update_json GH_WATCHLIST_PATH (mkWatchlist entries))
             on_runtime_error_500
       end) ;;
      ret (mkUpdatePerResponse (length rs) rs errs)
  end.

(* ===================================================================== *)
(** * Portfolio endpoints *)

Record BuyRequest : Type := mkBuyRequest {
  br_code : string;
  br_name : string;
  br_shares : Z;
  br_price : Q;
  br_note : string
}.

Record SellRequest : Type := mkSellRequest {
  sr_code : string;
  sr_shares : Z;
  sr_price : Q
}.

Definition has_code (code : string) (h : Holding) : bool :=
  String.eqb (h_code h) code.

(** [POST /api/portfolio/buy]; the answer is the [trade] of the response. *)
Definition buy_stock (req : BuyRequest) : M Trade :=
  let* data :=
    try_except (github_fetch_json GH_PORTFOLIO_PATH)
      (fun e => match e with
                | FileNotFoundError => ret (mkPortfolio [] [])
                | _ => raise (HTTPException 500)
                end) in
  let* w := get_world in
  let trade :=
    mkTrade (today w) (br_code req) (br_name req) "buy" (br_shares req)
      (br_price req) None in
  let history := trade_history data ++ [trade] in
  let* hs :=
    match find (has_code (br_code req)) (holdings data) with
    | Some existing =>
        let total_cost :=
          float_add (float_mul_int (h_avg_cost existing) (h_shares existing))
            (float_mul_int (br_price req) (br_shares req)) in
        let shares1 := h_shares existing + br_shares req in
        let* q := lift (py_truediv total_cost shares1) in
        ret (update_first (has_code (br_code req))
               (fun h => set_avg_cost (set_shares h shares1) (py_round q 2))
               (holdings data))
    | None =>
        ret (holdings data
             ++ [mkHolding (br_code req) (br_name req) (br_shares req)
                   (br_price req) (today w) (br_note req)])
    end in
  try_except (github_update_json GH_PORTFOLIO_PATH (mkPortfolio hs history))
    on_runtime_error_500 ;;
  ret trade.

(** [POST /api/portfolio/sell]; the answer is the [trade] of the response. *)
Definition sell_stock (req : SellRequest) : M Trade :=
  let* data :=
    try_except (github_fetch_json GH_PORTFOLIO_PATH)
      (fun e => match e with
                | FileNotFoundError => raise (HTTPException 404)
                | _ => raise (HTTPException 500)
                end) in
  match find (has_code (sr_code req)) (holdings data) with
  | None => raise (HTTPException 404)
  | Some existing =>
      if h_shares existing <? sr_shares req then raise (HTTPException 400)
      else
        let profit :=
          py_round
            (float_mul_int (float_sub (sr_price req) (h_avg_cost existing))
               (sr_shares req)) 0 in
        let* w := get_world in
        let trade :=
          mkTrade (today w) (sr_code req) (h_name existing) "sell"
            (sr_shares req) (sr_price req) (Some profit) in
        let history := trade_history data ++ [trade] in
        let hs1 :=
          update_first (has_code (sr_code req))
            (fun h => set_shares h (h_shares h - sr_shares req))
            (holdings data) in
        let hs2 :=
          if h_shares existing - sr_shares req =? 0
          then List.filter (fun h => negb (has_code (sr_code req) h)) hs1
          else hs1 in
        try_except (github_update_json GH_PORTFOLIO_PATH (mkPortfolio hs2 history))
          on_runtime_error_500 ;;
        ret trade
  end.

(** [DELETE /api/portfolio/trade/{index}]; the answer is the [deleted]
    trade of the response. *)
Definition delete_trade (index : Z) : M Trade :=
  let* data :=
    try_except (github_fetch_json GH_PORTFOLIO_PATH)
      (fun e => match e with
                | FileNotFoundError => raise (HTTPException 404)
                | _ => raise (HTTPException 500)
                end) in
  let history := trade_history data in
  if (index <? 0) || (Z.of_nat (length history) <=? index)
  then raise (HTTPException 404)
  else
    let* popped := lift (list_pop (Z.to_nat index) history) in
    let '(deleted_trade, history1) := popped in
    let* hs := lift (rebuild_holdings history1) in
    try_except (github_update_json GH_PORTFOLIO_PATH (mkPortfolio hs history1))
      on_runtime_error_500 ;;
    ret deleted_trade.

(* ===================================================================== *)
(** * Deleting an analysis report *)

(** [str.upper()] on ASCII letters. *)
Definition upper_ascii (c : ascii) : ascii :=
  let n := nat_of_ascii c in
  if ((97 <=? n) && (n <=? 122))%nat then ascii_of_nat (n - 32) else c.

Fixpoint upper (s : string) : string :=
  match s with
  | EmptyString => EmptyString
  | String c s' => String (upper_ascii c) (upper s')
  end.

(** [s.get("code") != CODE] *)
Definition code_differs (CODE : string) (s : ManifestEntry) : bool :=
  match m_code s with
  | Some c => negb (String.eqb c CODE)
  | None => true
  end.

(** [DELETE /api/report/{code}] *)
Definition delete_report (code : string) : M unit :=
  let rel_path := stock_path (upper code) in
  (* Step1 *)
  try_except (github_delete_file rel_path)
    (fun e => match e with
              | FileNotFoundError => raise (HTTPException 404)
              | RuntimeError => raise (HTTPException 500)
              | _ => raise e
              end) ;;
  (* Step2 *)
  try_except
    (let* manifest := github_fetch_json GH_MANIFEST_PATH in
     let manifest1 :=
       mkManifest (List.filter (code_differs (upper code)) (stocks manifest)) in
     github_update_json GH_MANIFEST_PATH manifest1)
    (fun _ => raise (HTTPException 500)) ;;
  ret tt.

(* ===================================================================== *)
(** * Float arithmetic with NaN and infinities *)

Definition Qlt_bool (a b : Q) : bool := negb (Qle_bool b a).

Definition pf_neg (x : pfloat) : pfloat :=
  match x with
  | Fin q => Fin (- q)
  | PInf => NInf
  | NInf => PInf
  | NaN => NaN
  end.

Definition pf_add (x y : pfloat) : pfloat :=
  match x, y with
  | NaN, _ | _, NaN => NaN
  | Fin a, Fin b => Fin (a + b)
  | PInf, NInf | NInf, PInf => NaN
  | PInf, _ | _, PInf => PInf
  | NInf, _ | _, NInf => NInf
  end.

Definition pf_sub (x y : pfloat) : pfloat := pf_add x (pf_neg y).

Definition pf_abs (x : pfloat) : pfloat :=
  match x with
  | Fin q => Fin (Qabs q)
  | PInf | NInf => PInf
  | NaN => NaN
  end.

Definition signed_inf (positive : bool) : pfloat :=
  if positive then PInf else NInf.

Definition pf_mul (x y : pfloat) : pfloat :=
  match x, y with
  | NaN, _ | _, NaN => NaN
  | Fin a, Fin b => Fin (a * b)
  | Fin a, PInf | PInf, Fin a =>
      if Qeq_bool a 0 then NaN else signed_inf (Qlt_bool 0 a)
  | Fin a, NInf | NInf, Fin a =>
      if Qeq_bool a 0 then NaN else signed_inf (Qlt_bool a 0)
  | PInf, PInf | NInf, NInf => PInf
  | PInf, NInf | NInf, PInf => NInf
  end.

(** Division that does not raise (numpy, and Python floats with a nonzero
    divisor): a zero divisor gives an infinity, or NaN for 0/0. *)
Definition pf_div (x y : pfloat) : pfloat :=
  match x, y with
  | NaN, _ | _, NaN => NaN
  | Fin a, Fin b =>
      if Qeq_bool b 0
      then (if Qeq_bool a 0 then NaN else signed_inf (Qlt_bool 0 a))
      else Fin (a / b)
  | Fin _, (PInf | NInf) => Fin 0
  | PInf, Fin b => signed_inf (Qle_bool 0 b)
  | NInf, Fin b => signed_inf (Qlt_bool b 0)
  | (PInf | NInf), (PInf | NInf) => NaN
  end.

(** [x < y] and [x <= y]: false as soon as one side is NaN. *)
Definition pf_ltb (x y : pfloat) : bool :=
  match x, y with
  | NaN, _ | _, NaN => false
  | Fin a, Fin b => Qlt_bool a b
  | NInf, (Fin _ | PInf) => true
  | Fin _, PInf => true
  | _, _ => false
  end.

Definition pf_leb (x y : pfloat) : bool :=
  match x, y with
  | NaN, _ | _, NaN => false
  | Fin a, Fin b => Qle_bool a b
  | NInf, _ => true
  | _, PInf => true
  | _, _ => false
  end.

(** [round(float(x), ndigits)]: NaN and the infinities pass through. *)
Definition pf_round (x : pfloat) (ndigits : nat) : pfloat :=
  match x with
  | Fin q => Fin (py_round q ndigits)
  | _ => x
  end.

(** Truth value of [x] where [x] is a float or [None]: [None] and zero
    are false, everything else (NaN too) is true. *)
Definition truthy (x : option pfloat) : bool :=
  match x with
  | None => false
  | Some (Fin q) => negb (Qeq_bool q 0)
  | Some _ => true
  end.

(* ===================================================================== *)
(** * RSI(14) as [get_full_data] computes it with pandas *)

(** [closes.diff()]: the first entry has no predecessor and is NaN. *)
Fixpoint diff_from (prev : Q) (closes : list Q) : list pfloat :=
  match closes with
  | [] => []
  | c :: rest => Fin (c - prev) :: diff_from c rest
  end.

Definition diff (closes : list Q) : list pfloat :=
  match closes with
  | [] => []
  | c :: rest => NaN :: diff_from c rest
  end.

(** [clip(lower=0)] and [clip(upper=0)]; NaN stays NaN. *)
Definition clip_lower0 (x : pfloat) : pfloat :=
  match x with
  | Fin q => if Qlt_bool q 0 then Fin 0 else Fin q
  | NInf => Fin 0
  | _ => x
  end.

Definition clip_upper0 (x : pfloat) : pfloat :=
  match x with
  | Fin q => if Qlt_bool 0 q then Fin 0 else Fin q
  | PInf => Fin 0
  | _ => x
  end.

(** The finite values of a window, if all of them are finite. *)
Fixpoint all_finite (xs : list pfloat) : option (list Q) :=
  match xs with
  | [] => Some []
  | Fin q :: rest => option_map (cons q) (all_finite rest)
  | _ :: rest => None
  end.

Definition Qsum (qs : list Q) : Q := fold_right Qplus 0%Q qs.

(** Mean of one window of [rolling(w)]: with the default [min_periods = w]
    a window that is short or holds a NaN gives NaN. *)
Definition window_mean (w : nat) (window : list pfloat) : pfloat :=
  match all_finite window with
  | Some qs =>
      if (length qs =? w)%nat then Fin (Qsum qs / inject_Z (Z.of_nat w)) else NaN
  | None => NaN
  end.

(** [xs.rolling(w).mean()]: entry [i] is the mean of [xs[i-w+1 .. i]]. *)
Definition rolling_mean (w : nat) (xs : list pfloat) : list pfloat :=
  map (fun i => window_mean w (firstn w (skipn (S i - w) (firstn (S i) xs))))
      (seq 0 (length xs)).

Definition rsi_of_rs (rs : pfloat) : pfloat :=
  pf_sub (Fin 100) (pf_div (Fin 100) (pf_add (Fin 1) rs)).

(** The [rsi] that [get_full_data] computes from [hist], given the
    (finite) closes of [hist] in order; [None] is Python's [None].  The
    series operations are those of pandas: they never raise, a division
    by zero gives an infinity or NaN. *)
Definition get_full_data_rsi (closes : list Q) : option pfloat :=
  if negb (length closes =? 0)%nat && (14 <=? length closes)%nat then
    let delta := diff closes in
    let gain := rolling_mean 14 (map clip_lower0 delta) in
    let loss := rolling_mean 14 (map pf_neg (map clip_upper0 delta)) in
    let rs := zip_with pf_div gain loss in
    let rsi_series := map rsi_of_rs rs in
    match last rsi_series with
    | Some x => Some (pf_round x 1)
    | None => None
    end
  else None.

(* ===================================================================== *)
(** * The health-alert classifier *)

Record Technical : Type := mkTechnical {
  rsi : option pfloat;
  sma50 : option pfloat;
  sma200 : option pfloat;
  golden_cross : option bool;
  death_cross : option bool
}.

Record Fundamentals : Type := mkFundamentals {
  roe : option pfloat;
  operating_margin : option pfloat;
  revenue_growth : option pfloat
}.

Record Price : Type := mkPrice {
  current : option pfloat;
  high_52w : option pfloat;
  low_52w : option pfloat
}.

(** The dictionary [get_full_data] returns; a sub-dictionary is [None]
    when its key is absent (as in the [{"error": ...}] answer). *)
Record Snapshot : Type := mkSnapshot {
  technical : option Technical;
  fundamentals : option Fundamentals;
  price : option Price
}.

Inductive level : Type := green | yellow | orange | red.

(** [d.get(key, {}).get(field)] *)
Definition get2 {D A} (d : option D) (field : D -> option A) : option A :=
  match d with
  | Some x => field x
  | None => None
  end.

(** [x is not None and x < bound] *)
Definition below (x : option pfloat) (bound : Q) : bool :=
  match x with
  | Some v => pf_ltb v (Fin bound)
  | None => false
  end.

Definition py_sum (bs : list bool) : nat :=
  fold_right (fun (b : bool) n => ((if b then 1 else 0) + n)%nat) 0%nat bs.

Definition fund_bad_of (data : Snapshot) : nat :=
  let fund := fundamentals data in
  py_sum [ below (get2 fund roe) 0;
           below (get2 fund revenue_growth) (- (1 # 10));
           below (get2 fund operating_margin) 0 ].

(** [sma_gap_pct]: set only when both averages are truthy, so the divisor
    is not zero and the division cannot raise. *)
Definition sma_gap_pct_of (data : Snapshot) : option pfloat :=
  let tech := technical data in
  if truthy (get2 tech sma50) && truthy (get2 tech sma200) then
    match get2 tech sma50, get2 tech sma200 with
    | Some a, Some b => Some (pf_mul (pf_div (pf_abs (pf_sub a b)) b) (Fin 100))
    | _, _ => None
    end
  else None.

Definition red_condition (data : Snapshot) : bool :=
  match get2 (technical data) death_cross with
  | Some true => (2 <=? fund_bad_of data)%nat
  | _ => false
  end.

Definition orange_condition (data : Snapshot) : bool :=
  match sma_gap_pct_of data with
  | Some gap => pf_leb gap (Fin 5) && (1 <=? fund_bad_of data)%nat
  | None => false
  end.

Definition yellow_condition (data : Snapshot) : bool :=
  let tech := technical data in
  match get2 tech rsi with
  | Some r => pf_leb r (Fin 30)
  | None => false
  end
  || (truthy (get2 tech sma50)
      && truthy (get2 (price data) current)
      && match get2 (price data) current, get2 tech sma50 with
         | Some p, Some s => pf_ltb p s
         | _, _ => false
         end).

(** [health_alert(data)]: the [level] of the alert; [label] and [reason]
    are fixed texts per level. *)
Definition health_alert (data : Snapshot) : level :=
  if red_condition data then red
  else if orange_condition data then orange
  else if yellow_condition data then yellow
  else green.

Definition severity (l : level) : nat :=
  match l with
  | green => 0
  | yellow => 1
  | orange => 2
  | red => 3
  end.

(** [d1] is [d2] with some of the inputs of the classifier missing. *)
Definition missing_or_same {A} (x y : option A) : Prop := x = None \/ x = y.

Record less_defined (d1 d2 : Snapshot) : Prop := mk_less_defined {
  ld_rsi : missing_or_same (get2 (technical d1) rsi) (get2 (technical d2) rsi);
  ld_death : missing_or_same (get2 (technical d1) death_cross) (get2 (technical d2) death_cross);
  ld_sma50 : missing_or_same (get2 (technical d1) sma50) (get2 (technical d2) sma50);
  ld_sma200 : missing_or_same (get2 (technical d1) sma200) (get2 (technical d2) sma200);
  ld_current : missing_or_same (get2 (price d1) current) (get2 (price d2) current);
  ld_roe : missing_or_same (get2 (fundamentals d1) roe) (get2 (fundamentals d2) roe);
  ld_growth : missing_or_same (get2 (fundamentals d1) revenue_growth) (get2 (fundamentals d2) revenue_growth);
  ld_margin : missing_or_same (get2 (fundamentals d1) operating_margin) (get2 (fundamentals d2) operating_margin)
}.

(* ===================================================================== *)
(** * Ledger reconstruction as the specification words it (section 4.3) *)

(** "create holding(shares=trade.shares, avg_cost=trade.price,
    purchase_date=trade.date, name=trade.name, note=(empty))" *)
Definition spec_new_holding (t : Trade) : Holding :=
  {| h_code := t_code t; h_name := t_name t; h_shares := t_shares t;
     h_avg_cost := t_price t; h_purchase_date := t_date t; h_note := EmptyString |}.

(** [(c1 x s1 + p2 x s2) / (s1 + s2)] on decimals, in exact arithmetic. *)
Definition exact_quotient (c1 : Q) (s1 : Z) (p2 : Q) (s2 : Z) : Q :=
  ((c1 * inject_Z s1 + p2 * inject_Z s2) / inject_Z (s1 + s2))%Q.

(** The same quotient on floats, every operation rounded to binary64. *)
Definition float_quotient (c1 : Q) (s1 : Z) (p2 : Q) (s2 : Z) : Q :=
  fl (fl (float_add (float_mul_int c1 s1) (float_mul_int p2 s2))
      / float_of_int (s1 + s2)).

(** "avg_cost = (existing.avg_cost x existing.shares + trade.price x
    trade.shares) / (existing.shares + trade.shares) rounded to 2
    decimals", on decimals; the quotient does not exist when the divisor
    is 0. *)
Definition spec_avg_cost (existing : Holding) (t : Trade) : option Q :=
  if decide (h_shares existing + t_shares t = 0) then None
  else
    Some (decimal_round
            (exact_quotient (h_avg_cost existing) (h_shares existing)
               (t_price t) (t_shares t)) 2).

(** The same sentence read on floats: the quotient is evaluated in
    binary64 and rounded to 2 decimals as [round] does. *)
Definition float_avg_cost (existing : Holding) (t : Trade) : option Q :=
  if decide (h_shares existing + t_shares t = 0) then None
  else
    Some (py_round
            (float_quotient (h_avg_cost existing) (h_shares existing)
               (t_price t) (t_shares t)) 2).

(** One trade applied to the mapping code -> Holding; [avg_cost] is the
    reading of the average-cost sentence. *)
Definition spec_apply_trade (avg_cost : Holding -> Trade -> option Q)
    (m : gmap string Holding) (t : Trade)
  : option (gmap string Holding) :=
  if decide (t_action t = "buy"%string) then
    match m !! t_code t with
    | None => Some (<[t_code t := spec_new_holding t]> m)
    | Some existing =>
        avg ← avg_cost existing t;
        Some (<[t_code t :=
                  set_shares (set_avg_cost existing avg)
                    (h_shares existing + t_shares t)]> m)
    end
  else if decide (t_action t = "sell"%string) then
    match m !! t_code t with
    | Some existing =>
        if decide (h_shares existing - t_shares t <= 0)
        then Some (delete (t_code t) m)
        else Some (<[t_code t :=
                       set_shares existing (h_shares existing - t_shares t)]> m)
    | None => Some m
    end
  else Some m.

Fixpoint spec_replay (avg_cost : Holding -> Trade -> option Q)
    (m : gmap string Holding) (trades : list Trade)
  : option (gmap string Holding) :=
  match trades with
  | [] => Some m
  | t :: rest =>
      m' ← spec_apply_trade avg_cost m t; spec_replay avg_cost m' rest
  end.

(** "initialize empty mapping code -> Holding. Replay trades in original
    chronological order" *)
Definition spec_reconstruct (avg_cost : Holding -> Trade -> option Q)
    (trades : list Trade) : option (gmap string Holding) :=
  spec_replay avg_cost ∅ trades.

(* ===================================================================== *)
(** * Predicates and values the statements use *)

(** A list of holdings read as the mapping from each code to its holding. *)
Definition holdings_map (hs : list Holding) : gmap string Holding :=
  list_to_map (map (fun h => (h_code h, h)) hs).

(** The keys of a dictionary are distinct and each holding sits under its
    own code. *)
Definition dict_inv (d : pydict Holding) : Prop :=
  NoDup (map fst d) /\ Forall (fun p => h_code (snd p) = fst p) d.

(** A world in which the store answers: the token is set and no fault is
    scheduled. *)
Definition healthy (w : World) : Prop := token w = true /\ net w = [].

(** Everything of the world except the files and the fault script. *)
Definition env_eq (w w' : World) : Prop :=
  token w' = token w /\ today w' = today w
  /\ YFINANCE_AVAILABLE w' = YFINANCE_AVAILABLE w
  /\ ticker_info w' = ticker_info w.


(** The holdings [sell_stock] stores after a sale of [shares] of [code]
    out of [existing], the first holding of that code. *)
Definition sold_holdings (code : string) (shares : Z) (existing : Holding)
    (hs : list Holding) : list Holding :=
  let hs1 :=
    update_first (has_code code) (fun h => set_shares h (h_shares h - shares)) hs in
  if h_shares existing - shares =? 0
  then List.filter (fun h => negb (has_code code h)) hs1
  else hs1.

(** Every holding of the list has a positive number of shares. *)
Definition all_positive (hs : list Holding) : Prop :=
  Forall (fun h => 0 < h_shares h) hs.

(** Every buy of the history is for a positive number of shares. *)
Definition buys_positive (history : list Trade) : Prop :=
  Forall (fun t => t_action t = "buy"%string -> 0 < t_shares t) history.

Definition dict_positive (d : pydict Holding) : Prop :=
  Forall (fun p => 0 < h_shares (snd p)) d.

(** The entry [add_watchlist] appends for a request, on a given day. *)
Definition new_entry (req : WatchlistAddRequest) (today : string) : WatchEntry :=
  mkWatchEntry (war_code req) (war_name req) today (war_note req)
    (war_kabumart_rank req) (Some "archived"%string)
    (match war_per req with Some p => Some (Some p) | None => None end)
    (match war_per req with
     | Some p => Some [mkPerRecord today (Some p) "analysis"]
     | None => None
     end).

(** The codes the bulk refresh handled: refreshed or reported as failing. *)
Definition handled_codes (resp : UpdatePerResponse) : list string :=
  map pr_code (results resp) ++ map pe_code (errors resp).



(** No technical and no fundamental input is present. *)
Definition indicators_missing (data : Snapshot) : Prop :=
  get2 (technical data) rsi = None
  /\ get2 (technical data) death_cross = None
  /\ get2 (technical data) sma50 = None
  /\ get2 (technical data) sma200 = None
  /\ get2 (fundamentals data) roe = None
  /\ get2 (fundamentals data) revenue_growth = None
  /\ get2 (fundamentals data) operating_margin = None.

(** Each close is above the one before. *)
Fixpoint increasing_from (prev : Q) (closes : list Q) : Prop :=
  match closes with
  | [] => True
  | c :: rest => (prev < c)%Q /\ increasing_from c rest
  end.

Definition strictly_increasing (closes : list Q) : Prop :=
  match closes with
  | [] => True
  | c :: rest => increasing_from c rest
  end.

(** A day-over-day change that is a gain. *)
Definition is_gain (x : pfloat) : Prop := exists q, x = Fin q /\ (0 < q)%Q.

(* ===================================================================== *)
(** * Sample documents *)

Definition sample_buy (code : string) (shares : Z) (price : Q) : Trade :=
  mkTrade "2024-01-10" code code "buy" shares price None.

Definition sample_sell (code : string) (shares : Z) (price : Q) (profit : Q) : Trade :=
  mkTrade "2024-02-20" code code "sell" shares price (Some profit).

(** Five trades over three codes; the fourth closes the first position. *)
Definition sample_history : list Trade :=
  [ sample_buy "7203" 100 1000;
    sample_buy "7203" 50 1300;
    sample_buy "6758" 10 12000;
    sample_sell "7203" 150 1400 45000;
    sample_buy "9984" 5 8000 ].

Definition sample_holding : Holding :=
  mkHolding "7203" "Toyota" 100 1000 "2024-01-10" EmptyString.

Definition empty_files : Files := mkFiles None None None ∅.

Definition sample_world (f : Files) : World :=
  mkWorld f true [] "2024-03-01" true (fun _ => None).

Definition sample_portfolio_files : Files :=
  mkFiles None (Some (mkPortfolio [sample_holding] [sample_buy "7203" 100 1000]))
    None ∅.

Definition sample_buy_request : BuyRequest :=
  mkBuyRequest "7203" "Toyota" 50 1300 EmptyString.

Definition sample_sell_request (shares : Z) : SellRequest :=
  mkSellRequest "7203" shares 1400.

(** An analysis report and a manifest that lists it. *)
Definition sample_report_files : Files :=
  mkFiles None None
    (Some (mkManifest [mkManifestEntry (Some "7203"%string) "Toyota";
                       mkManifestEntry (Some "6758"%string) "Sony"]))
    {[ "7203"%string := "{}"%string ]}.


Definition sample_add_request : WatchlistAddRequest :=
  mkWatchlistAddRequest "6501" "Hitachi" EmptyString "A" (Some (153 # 10)).



(** A snapshot with a price only, as after a failed history download. *)
Definition price_only_example : Snapshot :=
  mkSnapshot
    (Some (mkTechnical None None None None None))
    None
    (Some (mkPrice (Some (Fin 2500)) None None)).

(** The closes 1, 2, ..., n. *)
Definition rising_closes (n : nat) : list Q :=
  map (fun i => inject_Z (Z.of_nat i)) (seq 1 n).

(** A ledger whose first trade is a buy of zero shares, which
    [BuyRequest] ([shares: int]) and [buy_stock] accept. *)
Definition zero_buy_files : Files :=
  mkFiles None
    (Some (mkPortfolio
             [mkHolding "7203" "Toyota" 0 1000 "2024-01-10" EmptyString;
              mkHolding "6758" "Sony" 10 12000 "2024-01-10" EmptyString]
             [sample_buy "7203" 0 1000; sample_buy "6758" 10 12000]))
    None ∅.

(* ===================================================================== *)
(** * The remaining endpoints *)

(** [GET /api/watchlist] *)
Definition get_watchlist : M Watchlist :=
  try_except (github_fetch_json GH_WATCHLIST_PATH)
    (fun e => match e with
              | FileNotFoundError => ret (mkWatchlist [])
              | _ => raise (HTTPException 500)
              end).

(** [GET /api/manifest] *)
Definition get_manifest : M Manifest :=
  try_except (github_fetch_json GH_MANIFEST_PATH)
    (fun e => match e with
              | FileNotFoundError => ret (mkManifest [])
              | _ => raise (HTTPException 500)
              end).

(** [GET /api/stocks/{code}/data]: every failure is answered with 404. *)
Definition get_stock_data (code : string) : M string :=
  try_except (github_fetch_json (stock_path (upper code)))
    (fun _ => raise (HTTPException 404)).

(** [DELETE /api/watchlist/{code}]; the answer is the [count] of the
    response. *)
Definition delete_watchlist (code : string) : M nat :=
  let* data :=
    try_except (github_fetch_json GH_WATCHLIST_PATH)
      (fun _ => raise (HTTPException 500)) in
  let before := length (watchlist data) in
  let kept :=
    List.filter (fun x => negb (String.eqb (w_code x) code)) (watchlist data) in
  (if (length kept =? before)%nat then raise (HTTPException 404) else ret tt) ;;
  try_except (github_update_json GH_WATCHLIST_PATH (mkWatchlist kept))
    on_runtime_error_500 ;;
  ret (length kept).

Record WatchlistStatusRequest : Type := mkWatchlistStatusRequest {
  wsr_code : string;
  wsr_status : string
}.

Definition VALID_STATUSES : list string :=
  ["watching"; "interested"; "archived"]%string.

Definition entry_has_code (code : string) (x : WatchEntry) : bool :=
  String.eqb (w_code x) code.

Definition set_status (x : WatchEntry) (status : string) : WatchEntry :=
  mkWatchEntry (w_code x) (w_name x) (w_added_date x) (w_note x)
    (w_kabumart_rank x) (Some status) (w_per x) (w_per_history x).

(** [POST /api/watchlist/status].  The [updated_at] stamp that the
    endpoint also puts on the entry is, like the one of the documents,
    outside the record. *)
Definition update_watchlist_status (req : WatchlistStatusRequest) : M unit :=
  (if existsb (String.eqb (wsr_status req)) VALID_STATUSES
   then ret tt else raise (HTTPException 400)) ;;
  let* data :=
    try_except (github_fetch_json GH_WATCHLIST_PATH)
      (fun _ => raise (HTTPException 500)) in
  match find (entry_has_code (wsr_code req)) (watchlist data) with
  | None => raise (HTTPException 404)
  | Some _ =>
      let entries :=
        update_first (entry_has_code (wsr_code req))
          (fun x => set_status x (wsr_status req)) (watchlist data) in
      try_except (github_update_json GH_WATCHLIST_PATH (mkWatchlist entries))
        on_runtime_error_500
  end.

(** [POST /api/portfolio/reset] *)
Definition reset_portfolio : M unit :=
  try_except (github_update_json GH_PORTFOLIO_PATH (mkPortfolio [] []))
    on_runtime_error_500.

(** [DELETE /api/portfolio/delete/{code}]; the answer is the [code] of the
    response, in upper case. *)
Definition delete_holding (code : string) : M string :=
  let* data :=
    try_except (github_fetch_json GH_PORTFOLIO_PATH)
      (fun e => match e with
                | FileNotFoundError => raise (HTTPException 404)
                | _ => raise (HTTPException 500)
                end) in
  let code_upper := upper code in
  match find (has_code code_upper) (holdings data) with
  | None => raise (HTTPException 404)
  | Some _ =>
      let hs := List.filter (fun h => negb (has_code code_upper h)) (holdings data) in
      try_except
        (github_update_json GH_PORTFOLIO_PATH (mkPortfolio hs (trade_history data)))
        on_runtime_error_500 ;;
      ret code_upper
  end.

(* ===================================================================== *)
(** * Live prices and the portfolio view *)

(** The fields of [ticker.info] that the price helpers and
    [get_full_data] read. *)
Record QuoteInfo : Type := mkQuoteInfo {
  currentPrice : option pfloat;
  regularMarketPrice : option pfloat;
  fiftyTwoWeekHigh : option pfloat;
  fiftyTwoWeekLow : option pfloat;
  returnOnEquity : option pfloat;
  operatingMargins : option pfloat;
  revenueGrowth : option pfloat
}.

(** What yfinance answers for a code: [None] when a call raises, else
    [ticker.info] and the closes of [ticker.history(period="1y")]. *)
Definition Ticker : Type := string -> option (QuoteInfo * list Q).

(** [a or b] on values that are a float or [None]. *)
Definition py_or (a b : option pfloat) : option pfloat :=
  if truthy a then a else b.

(** [get_current_price(code)]: [float(price) if price else None], and
    [None] on every failure. *)
Definition get_current_price (available : bool) (yf : Ticker) (code : string)
  : option pfloat :=
  if negb available then None
  else
    match yf code with
    | None => None
    | Some (info, _) =>
        let price := py_or (currentPrice info) (regularMarketPrice info) in
        if truthy price then price else None
    end.

(** A holding with the keys [get_portfolio] adds to it. *)
Record HoldingView : Type := mkHoldingView {
  hv_holding : Holding;
  hv_current_price : option pfloat;
  hv_gain_loss : option pfloat;
  hv_gain_loss_pct : option pfloat
}.

(** [x / y] on Python floats with the special values: a zero divisor
    raises, everything else is IEEE. *)
Definition pf_truediv (x y : pfloat) : result pfloat :=
  match y with
  | Fin b => if Qeq_bool b 0 then Raise ZeroDivisionError else Ok (pf_div x y)
  | _ => Ok (pf_div x y)
  end.

(** The body of the loop of [get_portfolio] for one holding. *)
Definition view_holding (current : option pfloat) (h : Holding)
  : result HoldingView :=
  if truthy current then
    match current with
    | Some c =>
        let avg := Fin (h_avg_cost h) in
        let gain_loss :=
          pf_round (pf_mul (pf_sub c avg) (Fin (inject_Z (h_shares h)))) 0 in
        result_bind (pf_truediv (pf_sub c avg) avg)
          (fun ratio =>
             Ok (mkHoldingView h current (Some gain_loss)
                   (Some (pf_round (pf_mul ratio (Fin 100)) 1))))
    | None => Ok (mkHoldingView h current None None)
    end
  else Ok (mkHoldingView h current None None).

Fixpoint view_holdings (available : bool) (yf : Ticker) (hs : list Holding)
  : result (list HoldingView) :=
  match hs with
  | [] => Ok []
  | h :: rest =>
      result_bind (view_holding (get_current_price available yf (h_code h)) h)
        (fun v =>
           result_bind (view_holdings available yf rest)
             (fun vs => Ok (v :: vs)))
  end.

(** [GET /api/portfolio]: the holdings with their live figures, and the
    trade history. *)
Definition get_portfolio (yf : Ticker) : M (list HoldingView * list Trade) :=
  let* data :=
    try_except (github_fetch_json GH_PORTFOLIO_PATH)
      (fun e => match e with
                | FileNotFoundError => ret (mkPortfolio [] [])
                | _ => raise (HTTPException 500)
                end) in
  let* w := get_world in
  let* views := lift (view_holdings (YFINANCE_AVAILABLE w) yf (holdings data)) in
  ret (views, trade_history data).

(* ===================================================================== *)
(** * [get_full_data], [get_stock] and [healthcheck] *)

(** [float(closes.rolling(n).mean().iloc[-1])] under [len(closes) >= n]. *)
Definition sma_of (n : nat) (closes : list Q) : option pfloat :=
  if (n <=? length closes)%nat
  then last (rolling_mean n (map Fin closes))
  else None.

(** [x if x else None] with [x] rounded to one decimal. *)
Definition round1_if_truthy (x : option pfloat) : option pfloat :=
  if truthy x then option_map (fun v => pf_round v 1) x else None.

(** The [technical] dictionary of [get_full_data] for the closes of
    [hist]. *)
Definition technical_of (closes : list Q) : Technical :=
  let guard := negb (length closes =? 0)%nat && (14 <=? length closes)%nat in
  let sma50 := if guard then sma_of 50 closes else None in
  let sma200 := if guard then sma_of 200 closes else None in
  let crosses :=
    if guard && truthy sma50 && truthy sma200 then
      match sma50, sma200 with
      | Some a, Some b => (Some (pf_ltb b a), Some (pf_ltb a b))
      | _, _ => (None, None)
      end
    else (None, None) in
  mkTechnical (get_full_data_rsi closes)
    (round1_if_truthy sma50) (round1_if_truthy sma200)
    (fst crosses) (snd crosses).

(** [get_full_data(code)]: [None] is the [{"error": ...}] answer. *)
Definition get_full_data (available : bool) (yf : Ticker) (code : string)
  : option Snapshot :=
  if negb available then None
  else
    match yf code with
    | None => None
    | Some (info, closes) =>
        Some (mkSnapshot
                (Some (technical_of closes))
                (Some (mkFundamentals (returnOnEquity info)
                         (operatingMargins info) (revenueGrowth info)))
                (Some (mkPrice
                         (py_or (currentPrice info) (regularMarketPrice info))
                         (fiftyTwoWeekHigh info) (fiftyTwoWeekLow info))))
    end.

(** The dictionary [health_alert] and [healthcheck] see: the error answer
    has none of the three sub-dictionaries. *)
Definition as_snapshot (full : option Snapshot) : Snapshot :=
  match full with
  | Some s => s
  | None => mkSnapshot None None None
  end.

(** [GET /api/stocks/{code}] *)
Definition get_stock (yf : Ticker) (code : string) : M Snapshot :=
  let* w := get_world in
  match get_full_data (YFINANCE_AVAILABLE w) yf code with
  | None => raise (HTTPException 503)
  | Some data => ret data
  end.

Record HealthResult : Type := mkHealthResult {
  hr_code : string;
  hr_name : string;
  hr_shares : Z;
  hr_avg_cost : Q;
  hr_current_price : option pfloat;
  hr_alert : level;
  hr_technical : option Technical;
  hr_fundamentals : option Fundamentals
}.

Definition level_eqb (a b : level) : bool :=
  match a, b with
  | green, green | yellow, yellow | orange, orange | red, red => true
  | _, _ => false
  end.

(** [sum(1 for r in results if r["alert"]["level"] == lvl)] *)
Definition count_level (lvl : level) (rs : list HealthResult) : nat :=
  length (List.filter (fun r => level_eqb (hr_alert r) lvl) rs).

Record HealthSummary : Type := mkHealthSummary {
  n_green : nat;
  n_yellow : nat;
  n_orange : nat;
  n_red : nat
}.

Definition health_result (available : bool) (yf : Ticker) (h : Holding)
  : HealthResult :=
  let full := as_snapshot (get_full_data available yf (h_code h)) in
  mkHealthResult (h_code h) (h_name h) (h_shares h) (h_avg_cost h)
    (get2 (price full) current) (health_alert full)
    (technical full) (fundamentals full).

(** [GET /api/healthcheck] *)
Definition healthcheck (yf : Ticker) : M (HealthSummary * list HealthResult) :=
  let* data :=
    try_except (github_fetch_json GH_PORTFOLIO_PATH)
      (fun e => match e with
                | FileNotFoundError => ret (mkPortfolio [] [])
                | _ => raise (HTTPException 500)
                end) in
  let* w := get_world in
  let rs := map (health_result (YFINANCE_AVAILABLE w) yf) (holdings data) in
  ret (mkHealthSummary (count_level green rs) (count_level yellow rs)
         (count_level orange rs) (count_level red rs),
       rs).

(* ===================================================================== *)
(** * More sample worlds *)

(** A world without GITHUB_TOKEN. *)
Definition tokenless_world : World :=
  mkWorld sample_portfolio_files false [] "2024-03-01" true (fun _ => None).

Definition sample_entry (code status : string) : WatchEntry :=
  mkWatchEntry code code "2024-01-05" EmptyString "B" (Some status) None None.

Definition sample_watchlist_files : Files :=
  mkFiles (Some (mkWatchlist [sample_entry "7203" "watching";
                              sample_entry "6758" "archived"]))
    None None ∅.

(** The codes of a watchlist are pairwise distinct. *)
Definition codes_unique (entries : list WatchEntry) : Prop :=
  NoDup (map w_code entries).

(** The entries of the watchlist file, none when the file is absent. *)
Definition stored_watchlist (w : World) : list WatchEntry :=
  match f_watchlist (files w) with
  | Some data => watchlist data
  | None => []
  end.

(** The PER history of an entry, empty when the key is absent. *)
Definition per_history_of (entry : WatchEntry) : list PerRecord :=
  match w_per_history entry with
  | Some h => h
  | None => []
  end.

(** A quote is available for the code of the entry. *)
Definition quoted (w : World) (entry : WatchEntry) : bool :=
  match ticker_info w (w_code entry) with
  | Some _ => true
  | None => false
  end.

(** A world with quotes for every code. *)
Definition quoting_world (f : Files) : World :=
  mkWorld f true [] "2024-03-01" true
    (fun _ => Some (mkTickerInfo (Some (153 # 10)) None)).

(** The holdings [buy_stock] goes on to store: the [if existing: ... else:
    ...] of the endpoint on the fetched holdings. *)
Definition buy_holdings (req : BuyRequest) (today : string) (hs : list Holding)
  : result (list Holding) :=
  match find (has_code (br_code req)) hs with
  | Some existing =>
      result_bind
        (py_truediv
           (float_add (float_mul_int (h_avg_cost existing) (h_shares existing))
              (float_mul_int (br_price req) (br_shares req)))
           (h_shares existing + br_shares req))
        (fun q =>
           Ok (update_first (has_code (br_code req))
                 (fun h =>
                    set_avg_cost (set_shares h (h_shares existing + br_shares req))
                      (py_round q 2))
                 hs))
  | None =>
      Ok (hs ++ [mkHolding (br_code req) (br_name req) (br_shares req)
                   (br_price req) today (br_note req)])
  end.

(** The trade [buy_stock] records. *)
Definition buy_trade (req : BuyRequest) (today : string) : Trade :=
  mkTrade today (br_code req) (br_name req) "buy" (br_shares req)
    (br_price req) None.

(** The stored holdings are what the replay of the stored history gives. *)
Definition ledger_consistent (data : Portfolio) : Prop :=
  rebuild_holdings (trade_history data) = Ok (holdings data).

(** The portfolio file, the empty portfolio when the file is absent. *)
Definition stored_portfolio (w : World) : Portfolio :=
  match f_portfolio (files w) with
  | Some data => data
  | None => mkPortfolio [] []
  end.

(** The codes of the holdings are pairwise distinct. *)
Definition holding_codes_unique (hs : list Holding) : Prop :=
  NoDup (map h_code hs).

(** A portfolio whose holdings are the replay of its history. *)
Definition ledger_files : Files :=
  mkFiles None
    (Some (mkPortfolio
             [mkHolding "6758" "6758" 10 12000 "2024-01-10" EmptyString;
              mkHolding "9984" "9984" 5 8000 "2024-01-10" EmptyString]
             sample_history))
    None ∅.

(** What a replay knows of a holding: an empty note, and the name and
    the purchase date of a buy of its code in the replayed trades. *)
Definition rebuilt_from (trades : list Trade) (h : Holding) : Prop :=
  h_note h = EmptyString
  /\ exists t,
       In t trades /\ t_action t = "buy"%string /\ t_code t = h_code h
       /\ t_name t = h_name h /\ t_date t = h_purchase_date h.

(** The trade [sell_stock] records for a holding. *)
Definition sell_trade (req : SellRequest) (today : string) (existing : Holding)
  : Trade :=
  mkTrade today (sr_code req) (h_name existing) "sell" (sr_shares req)
    (sr_price req)
    (Some (py_round
             (float_mul_int (float_sub (sr_price req) (h_avg_cost existing))
                (sr_shares req)) 0)).

(** A quote source with one price for every code and no history. *)
Definition flat_quotes (price : Q) : Ticker :=
  fun _ => Some (mkQuoteInfo (Some (Fin price)) None None None None None None, []).

(** A portfolio with a holding that was bought at price 0. *)
Definition free_share_files : Files :=
  mkFiles None
    (Some (mkPortfolio
             [mkHolding "6758" "Sony" 10 12000 "2024-01-10" EmptyString;
              mkHolding "7203" "Toyota" 100 0 "2024-01-10" EmptyString]
             []))
    None ∅.

(** The view of a holding without live figures. *)
Definition bare_view (h : Holding) : HoldingView := mkHoldingView h None None None.

(** The average cost of the holding is not zero. *)
Definition has_cost (h : Holding) : Prop := ~ (h_avg_cost h == 0)%Q.


(** The level [healthcheck] gives a code. *)
Definition alert_of (available : bool) (yf : Ticker) (code : string) : level :=
  health_alert (as_snapshot (get_full_data available yf code)).

(** Quotes with a rising history of [n] closes for every code. *)
Definition rising_quotes (n : nat) : Ticker :=
  fun _ => Some (mkQuoteInfo (Some (Fin 10)) None None None
                   (Some (Fin (- (1 # 10)))) (Some (Fin (- (1 # 10))))
                   (Some (Fin (- (1 # 2)))),
                 rising_closes n).

(** The stored document, or the empty one the read endpoints answer
    with when there is no file. *)
Definition stored_or {A} (p : doc_path A) (dflt : A) (w : World) : A :=
  match read_file p (files w) with
  | Some d => d
  | None => dflt
  end.

(** A store with two holdings and no price history to speak of. *)
Definition health_world : World :=
  mkWorld ledger_files true [] "2024-03-01" true (fun _ => None).

(** Closes that fall from one day to the next. *)
Fixpoint decreasing_from (prev : Q) (closes : list Q) : Prop :=
  match closes with
  | [] => True
  | c :: rest => (c < prev)%Q /\ decreasing_from c rest
  end.

Definition strictly_decreasing (closes : list Q) : Prop :=
  match closes with
  | [] => True
  | c :: rest => decreasing_from c rest
  end.

(** A day-over-day change that is a loss. *)
Definition is_loss (x : pfloat) : Prop := exists q, x = Fin q /\ (q < 0)%Q.

(** [n], [n - 1], ..., 1. *)
Definition falling_closes (n : nat) : list Q :=
  map (fun i => inject_Z (Z.of_nat (n - i))) (seq 0 n).

(** Quotes with sound fundamentals and a falling history of [n] closes. *)
Definition falling_quotes (n : nat) : Ticker :=
  fun _ => Some (mkQuoteInfo (Some (Fin 10)) None None None
                   (Some (Fin (1 # 10))) (Some (Fin (1 # 10)))
                   (Some (Fin (1 # 10))),
                 falling_closes n).



(** A ledger whose second buy makes the average cost a tie between two
    cents: (1000 x 9 + 1001 x 31) / 40 = 1000.775. *)
Definition tie_history : list Trade :=
  [ sample_buy "7203" 9 1000;
    sample_buy "7203" 31 1001;
    sample_buy "6758" 10 500 ].







(** A portfolio with 9 shares bought at 1000, and a buy of 31 more at
    1001. *)
Definition nine_share_files : Files :=
  mkFiles None
    (Some (mkPortfolio
             [mkHolding "7203" "7203" 9 1000 "2024-01-10" EmptyString]
             [sample_buy "7203" 9 1000]))
    None ∅.

Definition tie_buy_request : BuyRequest :=
  mkBuyRequest "7203" "7203" 31 1001 EmptyString.

(* ===================================================================== *)
(** * Properties *)

(** ** Dictionaries as finite maps *)

Section Dict.
Context {V : Type}.
Implicit Types (d : pydict V) (k : string) (v : V).

Lemma dict_get_lookup k d :
  dict_get k d = (list_to_map d : gmap string V) !! k.
Proof.
  induction d as [|[k' v'] d IH]; simpl; [by rewrite lookup_empty|].
  destruct (String.eqb_spec k' k) as [->|Hne].
  - by rewrite lookup_insert_eq.
  - by rewrite lookup_insert_ne.
Qed.

Lemma dict_set_insert k v d :
  (list_to_map (dict_set k v d) : gmap string V) = <[k:=v]> (list_to_map d).
Proof.
  induction d as [|[k' v'] d IH]; simpl; [done|].
  destruct (String.eqb_spec k' k) as [->|Hne]; simpl.
  - by rewrite insert_insert_eq.
  - rewrite IH. by apply insert_insert_ne.
Qed.

Lemma dict_set_keys k v d :
  map fst (dict_set k v d)
  = match dict_get k d with
    | Some _ => map fst d
    | None => map fst d ++ [k]
    end.
Proof.
  induction d as [|[k' v'] d IH]; simpl; [done|].
  destruct (String.eqb_spec k' k) as [->|Hne]; simpl; [done|].
  rewrite IH. by destruct (dict_get k d).
Qed.

Lemma dict_get_None_keys k d : dict_get k d = None -> ¬ In k (map fst d).
Proof.
  induction d as [|[k' v'] d IH]; simpl; [tauto|].
  destruct (String.eqb_spec k' k) as [->|Hne]; [done|].
  intros H [?|?]; [done|by apply IH].
Qed.

Lemma dict_set_NoDup k v d :
  NoDup (map fst d) -> NoDup (map fst (dict_set k v d)).
Proof.
  intros Hnd. rewrite dict_set_keys.
  destruct (dict_get k d) eqn:Hget; [done|].
  apply NoDup_app. split_and!; [done| |apply NoDup_singleton].
  intros x Hx ->%list_elem_of_singleton.
  by apply (dict_get_None_keys _ _ Hget), list_elem_of_In.
Qed.

Lemma dict_del_keys_incl k d x :
  In x (map fst (dict_del k d)) -> In x (map fst d).
Proof.
  induction d as [|[k' v'] d IH]; simpl; [done|].
  destruct (String.eqb k' k); simpl; tauto.
Qed.

Lemma dict_del_NoDup k d :
  NoDup (map fst d) -> NoDup (map fst (dict_del k d)).
Proof.
  induction d as [|[k' v'] d IH]; simpl; [done|].
  intros [Hnotin Hnd]%NoDup_cons.
  destruct (String.eqb k' k); simpl; [done|].
  apply NoDup_cons. split; [|by apply IH].
  rewrite list_elem_of_In. intros Hin%dict_del_keys_incl.
  by apply Hnotin, list_elem_of_In.
Qed.

Lemma dict_del_delete k d :
  NoDup (map fst d) ->
  (list_to_map (dict_del k d) : gmap string V) = delete k (list_to_map d).
Proof.
  induction d as [|[k' v'] d IH]; simpl; [by rewrite delete_empty|].
  intros [Hnotin Hnd]%NoDup_cons.
  destruct (String.eqb_spec k' k) as [->|Hne]; simpl.
  - rewrite delete_insert_eq. symmetry. apply delete_id.
    apply not_elem_of_list_to_map_1. exact Hnotin.
  - rewrite IH by done. by rewrite delete_insert_ne.
Qed.
End Dict.

Lemma dict_set_Forall {V} (P : string * V -> Prop) k v (d : pydict V) :
  Forall P d -> P (k, v) -> Forall P (dict_set k v d).
Proof.
  induction 1 as [|[k' v'] d HP Hd IH]; simpl; intros Hkv.
  - by constructor.
  - destruct (String.eqb_spec k' k) as [->|Hne]; constructor; auto.
Qed.

Lemma dict_del_Forall {V} (P : string * V -> Prop) k (d : pydict V) :
  Forall P d -> Forall P (dict_del k d).
Proof.
  induction 1 as [|[k' v'] d HP Hd IH]; simpl; [constructor|].
  destruct (String.eqb k' k); [done|by constructor].
Qed.

Lemma dict_get_Forall {V} (P : string * V -> Prop) k v (d : pydict V) :
  Forall P d -> dict_get k d = Some v -> P (k, v).
Proof.
  induction 1 as [|[k' v'] d HP Hd IH]; simpl; [done|].
  destruct (String.eqb_spec k' k) as [->|Hne]; [by intros [= ->]|done].
Qed.

Lemma dict_inv_nil : dict_inv [].
Proof. split; simpl; constructor. Qed.

Lemma dict_inv_set k h d :
  dict_inv d -> h_code h = k -> dict_inv (dict_set k h d).
Proof.
  intros [Hnd Hall] Hk. split; [by apply dict_set_NoDup|].
  by apply dict_set_Forall.
Qed.

Lemma dict_inv_del k d : dict_inv d -> dict_inv (dict_del k d).
Proof.
  intros [Hnd Hall]. split; [by apply dict_del_NoDup|by apply dict_del_Forall].
Qed.

Lemma dict_inv_get k h d : dict_inv d -> dict_get k d = Some h -> h_code h = k.
Proof. intros [_ Hall] Hget. exact (dict_get_Forall _ _ _ _ Hall Hget). Qed.

(** Under the invariant the values of a dictionary, read back by code, are
    the dictionary. *)
Lemma holdings_map_values d :
  dict_inv d -> holdings_map (dict_values d) = list_to_map d.
Proof.
  intros [_ Hall]. unfold holdings_map, dict_values. f_equal.
  induction Hall as [|[k v] d Hkv Hd IH]; simpl in *; [done|].
  by rewrite Hkv, IH.
Qed.

Lemma dict_values_codes d :
  dict_inv d -> NoDup (map h_code (dict_values d)).
Proof.
  intros [Hnd Hall]. unfold dict_values.
  replace (map h_code (map snd d)) with (map fst d); [done|].
  induction Hall as [|[k v] d Hkv Hd IH]; simpl in *; [done|].
  apply NoDup_cons in Hnd as [_ Hnd]. by rewrite Hkv, IH.
Qed.

(** ** Numbers *)

Lemma Qeq_bool_inject_Z_0 z : Qeq_bool (inject_Z z) 0 = (z =? 0).
Proof.
  unfold Qeq_bool; simpl. rewrite Z.mul_1_r.
  destruct z; reflexivity.
Qed.

Lemma py_truediv_inject_Z x z :
  py_truediv x z
  = if decide (z = 0) then Raise ZeroDivisionError
    else Ok (fl (fl x / float_of_int z)).
Proof.
  unfold py_truediv. destruct (Z.eqb_spec z 0); by case_decide.
Qed.

(** ** The replay loop refines the reconstruction of section 4.3 *)

Lemma replay_trade_refines hs t :
  dict_inv hs ->
  match replay_trade hs t with
  | Ok hs' =>
      dict_inv hs'
      /\ spec_apply_trade float_avg_cost (list_to_map hs) t = Some (list_to_map hs')
  | Raise e =>
      e = ZeroDivisionError
      /\ spec_apply_trade float_avg_cost (list_to_map hs) t = None
  end.
Proof.
  intros Hinv. unfold replay_trade, spec_apply_trade.
  rewrite <- dict_get_lookup.
  destruct (String.eqb_spec (t_action t) "buy") as [Hbuy|Hbuy].
  - rewrite decide_True by done.
    destruct (dict_get (t_code t) hs) as [h|] eqn:Hget.
    + rewrite py_truediv_inject_Z. unfold float_avg_cost, float_quotient. simpl.
      case_decide; simpl; [done|].
      generalize (py_round
                    (fl (fl (float_add (float_mul_int (h_avg_cost h) (h_shares h))
                               (float_mul_int (t_price t) (t_shares t)))
                         / float_of_int (h_shares h + t_shares t))) 2).
      intros avg.
      split; [|by rewrite dict_set_insert].
      apply dict_inv_set; [done|]. simpl. by eapply dict_inv_get.
    + split; [by apply dict_inv_set|]. by rewrite dict_set_insert.
  - rewrite decide_False by done.
    destruct (String.eqb_spec (t_action t) "sell") as [Hsell|Hsell].
    + rewrite decide_True by done.
      destruct (dict_get (t_code t) hs) as [h|] eqn:Hget; [|done].
      assert (dict_inv (dict_set (t_code t) (set_shares h (h_shares h - t_shares t)) hs))
        as Hinv1 by (apply dict_inv_set; [done|]; simpl; by eapply dict_inv_get).
      simpl. destruct (Z.leb_spec (h_shares h - t_shares t) 0).
      * rewrite decide_True by done. split; [by apply dict_inv_del|].
        rewrite dict_del_delete by apply Hinv1.
        by rewrite dict_set_insert, delete_insert_eq.
      * rewrite decide_False by lia. split; [done|].
        by rewrite dict_set_insert.
    + by rewrite decide_False by done.
Qed.

Lemma replay_from_refines history : forall hs,
  dict_inv hs ->
  match replay_from hs history with
  | Ok hs' =>
      dict_inv hs'
      /\ spec_replay float_avg_cost (list_to_map hs) history
         = Some (list_to_map hs')
  | Raise e =>
      e = ZeroDivisionError
      /\ spec_replay float_avg_cost (list_to_map hs) history = None
  end.
Proof.
  induction history as [|t rest IH]; intros hs Hinv; simpl; [done|].
  pose proof (replay_trade_refines hs t Hinv) as Hstep.
  destruct (replay_trade hs t) as [hs1|e]; simpl.
  - destruct Hstep as [Hinv1 ->]. simpl. by apply IH.
  - by destruct Hstep as [-> ->].
Qed.

Lemma rebuild_holdings_refines history :
  match rebuild_holdings history with
  | Ok hs =>
      NoDup (map h_code hs)
      /\ spec_reconstruct float_avg_cost history = Some (holdings_map hs)
  | Raise e =>
      e = ZeroDivisionError /\ spec_reconstruct float_avg_cost history = None
  end.
Proof.
  unfold rebuild_holdings, spec_reconstruct.
  pose proof (replay_from_refines history [] dict_inv_nil) as H.
  destruct (replay_from [] history) as [hs|e]; simpl in *; [|done].
  destruct H as [Hinv ->]. split; [by apply dict_values_codes|].
  by rewrite holdings_map_values.
Qed.

(** ** The document store *)

Lemma env_eq_refl w : env_eq w w.
Proof. by repeat split. Qed.

Lemma env_eq_trans w1 w2 w3 : env_eq w1 w2 -> env_eq w2 w3 -> env_eq w1 w3.
Proof.
  intros (?&?&?&?) (?&?&?&?). repeat split; congruence.
Qed.

Ltac run_store :=
  repeat match goal with
    | |- context [token ?w] => destruct (token w) eqn:?; simpl
    | |- context [match net ?w with _ => _ end] => destruct (net w) as [|[|?|]?] eqn:?; simpl
    | |- context [match ?l with [] => _ | _ :: _ => _ end] =>
        is_var l; destruct l as [|[|?|]?]; simpl
    | |- context [(?c =? 404)%nat] => destruct (c =? 404)%nat eqn:?; simpl
    | |- context [match read_file ?p ?f with _ => _ end] =>
        destruct (read_file p f) eqn:?; simpl
    end.

Lemma github_fetch_json_spec {A} (p : doc_path A) w r w' :
  github_fetch_json p w = (r, w') ->
  files w' = files w /\ env_eq w w'
  /\ match r with
     | Ok d => read_file p (files w) = Some d
     | Raise e => e = RuntimeError \/ e = FileNotFoundError \/ e = URLError
     end.
Proof.
  unfold github_fetch_json, require_token, urlopen, get_world, bind, raise, ret.
  run_store.
  all: intros [= <- <-]; simpl; repeat split; auto.
Qed.

Lemma github_update_json_spec {A} (p : doc_path A) (d : A) w r w' :
  github_update_json p d w = (r, w') ->
  env_eq w w'
  /\ match r with
     | Ok _ => files w' = write_file p (Some d) (files w)
     | Raise e => files w' = files w /\ (e = RuntimeError \/ e = URLError)
     end.
Proof.
  unfold github_update_json, require_token, urlopen, get_world, bind, raise, ret.
  run_store.
  all: intros [= <- <-]; simpl; repeat split; auto.
Qed.


Lemma github_fetch_json_healthy {A} (p : doc_path A) w :
  healthy w ->
  github_fetch_json p w
  = (match read_file p (files w) with
     | Some d => Ok d
     | None => Raise FileNotFoundError
     end, w).
Proof.
  intros [Htok Hnet].
  unfold github_fetch_json, require_token, urlopen, get_world, bind, raise, ret.
  rewrite Htok, Hnet. simpl. by destruct (read_file p (files w)).
Qed.

Lemma github_update_json_healthy {A} (p : doc_path A) (d : A) w :
  healthy w ->
  github_update_json p d w
  = (Ok tt, set_files (write_file p (Some d) (files w)) w).
Proof.
  intros [Htok Hnet].
  unfold github_update_json, require_token, urlopen, get_world, bind, raise, ret.
  rewrite Htok, Hnet. simpl. by rewrite Hnet.
Qed.

(** A write guarded by [except RuntimeError]. *)
Lemma guarded_update_spec {A} (p : doc_path A) (d : A) w r w' :
  try_except (github_update_json p d) on_runtime_error_500 w = (r, w') ->
  env_eq w w'
  /\ match r with
     | Ok _ => files w' = write_file p (Some d) (files w)
     | Raise e => files w' = files w /\ (e = HTTPException 500 \/ e = URLError)
     end.
Proof.
  unfold try_except.
  destruct (github_update_json p d w) as [[[]|e] w1] eqn:Hu;
    apply github_update_json_spec in Hu as [Henv Hu].
  - by intros [= <- <-].
  - destruct Hu as [Hfiles [->| ->]]; simpl; unfold raise;
      intros [= <- <-]; auto.
Qed.

(** ** The delete-trade endpoint *)

Lemma list_pop_spec {A} (i : nat) (l : list A) :
  list_pop i l
  = match nth_error l i with
    | Some x => Ok (x, pop_at i l)
    | None => Raise IndexError
    end.
Proof. reflexivity. Qed.

Lemma delete_trade_spec index w r w' :
  delete_trade index w = (r, w') ->
  env_eq w w'
  /\ match r with
     | Ok deleted =>
         exists data hs,
           f_portfolio (files w) = Some data
           /\ 0 <= index < Z.of_nat (length (trade_history data))
           /\ nth_error (trade_history data) (Z.to_nat index) = Some deleted
           /\ rebuild_holdings (pop_at (Z.to_nat index) (trade_history data)) = Ok hs
           /\ files w'
              = write_file GH_PORTFOLIO_PATH
                  (Some (mkPortfolio hs (pop_at (Z.to_nat index) (trade_history data))))
                  (files w)
     | Raise e => files w' = files w
     end.
Proof.
  unfold delete_trade, bind at 1, try_except at 1.
  destruct (github_fetch_json GH_PORTFOLIO_PATH w) as [[data|e] w1] eqn:Hf;
    apply github_fetch_json_spec in Hf as (Hfiles1 & Henv1 & Hread).
  2: { destruct e; unfold raise; intros [= <- <-]; auto. }
  simpl in Hread.
  destruct ((index <? 0) || (Z.of_nat (length (trade_history data)) <=? index)) eqn:Hrange.
  { unfold raise; intros [= <- <-]; auto. }
  apply orb_false_elim in Hrange as [Hlo%Z.ltb_ge Hhi%Z.leb_gt].
  unfold bind at 1, lift at 1. rewrite list_pop_spec.
  destruct (nth_error (trade_history data) (Z.to_nat index)) as [deleted|] eqn:Hnth.
  2: { intros [= <- <-]; auto. }
  unfold bind at 1, lift at 1.
  destruct (rebuild_holdings (pop_at (Z.to_nat index) (trade_history data)))
    as [hs|e] eqn:Hrebuild.
  2: { intros [= <- <-]; auto. }
  unfold bind at 1.
  match goal with
  | |- context [try_except ?m ?h w1] =>
      destruct (try_except m h w1) as [[[]|e] w2] eqn:Hu;
        apply guarded_update_spec in Hu as (Henv2 & Hu)
  end.
  - unfold ret. intros [= <- <-]. split; [by eapply env_eq_trans|].
    exists data, hs. rewrite Hfiles1 in Hu. split_and!; auto; lia.
  - intros [= <- <-]. split; [by eapply env_eq_trans|].
    destruct Hu as [-> _]. done.
Qed.

Lemma delete_trade_healthy index w data deleted hs :
  healthy w ->
  f_portfolio (files w) = Some data ->
  nth_error (trade_history data) index = Some deleted ->
  rebuild_holdings (pop_at index (trade_history data)) = Ok hs ->
  delete_trade (Z.of_nat index) w
  = (Ok deleted,
     set_files
       (write_file GH_PORTFOLIO_PATH
          (Some (mkPortfolio hs (pop_at index (trade_history data)))) (files w))
       w).
Proof.
  intros Hw Hdata Hnth Hrebuild.
  assert (index < length (trade_history data))%nat as Hlt
    by (apply nth_error_Some; congruence).
  unfold delete_trade, bind at 1, try_except at 1.
  rewrite github_fetch_json_healthy by done. simpl. rewrite Hdata.
  replace ((Z.of_nat index <? 0)
           || (Z.of_nat (length (trade_history data)) <=? Z.of_nat index))
    with false by (symmetry; apply orb_false_intro; lia).
  unfold bind at 1, lift at 1. rewrite list_pop_spec, Nat2Z.id, Hnth.
  unfold bind at 1, lift at 1. rewrite Hrebuild.
  unfold bind at 1, try_except.
  by rewrite github_update_json_healthy.
Qed.




(** C1, as stated, does not hold when section 4.3 is read on decimals:
    the replay evaluates the average cost in binary floating point.  For
    9 shares at 1000 and 31 at 1001 the exact average 1000.775 rounds to
    1000.78, the replay stores 1000.77. *)
Lemma replay_differs_from_decimal_reconstruction :
  ~ (forall history i,
        (i < length history)%nat ->
        holdings_map <$> result_to_option (rebuild_holdings (pop_at i history))
        = spec_reconstruct spec_avg_cost (pop_at i history)).
Proof.
  intros H. specialize (H tie_history 2%nat ltac:(simpl; lia)).
  assert (Hcode : (holdings_map <$> result_to_option
                     (rebuild_holdings (pop_at 2 tie_history))) ≫= (.!! "7203"%string)
                  = Some (mkHolding "7203" "7203" 40 (100077 # 100)
                            "2024-01-10" EmptyString))
    by (vm_compute; reflexivity).
  assert (Hspec : spec_reconstruct spec_avg_cost (pop_at 2 tie_history)
                    ≫= (.!! "7203"%string)
                  = Some (mkHolding "7203" "7203" 40 (50039 # 50)
                            "2024-01-10" EmptyString))
    by (vm_compute; reflexivity).
  rewrite H, Hspec in Hcode. discriminate Hcode.
Qed.



(** ** Rounding to decimals and to binary64 *)
























(** ** Recording a buy *)

Lemma find_update_first {A} (p : A -> bool) (f : A -> A) (l : list A) x :
  find p l = Some x ->
  p (f x) = true ->
  find p (update_first p f l) = Some (f x).
Proof.
  induction l as [|y l IH]; simpl; [done|].
  destruct (p y) eqn:Hy; simpl.
  - intros [= ->] Hfx. by rewrite Hfx.
  - intros Hfind Hfx. rewrite Hy. by apply IH.
Qed.

Lemma find_has_code code hs h :
  find (has_code code) hs = Some h -> h_code h = code.
Proof.
  intros [_ H]%find_some. by apply String.eqb_eq in H.
Qed.



Lemma dict_get_set_ne {V} k k' (v : V) d :
  k <> k' -> dict_get k' (dict_set k v d) = dict_get k' d.
Proof.
  intros Hne. by rewrite !dict_get_lookup, dict_set_insert, lookup_insert_ne.
Qed.


(** C3, as stated, does not hold: the quotient is evaluated in binary
    floating point before it is rounded.  For 9 shares at 1000 and a buy
    of 31 at 1001 the exact quotient is 1000.775, which rounds to
    1000.78; the double the endpoint rounds lies just below it, and the
    stored average cost is 1000.77. *)
Lemma buy_average_cost_misses_a_tie :
  ~ (forall req w w1 data existing trade w',
        github_fetch_json GH_PORTFOLIO_PATH w = (Ok data, w1) ->
        find (has_code (br_code req)) (holdings data) = Some existing ->
        buy_stock req w = (Ok trade, w') ->
        exists data' h',
          f_portfolio (files w') = Some data'
          /\ find (has_code (br_code req)) (holdings data') = Some h'
          /\ h_shares h' = h_shares existing + br_shares req
          /\ (h_avg_cost h'
              == decimal_round
                   (exact_quotient (h_avg_cost existing) (h_shares existing)
                      (br_price req) (br_shares req)) 2)%Q).
Proof.
  intros H.
  destruct (H tie_buy_request (sample_world nine_share_files)
              (sample_world nine_share_files)
              (mkPortfolio
                 [mkHolding "7203" "7203" 9 1000 "2024-01-10" EmptyString]
                 [sample_buy "7203" 9 1000])
              (mkHolding "7203" "7203" 9 1000 "2024-01-10" EmptyString)
              (fst (match fst (buy_stock tie_buy_request (sample_world nine_share_files)) with
                    | Ok t => (t, tt)
                    | Raise _ => (sample_buy "7203" 31 1001, tt)
                    end))
              (snd (buy_stock tie_buy_request (sample_world nine_share_files)))
              eq_refl eq_refl)
    as (data' & h' & Hstored & Hfind & _ & Havg).
  - vm_compute. reflexivity.
  - assert (Hfile : f_portfolio
                      (files (snd (buy_stock tie_buy_request
                                     (sample_world nine_share_files))))
                    = Some (mkPortfolio
                              [mkHolding "7203" "7203" 40 (100077 # 100)
                                 "2024-01-10" EmptyString]
                              [sample_buy "7203" 9 1000;
                               mkTrade "2024-03-01" "7203" "7203" "buy" 31 1001 None]))
      by (vm_compute; reflexivity).
    rewrite Hfile in Hstored. injection Hstored as <-.
    simpl in Hfind. injection Hfind as <-.
    revert Havg. vm_compute. discriminate.
Qed.



(** ** Recording a sell *)

Lemma sell_stock_spec req w r w' :
  sell_stock req w = (r, w') ->
  env_eq w w'
  /\ match r with
     | Ok trade =>
         exists data existing,
           f_portfolio (files w) = Some data
           /\ find (has_code (sr_code req)) (holdings data) = Some existing
           /\ sr_shares req <= h_shares existing
           /\ t_action trade = "sell"%string
           /\ t_shares trade = sr_shares req
           /\ files w'
              = write_file GH_PORTFOLIO_PATH
                  (Some (mkPortfolio
                           (sold_holdings (sr_code req) (sr_shares req) existing
                              (holdings data))
                           (trade_history data ++ [trade])))
                  (files w)
     | Raise e => files w' = files w
     end.
Proof.
  unfold sell_stock, bind at 1, try_except at 1.
  destruct (github_fetch_json GH_PORTFOLIO_PATH w) as [[data|e] w1] eqn:Hf;
    apply github_fetch_json_spec in Hf as (Hfiles1 & Henv1 & Hread).
  2: { destruct e; unfold raise; intros [= <- <-]; auto. }
  simpl in Hread.
  destruct (find (has_code (sr_code req)) (holdings data)) as [existing|] eqn:Hfind.
  2: { unfold raise; intros [= <- <-]; auto. }
  destruct (Z.ltb_spec (h_shares existing) (sr_shares req)) as [Hlt|Hge].
  { unfold raise; intros [= <- <-]; auto. }
  unfold bind at 1, get_world at 1, bind at 1.
  match goal with
  | |- context [try_except ?m ?h w1] =>
      destruct (try_except m h w1) as [[[]|e] w2] eqn:Hu;
        apply guarded_update_spec in Hu as (Henv2 & Hu)
  end.
  - unfold ret. intros [= <- <-]. split; [by eapply env_eq_trans|].
    exists data, existing. rewrite Hfiles1 in Hu. by split_and!.
  - intros [= <- <-]. split; [by eapply env_eq_trans|].
    destruct Hu as [-> _]. done.
Qed.

Lemma sell_stock_rejects req w w1 data existing :
  github_fetch_json GH_PORTFOLIO_PATH w = (Ok data, w1) ->
  find (has_code (sr_code req)) (holdings data) = Some existing ->
  h_shares existing < sr_shares req ->
  sell_stock req w = (Raise (HTTPException 400), w1).
Proof.
  intros Hfetch Hfind Hlt.
  unfold sell_stock, bind at 1, try_except at 1. rewrite Hfetch, Hfind.
  by rewrite (proj2 (Z.ltb_lt _ _) Hlt).
Qed.

(** C8.  A sell request for more shares than the holding has is answered
    with HTTP 400 straight after the portfolio document was fetched: the
    world the endpoint leaves is the world the fetch left, no write
    request is made, and the stored portfolio document (its trade history
    and the holding's shares and average cost) is the one that was there.
    Whatever the network does, such a request never succeeds and never
    changes a file; when the store answers it is rejected with 400. *)
Theorem sell_exceeding_holding_rejected
    (req : SellRequest) (w : World) (data : Portfolio) (existing : Holding) :
  f_portfolio (files w) = Some data ->
  find (has_code (sr_code req)) (holdings data) = Some existing ->
  h_shares existing < sr_shares req ->
  (forall w1 d,
      github_fetch_json GH_PORTFOLIO_PATH w = (Ok d, w1) ->
      sell_stock req w = (Raise (HTTPException 400), w1)
      /\ files w1 = files w)
  /\ (forall r w',
        sell_stock req w = (r, w') ->
        (exists status, r = Raise (HTTPException status))
        /\ files w' = files w
        /\ f_portfolio (files w') = Some data)
  /\ (healthy w -> sell_stock req w = (Raise (HTTPException 400), w)).
Proof.
  intros Hdata Hfind Hlt. split_and!.
  - intros w1 d Hfetch.
    pose proof Hfetch as (Hfiles & _ & Hread)%github_fetch_json_spec.
    simpl in Hread. assert (d = data) as -> by congruence.
    split; [by eapply sell_stock_rejects|done].
  - intros r w'.
    unfold sell_stock, bind at 1, try_except at 1.
    destruct (github_fetch_json GH_PORTFOLIO_PATH w) as [[d|e] w1] eqn:Hf;
      pose proof Hf as (Hfiles1 & Henv1 & Hread)%github_fetch_json_spec.
    + simpl in Hread. assert (d = data) as -> by congruence.
      rewrite Hfind, (proj2 (Z.ltb_lt _ _) Hlt).
      unfold raise. intros [= <- <-]. rewrite Hfiles1. eauto.
    + destruct e; unfold raise; intros [= <- <-]; rewrite Hfiles1; eauto.
  - intros Hw. eapply sell_stock_rejects; [|done..].
    rewrite github_fetch_json_healthy by done. simpl. by rewrite Hdata.
Qed.

Lemma sell_exceeding_holding_rejected_witness :
  sell_stock (sample_sell_request 101) (sample_world sample_portfolio_files)
  = (Raise (HTTPException 400), sample_world sample_portfolio_files).
Proof.
  apply (sell_exceeding_holding_rejected (sample_sell_request 101)
           (sample_world sample_portfolio_files)
           (mkPortfolio [sample_holding] [sample_buy "7203" 100 1000])
           sample_holding);
    [reflexivity | reflexivity | (simpl; lia) | (split; reflexivity)].
Defined.

(** ** Shares stay positive *)

Section ListUpdates.
Context {A : Type} (P : A -> Prop) (p : A -> bool) (f : A -> A).

Lemma Forall_filter_keep (q : A -> bool) (l : list A) :
  Forall P l -> Forall P (List.filter q l).
Proof.
  induction 1 as [|x l Hx Hl IH]; simpl; [constructor|].
  destruct (q x); [by constructor|done].
Qed.

Lemma Forall_update_first (l : list A) x :
  find p l = Some x -> Forall P l -> P (f x) -> Forall P (update_first p f l).
Proof.
  intros Hfind Hall Hfx. revert Hfind.
  induction Hall as [|y l Hy Hl IH]; simpl; [done|].
  destruct (p y).
  - intros [= ->]. by constructor.
  - intros Hfind. constructor; auto.
Qed.

Lemma Forall_update_first_filter (l : list A) x :
  find p l = Some x ->
  Forall P l ->
  p (f x) = true ->
  Forall P (List.filter (fun y => negb (p y)) (update_first p f l)).
Proof.
  intros Hfind Hall Hfx. revert Hfind.
  induction Hall as [|y l Hy Hl IH]; simpl; [done|].
  destruct (p y) eqn:Hpy; simpl.
  - intros [= ->]. rewrite Hfx. simpl. by apply Forall_filter_keep.
  - intros Hfind. rewrite Hpy. simpl. constructor; auto.
Qed.

Lemma find_filter_negb (l : list A) :
  find p (List.filter (fun y => negb (p y)) l) = None.
Proof.
  induction l as [|y l IH]; simpl; [done|].
  destruct (p y) eqn:Hpy; simpl; [done|]. by rewrite Hpy.
Qed.
End ListUpdates.

Lemma sold_holdings_positive code shares existing hs :
  find (has_code code) hs = Some existing ->
  shares <= h_shares existing ->
  all_positive hs ->
  all_positive (sold_holdings code shares existing hs).
Proof.
  intros Hfind Hle Hpos. unfold sold_holdings, all_positive.
  destruct (Z.eqb_spec (h_shares existing - shares) 0) as [Hz|Hnz].
  - eapply Forall_update_first_filter; [done..|].
    unfold has_code. simpl. apply String.eqb_eq. by eapply find_has_code.
  - eapply Forall_update_first; [done..|]. simpl. lia.
Qed.

Lemma sold_holdings_sold_out code existing hs :
  find (has_code code) (sold_holdings code (h_shares existing) existing hs) = None.
Proof.
  unfold sold_holdings. rewrite Z.sub_diag. simpl. apply find_filter_negb.
Qed.

Lemma dict_del_set {V} k (v : V) d : dict_del k (dict_set k v d) = dict_del k d.
Proof.
  induction d as [|[k' v'] d IH]; simpl.
  - by rewrite String.eqb_refl.
  - destruct (String.eqb k' k) eqn:Hk; simpl; rewrite Hk; [done|by rewrite IH].
Qed.

Lemma replay_trade_positive hs t :
  (t_action t = "buy"%string -> 0 < t_shares t) ->
  dict_positive hs ->
  exists hs', replay_trade hs t = Ok hs' /\ dict_positive hs'.
Proof.
  intros Hbuy Hpos. unfold replay_trade.
  destruct (String.eqb_spec (t_action t) "buy") as [Hb|Hb].
  - specialize (Hbuy Hb).
    destruct (dict_get (t_code t) hs) as [h|] eqn:Hget.
    + pose proof (dict_get_Forall _ _ _ _ Hpos Hget) as Hh. simpl in Hh.
      rewrite py_truediv_inject_Z. simpl.
      rewrite decide_False by lia. simpl.
      eexists; split; [done|]. apply dict_set_Forall; [done|]. simpl. lia.
    + eexists; split; [done|]. by apply dict_set_Forall.
  - destruct (String.eqb (t_action t) "sell"); [|by eexists].
    destruct (dict_get (t_code t) hs) as [h|] eqn:Hget; [|by eexists].
    simpl. destruct (Z.leb_spec (h_shares h - t_shares t) 0).
    + eexists; split; [done|]. rewrite dict_del_set. by apply dict_del_Forall.
    + eexists; split; [done|]. by apply dict_set_Forall.
Qed.

Lemma replay_from_positive history : forall hs,
  buys_positive history ->
  dict_positive hs ->
  exists hs', replay_from hs history = Ok hs' /\ dict_positive hs'.
Proof.
  induction history as [|t rest IH]; intros hs Hbuys Hpos; simpl.
  - by eexists.
  - apply Forall_cons in Hbuys as [Ht Hrest].
    destruct (replay_trade_positive hs t Ht Hpos) as (hs1 & -> & Hpos1).
    simpl. by apply IH.
Qed.

Lemma rebuild_holdings_positive history :
  buys_positive history ->
  exists hs, rebuild_holdings history = Ok hs /\ all_positive hs.
Proof.
  intros Hbuys. unfold rebuild_holdings.
  destruct (replay_from_positive history [] Hbuys) as (hs & -> & Hpos);
    [constructor|].
  simpl. eexists; split; [done|].
  unfold all_positive, dict_values. by apply Forall_map.
Qed.

Lemma buys_positive_pop_at i history :
  buys_positive history -> buys_positive (pop_at i history).
Proof.
  intros H. unfold pop_at, buys_positive. apply Forall_app. split.
  - by apply Forall_take.
  - by apply Forall_drop.
Qed.

(** C7, as stated, does not hold: the replay of delete-trade keeps a
    holding with zero shares when the history holds a buy of zero shares,
    which the buy endpoint accepts. *)
Lemma replay_keeps_zero_share_buy :
  ~ (forall index w deleted w' data',
        delete_trade index w = (Ok deleted, w') ->
        f_portfolio (files w') = Some data' ->
        all_positive (holdings data')).
Proof.
  intros H.
  specialize (H 1 (sample_world zero_buy_files)
                (sample_buy "6758" 10 12000)
                (snd (delete_trade 1 (sample_world zero_buy_files)))
                _ eq_refl eq_refl).
  apply Forall_cons in H as [Hzero _]. simpl in Hzero. lia.
Qed.

(** C7, amended.  Recording a sell on a portfolio whose holdings all have
    positive shares stores a portfolio whose holdings all have positive
    shares, and a sale of all the shares of the holding leaves no holding
    of that code.  Replaying a history whose buys are for positive
    numbers of shares always succeeds and yields holdings with positive
    shares only; a replayed sell that takes a holding to zero shares or
    below removes it from the mapping; and so the holdings that
    delete-trade stores for such a history all have positive shares. *)
Theorem holdings_shares_stay_positive :
  (forall req w trade w' data,
      f_portfolio (files w) = Some data ->
      all_positive (holdings data) ->
      sell_stock req w = (Ok trade, w') ->
      exists data' existing,
        f_portfolio (files w') = Some data'
        /\ all_positive (holdings data')
        /\ find (has_code (sr_code req)) (holdings data) = Some existing
        /\ (sr_shares req = h_shares existing ->
            find (has_code (sr_code req)) (holdings data') = None))
  /\ (forall history,
        buys_positive history ->
        exists hs, rebuild_holdings history = Ok hs /\ all_positive hs)
  /\ (forall hs t h,
        dict_inv hs ->
        t_action t = "sell"%string ->
        dict_get (t_code t) hs = Some h ->
        h_shares h - t_shares t <= 0 ->
        exists hs', replay_trade hs t = Ok hs' /\ dict_get (t_code t) hs' = None)
  /\ (forall index w deleted w' data,
        f_portfolio (files w) = Some data ->
        buys_positive (trade_history data) ->
        delete_trade index w = (Ok deleted, w') ->
        exists data',
          f_portfolio (files w') = Some data' /\ all_positive (holdings data')).
Proof.
  split_and!.
  - intros req w trade w' data Hdata Hpos Hrun.
    apply sell_stock_spec in Hrun
      as (_ & data0 & existing & Hdata0 & Hfind & Hle & _ & _ & Hfiles).
    assert (data0 = data) as -> by congruence.
    eexists _, existing. rewrite Hfiles. simpl. split_and!; [done| |done|].
    + by apply sold_holdings_positive.
    + intros ->. apply sold_holdings_sold_out.
  - apply rebuild_holdings_positive.
  - intros hs t h [Hnd _] Hsell Hget Hle. unfold replay_trade.
    rewrite Hsell, Hget. simpl.
    rewrite (proj2 (Z.leb_le _ _) Hle).
    eexists; split; [done|].
    rewrite dict_del_set, dict_get_lookup, dict_del_delete by done.
    apply lookup_delete_eq.
  - intros index w deleted w' data Hdata Hbuys Hrun.
    apply delete_trade_spec in Hrun
      as (_ & data0 & hs & Hdata0 & _ & _ & Hrebuild & Hfiles).
    assert (data0 = data) as -> by congruence.
    eexists. rewrite Hfiles. simpl. split; [done|].
    destruct (rebuild_holdings_positive _
                (buys_positive_pop_at (Z.to_nat index) _ Hbuys))
      as (hs' & Hrebuild' & Hpos).
    simpl. congruence.
Qed.

Lemma holdings_shares_stay_positive_witness :
  exists hs,
    rebuild_holdings sample_history = Ok hs /\ all_positive hs.
Proof.
  destruct holdings_shares_stay_positive as (_ & Hreplay & _).
  apply (Hreplay sample_history).
  repeat (constructor; [simpl; lia|]). constructor.
Defined.

(** ** What the endpoints write *)

Ltac step_update w1 w2 H :=
  match goal with
  | |- context [try_except ?m ?h w1] =>
      let e := fresh "e" in
      let Henv := fresh "Henv" in
      destruct (try_except m h w1) as [[[]|e] w2] eqn:H;
        apply guarded_update_spec in H as (Henv & H)
  end.

Lemma fetch_or_default_spec {A} (p : doc_path A) (dflt : A) w r w1 :
  try_except (github_fetch_json p)
    (fun e => match e with
              | FileNotFoundError => ret dflt
              | _ => raise (HTTPException 500)
              end) w = (r, w1) ->
  files w1 = files w /\ env_eq w w1
  /\ match r with
     | Ok d => read_file p (files w) = Some d \/ d = dflt
     | Raise e => e = HTTPException 500
     end.
Proof.
  unfold try_except.
  destruct (github_fetch_json p w) as [[d|e] w0] eqn:Hf;
    apply github_fetch_json_spec in Hf as (Hfiles & Henv & Hread).
  - intros [= <- <-]. auto.
  - destruct e; unfold raise, ret; intros [= <- <-]; auto.
Qed.


Lemma add_watchlist_spec req w r w' :
  add_watchlist req w = (r, w') ->
  env_eq w w'
  /\ match r with
     | Ok count =>
         exists entries,
           (f_watchlist (files w) = Some (mkWatchlist entries) \/ entries = [])
           /\ Forall (fun item => w_code item <> war_code req) entries
           /\ count = length (entries ++ [new_entry req (today w)])
           /\ files w'
              = write_file GH_WATCHLIST_PATH
                  (Some (mkWatchlist (entries ++ [new_entry req (today w)])))
                  (files w)
     | Raise e => files w' = files w
     end.
Proof.
  unfold add_watchlist, bind at 1.
  match goal with
  | |- context [try_except ?m ?h w] =>
      destruct (try_except m h w) as [[data|e] w1] eqn:Hf;
        apply fetch_or_default_spec in Hf as (Hfiles1 & Henv1 & Hread)
  end.
  2: { intros [= <- <-]; auto. }
  unfold bind at 1.
  destruct (existsb _ (watchlist data)) eqn:Hdup.
  { unfold raise at 1. intros [= <- <-]; auto. }
  unfold ret at 1, bind at 1, get_world at 1, bind at 1.
  step_update w1 w2 Hu; [unfold ret|]; intros [= <- <-];
    (split; [by eapply env_eq_trans|]); rewrite Hfiles1 in Hu.
  2: { by destruct Hu. }
  destruct Henv1 as (_ & Htoday & _). rewrite Htoday in *.
  exists (watchlist data). split_and!; [| |done..].
  - destruct data as [entries]. simpl in *.
    destruct Hread as [Hread|Hread]; [by left|right; congruence].
  - apply Forall_forall. intros item Hin Hcode.
    assert (existsb (fun item => String.eqb (w_code item) (war_code req))
              (watchlist data) = true) as Hex; [|congruence].
    apply existsb_exists. exists item.
    split; [by apply list_elem_of_In|by apply String.eqb_eq].
Qed.

Lemma refresh_all_env w w1 entries :
  env_eq w w1 -> refresh_all w1 entries = refresh_all w entries.
Proof.
  intros (_ & Htoday & _ & Hinfo).
  induction entries as [|entry rest IH]; simpl; [done|].
  by rewrite IH, Htoday, Hinfo.
Qed.

Lemma update_watchlist_per_spec w r w' :
  update_watchlist_per w = (r, w') ->
  env_eq w w'
  /\ match r with
     | Ok resp =>
         (resp = mkUpdatePerResponse 0 [] [] /\ files w' = files w)
         \/ exists data,
              f_watchlist (files w) = Some data
              /\ resp = mkUpdatePerResponse
                          (length (snd (fst (refresh_all w (watchlist data)))))
                          (snd (fst (refresh_all w (watchlist data))))
                          (snd (refresh_all w (watchlist data)))
              /\ files w'
                 = match snd (fst (refresh_all w (watchlist data))) with
                   | [] => files w
                   | _ :: _ =>
                       write_file GH_WATCHLIST_PATH
                         (Some (mkWatchlist
                                  (fst (fst (refresh_all w (watchlist data))))))
                         (files w)
                   end
     | Raise e => files w' = files w
     end.
Proof.
  unfold update_watchlist_per, bind at 1, get_world at 1, bind at 1.
  destruct (YFINANCE_AVAILABLE w).
  2: { unfold raise. intros [= <- <-]. split; [apply env_eq_refl|done]. }
  unfold ret at 1, bind at 1, try_except at 1, bind at 1.
  destruct (github_fetch_json GH_WATCHLIST_PATH w) as [[data|e] w1] eqn:Hf;
    apply github_fetch_json_spec in Hf as (Hfiles1 & Henv1 & Hread).
  2: { destruct e; unfold raise, ret; intros [= <- <-]; auto. }
  unfold ret at 1, bind at 1, get_world at 1.
  rewrite (refresh_all_env w w1) by done.
  destruct (refresh_all w (watchlist data)) as [[entries rs] errs] eqn:Hrefresh.
  simpl in Hread. unfold bind at 1. destruct rs as [|r0 rs].
  - unfold ret. intros [= <- <-]. split; [done|]. right.
    exists data. by rewrite Hrefresh.
  - step_update w1 w2 Hu; [unfold ret|]; intros [= <- <-];
      (split; [by eapply env_eq_trans|]); rewrite Hfiles1 in Hu.
    + right. exists data. by rewrite Hrefresh.
    + by destruct Hu.
Qed.


(** ** Failures and persistence *)




(** ** The watchlist: new entries and the bulk PER refresh *)

Lemma refresh_all_handled w entries c :
  In c (map pr_code (snd (fst (refresh_all w entries)))
        ++ map pe_code (snd (refresh_all w entries)))
  <-> exists entry,
        In entry entries /\ w_code entry = c /\ is_archived entry = false.
Proof.
  induction entries as [|entry rest IH]; simpl.
  - split; [done|]. by intros (? & [] & _).
  - destruct (refresh_all w rest) as [[es rs] errs] eqn:Hrest. simpl in IH.
    destruct (is_archived entry) eqn:Harch; simpl.
    + rewrite IH. split.
      * intros (e & Hin & Hc & Ha). eauto.
      * intros (e & [<-|Hin] & Hc & Ha); [congruence|eauto].
    + destruct (ticker_info w (w_code entry)) as [info|]; simpl.
      * split.
        -- intros [<-|Hin]; [eauto|].
           apply IH in Hin as (e & Hin & Hc & Ha). eauto.
        -- intros (e & [<-|Hin] & Hc & Ha); [by left|].
           right. apply IH. eauto.
      * rewrite in_app_iff. simpl. rewrite in_app_iff in IH. split.
        -- intros [Hin|[<-|Hin]]; [|by eauto|].
           ++ destruct (proj1 IH (or_introl Hin)) as (e & ? & ? & ?). eauto.
           ++ destruct (proj1 IH (or_intror Hin)) as (e & ? & ? & ?). eauto.
        -- intros (e & [<-|Hin] & Hc & Ha); [by right; left|].
           destruct (proj2 IH (ex_intro _ e (conj Hin (conj Hc Ha)))); auto.
Qed.

Lemma refresh_all_entries w entries :
  Forall2 (fun entry entry1 =>
             w_code entry1 = w_code entry
             /\ w_status entry1 = w_status entry
             /\ (is_archived entry = true -> entry1 = entry))
    entries (fst (fst (refresh_all w entries))).
Proof.
  induction entries as [|entry rest IH]; simpl; [constructor|].
  destruct (refresh_all w rest) as [[es rs] errs]. simpl in IH.
  destruct (is_archived entry) eqn:Harch; simpl.
  - by constructor.
  - destruct (ticker_info w (w_code entry)); simpl; constructor; auto.
    split_and!; [done..|]. intros Ha. congruence.
Qed.

Lemma refresh_all_app_archived w entries entry :
  is_archived entry = true ->
  refresh_all w (entries ++ [entry])
  = (fst (fst (refresh_all w entries)) ++ [entry],
     snd (fst (refresh_all w entries)),
     snd (refresh_all w entries)).
Proof.
  intros Harch. induction entries as [|e rest IH]; simpl.
  - by rewrite Harch.
  - rewrite IH. destruct (refresh_all w rest) as [[es rs] errs]. simpl.
    destruct (is_archived e); [done|].
    by destruct (ticker_info w (w_code e)).
Qed.

Lemma new_entry_archived req today : is_archived (new_entry req today) = true.
Proof. reflexivity. Qed.

(** C10.  An entry that add-watchlist creates is stored last in the
    watchlist with status "archived", whatever the request holds, and no
    other entry has its code.  The bulk PER refresh handles (refreshes or
    reports as failing) exactly the codes of the entries that are not
    archived and leaves every archived entry as it is.  Hence, when the
    refresh runs after the entry was added, the entry is still stored
    unchanged and its code is among neither the results nor the errors. *)
Theorem new_entry_archived_and_skipped :
  (forall req w count w',
      add_watchlist req w = (Ok count, w') ->
      exists entries,
        f_watchlist (files w')
        = Some (mkWatchlist (entries ++ [new_entry req (today w)]))
        /\ w_code (new_entry req (today w)) = war_code req
        /\ w_status (new_entry req (today w)) = Some "archived"%string
        /\ Forall (fun item => w_code item <> war_code req) entries)
  /\ (forall w entries c,
        In c (map pr_code (snd (fst (refresh_all w entries)))
              ++ map pe_code (snd (refresh_all w entries)))
        <-> exists entry,
              In entry entries /\ w_code entry = c /\ is_archived entry = false)
  /\ (forall w entries,
        Forall2 (fun entry entry1 => is_archived entry = true -> entry1 = entry)
          entries (fst (fst (refresh_all w entries))))
  /\ (forall req w count w1 r w2,
        add_watchlist req w = (Ok count, w1) ->
        update_watchlist_per w1 = (r, w2) ->
        (exists entries,
            f_watchlist (files w2)
            = Some (mkWatchlist (entries ++ [new_entry req (today w)])))
        /\ match r with
           | Ok resp => ~ In (war_code req) (handled_codes resp)
           | Raise _ => True
           end).
Proof.
  split_and!.
  - intros req w count w' Hadd.
    apply add_watchlist_spec in Hadd as (_ & entries & _ & Hfresh & _ & Hfiles).
    exists entries. rewrite Hfiles. by split_and!.
  - apply refresh_all_handled.
  - intros w entries. eapply Forall2_impl; [apply refresh_all_entries|].
    simpl. tauto.
  - intros req w count w1 r w2 Hadd Hrefresh.
    apply add_watchlist_spec in Hadd as (Henv & entries & _ & Hfresh & _ & Hfiles).
    assert (f_watchlist (files w1)
            = Some (mkWatchlist (entries ++ [new_entry req (today w)])))
      as Hstored by (by rewrite Hfiles).
    apply update_watchlist_per_spec in Hrefresh as (_ & Hrefresh).
    destruct r as [resp|e].
    2: { split; [|done]. exists entries. by rewrite Hrefresh. }
    destruct Hrefresh as [[-> Hsame]|(data & Hdata & -> & Hfiles2)].
    { split; [|by intros []]. exists entries. by rewrite Hsame. }
    rewrite Hstored in Hdata. injection Hdata as <-. simpl in *.
    split.
    + rewrite Hfiles2, refresh_all_app_archived by apply new_entry_archived.
      simpl. destruct (snd (fst (refresh_all w1 entries))); simpl; eauto.
    + unfold handled_codes. simpl.
      intros (entry & Hin & Hcode & Harch)%refresh_all_handled.
      apply in_app_iff in Hin as [Hin|[<-|[]]].
      * rewrite Forall_forall in Hfresh.
        by apply (Hfresh entry); [apply list_elem_of_In|].
      * by rewrite new_entry_archived in Harch.
Qed.

Lemma new_entry_archived_and_skipped_witness :
  exists entries,
    f_watchlist
      (files (snd (add_watchlist sample_add_request (sample_world empty_files))))
    = Some (mkWatchlist (entries ++ [new_entry sample_add_request "2024-03-01"]))
    /\ w_status (new_entry sample_add_request "2024-03-01") = Some "archived"%string.
Proof.
  destruct new_entry_archived_and_skipped as (Hadd & _).
  destruct (Hadd sample_add_request (sample_world empty_files) 1%nat
              (snd (add_watchlist sample_add_request (sample_world empty_files)))
              eq_refl)
    as (entries & Hstored & _ & Hstatus & _).
  exists entries. split; [exact Hstored|exact Hstatus].
Defined.

(** ** The classifier *)

Lemma Qlt_bool_iff a b : Qlt_bool a b = true <-> (a < b)%Q.
Proof.
  unfold Qlt_bool. rewrite negb_true_iff. split.
  - intros H. apply Qnot_le_lt. intros Hle.
    apply Qle_bool_iff in Hle. congruence.
  - intros Hlt. destruct (Qle_bool b a) eqn:Hle; [|done].
    apply Qle_bool_iff in Hle. by apply Qle_not_lt in Hle.
Qed.



(** First match wins: the level in terms of the three conditions. *)
Lemma health_alert_priority data :
  health_alert data
  = if red_condition data then red
    else if orange_condition data then orange
    else if yellow_condition data then yellow
    else green.
Proof. reflexivity. Qed.



Lemma below_mono x1 x2 bound :
  missing_or_same x1 x2 -> below x1 bound = true -> below x2 bound = true.
Proof. by intros [->| ->]. Qed.

Lemma truthy_mono x1 x2 :
  missing_or_same x1 x2 -> truthy x1 = true -> truthy x2 = true.
Proof. by intros [->| ->]. Qed.

Lemma bool_count_mono (b1 b2 : bool) :
  (b1 = true -> b2 = true) ->
  ((if b1 then 1 else 0) <= (if b2 then 1 else 0))%nat.
Proof. destruct b1, b2; intros H; auto; by discriminate H. Qed.

Lemma fund_bad_mono d1 d2 :
  less_defined d1 d2 -> (fund_bad_of d1 <= fund_bad_of d2)%nat.
Proof.
  intros Hld. unfold fund_bad_of, py_sum. simpl.
  pose proof (bool_count_mono _ _ (below_mono _ _ 0 (ld_roe _ _ Hld))).
  pose proof (bool_count_mono _ _ (below_mono _ _ (- (1 # 10)) (ld_growth _ _ Hld))).
  pose proof (bool_count_mono _ _ (below_mono _ _ 0 (ld_margin _ _ Hld))).
  lia.
Qed.

Lemma red_condition_mono d1 d2 :
  less_defined d1 d2 -> red_condition d1 = true -> red_condition d2 = true.
Proof.
  intros Hld. pose proof (fund_bad_mono _ _ Hld) as Hbad.
  unfold red_condition. destruct (ld_death _ _ Hld) as [->| ->]; [done|].
  destruct (get2 (technical d2) death_cross) as [[]|]; [|done..].
  rewrite !Nat.leb_le. lia.
Qed.

Lemma sma_gap_pct_mono d1 d2 gap :
  less_defined d1 d2 ->
  sma_gap_pct_of d1 = Some gap -> sma_gap_pct_of d2 = Some gap.
Proof.
  intros Hld. unfold sma_gap_pct_of.
  destruct (ld_sma50 _ _ Hld) as [->| ->]; [done|].
  destruct (ld_sma200 _ _ Hld) as [->| ->]; [|done].
  by rewrite andb_false_r.
Qed.

Lemma orange_condition_mono d1 d2 :
  less_defined d1 d2 -> orange_condition d1 = true -> orange_condition d2 = true.
Proof.
  intros Hld. pose proof (fund_bad_mono _ _ Hld) as Hbad.
  unfold orange_condition.
  destruct (sma_gap_pct_of d1) as [gap|] eqn:Hgap; [|done].
  rewrite (sma_gap_pct_mono _ _ _ Hld Hgap).
  rewrite !andb_true_iff, !Nat.leb_le. intros [? ?]. split; [done|lia].
Qed.

Lemma yellow_condition_mono d1 d2 :
  less_defined d1 d2 -> yellow_condition d1 = true -> yellow_condition d2 = true.
Proof.
  intros Hld. unfold yellow_condition.
  rewrite !orb_true_iff. intros [Hrsi|Hprice].
  - left. destruct (ld_rsi _ _ Hld) as [Hr|Hr]; rewrite Hr in Hrsi; done.
  - right. destruct (ld_sma50 _ _ Hld) as [Hs|Hs]; rewrite Hs in Hprice;
      [done|].
    destruct (ld_current _ _ Hld) as [Hc|Hc]; rewrite Hc in Hprice; [|done].
    by rewrite andb_false_r in Hprice.
Qed.

(** C4.  A missing input never makes a rule match: a snapshot from which
    inputs were removed is classified at most as severely as the full
    one; without [death_cross] the red rule fails, without one of the two
    averages the orange rule fails, without fundamentals both fail, and
    without RSI and without the average or the price the yellow rule
    fails.  With no technical and no fundamental input the answer is
    green, whatever the price. *)
Theorem missing_inputs_never_match :
  (forall d1 d2,
      less_defined d1 d2 ->
      (severity (health_alert d1) <= severity (health_alert d2))%nat)
  /\ (forall d, get2 (technical d) death_cross = None -> red_condition d = false)
  /\ (forall d,
        get2 (technical d) sma50 = None \/ get2 (technical d) sma200 = None ->
        orange_condition d = false)
  /\ (forall d,
        get2 (fundamentals d) roe = None ->
        get2 (fundamentals d) revenue_growth = None ->
        get2 (fundamentals d) operating_margin = None ->
        red_condition d = false /\ orange_condition d = false)
  /\ (forall d,
        get2 (technical d) rsi = None ->
        get2 (technical d) sma50 = None \/ get2 (price d) current = None ->
        yellow_condition d = false)
  /\ (forall d, indicators_missing d -> health_alert d = green).
Proof.
  split_and!.
  - intros d1 d2 Hld.
    pose proof (red_condition_mono _ _ Hld) as Hred.
    pose proof (orange_condition_mono _ _ Hld) as Horange.
    pose proof (yellow_condition_mono _ _ Hld) as Hyellow.
    unfold health_alert.
    destruct (red_condition d1), (red_condition d2); simpl;
      try (specialize (Hred eq_refl); discriminate Hred); try lia;
      destruct (orange_condition d1), (orange_condition d2); simpl;
      try (specialize (Horange eq_refl); discriminate Horange); try lia;
      destruct (yellow_condition d1), (yellow_condition d2); simpl;
      try (specialize (Hyellow eq_refl); discriminate Hyellow); lia.
  - intros d H. unfold red_condition. by rewrite H.
  - intros d H. unfold orange_condition, sma_gap_pct_of.
    destruct H as [->| ->]; [done|]. by rewrite andb_false_r.
  - intros d Hroe Hgrowth Hmargin.
    unfold red_condition, orange_condition, fund_bad_of.
    rewrite Hroe, Hgrowth, Hmargin. simpl. split.
    + by destruct (get2 (technical d) death_cross) as [[]|].
    + destruct (sma_gap_pct_of d); [|done]. by rewrite andb_false_r.
  - intros d Hrsi H. unfold yellow_condition. rewrite Hrsi. simpl.
    destruct H as [->| ->]; [done|]. by rewrite andb_false_r.
  - intros d (Hrsi & Hcross & Hs50 & Hs200 & Hroe & Hgrowth & Hmargin).
    unfold health_alert, red_condition, orange_condition, sma_gap_pct_of,
      yellow_condition.
    by rewrite Hrsi, Hcross, Hs50, Hs200.
Qed.

Lemma missing_inputs_never_match_witness :
  indicators_missing price_only_example
  /\ health_alert price_only_example = green.
Proof.
  assert (indicators_missing price_only_example) as Hmissing
    by (repeat split).
  split; [exact Hmissing|].
  destruct missing_inputs_never_match as (_ & _ & _ & _ & _ & Hgreen).
  exact (Hgreen price_only_example Hmissing).
Defined.

(** ** RSI *)

Lemma length_diff_from prev closes : length (diff_from prev closes) = length closes.
Proof.
  revert prev. induction closes as [|c rest IH]; intros prev; simpl; [done|].
  by rewrite IH.
Qed.

Lemma length_diff closes : length (diff closes) = length closes.
Proof. destruct closes; simpl; [done|]. by rewrite length_diff_from. Qed.

Lemma length_rolling_mean w xs : length (rolling_mean w xs) = length xs.
Proof. unfold rolling_mean. by rewrite length_map, length_seq. Qed.

Lemma rolling_mean_lookup w xs i :
  (i < length xs)%nat ->
  rolling_mean w xs !! i
  = Some (window_mean w (firstn w (skipn (S i - w) (firstn (S i) xs)))).
Proof.
  intros Hi. unfold rolling_mean.
  rewrite list_lookup_fmap, lookup_seq_lt by done. reflexivity.
Qed.


Lemma get_full_data_rsi_window closes :
  (14 <= length closes)%nat ->
  get_full_data_rsi closes
  = Some (pf_round
            (rsi_of_rs
               (pf_div
                  (window_mean 14
                     (firstn 14 (skipn (length closes - 14)
                                   (map clip_lower0 (diff closes)))))
                  (window_mean 14
                     (firstn 14 (skipn (length closes - 14)
                                   (map pf_neg (map clip_upper0 (diff closes))))))))
            1).
Proof.
  intros Hlen. unfold get_full_data_rsi.
  replace (length closes =? 0)%nat with false by (symmetry; apply Nat.eqb_neq; lia).
  rewrite (proj2 (Nat.leb_le _ _) Hlen). simpl negb. simpl andb. cbv iota.
  rewrite last_lookup, length_map, length_zip_with, !length_rolling_mean,
    !length_map, length_diff, Nat.min_id.
  rewrite list_lookup_fmap, lookup_zip_with.
  assert (length (map clip_lower0 (diff closes)) = length closes) as Hgain
    by (by rewrite length_map, length_diff).
  assert (length (map pf_neg (map clip_upper0 (diff closes))) = length closes)
    as Hloss by (by rewrite !length_map, length_diff).
  rewrite (rolling_mean_lookup 14 (map clip_lower0 (diff closes))) by lia.
  rewrite (rolling_mean_lookup 14 (map pf_neg (map clip_upper0 (diff closes))))
    by lia.
  simpl. replace (S (pred (length closes))) with (length closes) by lia.
  rewrite (firstn_all2 (n := length closes) (map clip_lower0 (diff closes))) by lia.
  rewrite (firstn_all2 (n := length closes)
             (map pf_neg (map clip_upper0 (diff closes)))) by lia.
  replace (pred (length closes) - 13)%nat with (length closes - 14)%nat by lia.
  reflexivity.
Qed.

Lemma get_full_data_rsi_short closes :
  (length closes < 14)%nat -> get_full_data_rsi closes = None.
Proof.
  intros Hlen. unfold get_full_data_rsi.
  replace (14 <=? length closes)%nat with false
    by (symmetry; apply Nat.leb_gt; lia).
  by rewrite andb_false_r.
Qed.

(** With exactly 14 closes the only window of 14 changes starts at the
    first one, which is NaN. *)
Lemma get_full_data_rsi_fourteen closes :
  length closes = 14%nat -> get_full_data_rsi closes = Some NaN.
Proof.
  intros Hlen. rewrite get_full_data_rsi_window by lia. rewrite Hlen.
  destruct closes as [|c rest]; [done|]. reflexivity.
Qed.

Lemma increasing_from_gains prev closes :
  increasing_from prev closes -> Forall is_gain (diff_from prev closes).
Proof.
  revert prev. induction closes as [|c rest IH]; intros prev; simpl.
  - constructor.
  - intros [Hlt Hrest]. constructor; [|by apply IH].
    exists (c - prev)%Q. split; [done|]. by apply Qlt_minus_iff in Hlt.
Qed.

Lemma gains_clip_lower ws :
  Forall is_gain ws ->
  exists qs,
    all_finite (map clip_lower0 ws) = Some qs
    /\ length qs = length ws
    /\ Forall (fun q => (0 < q)%Q) qs.
Proof.
  induction 1 as [|x ws (q & -> & Hq) Hws (qs & Hqs & Hlen & Hpos)]; simpl.
  - by exists [].
  - replace (Qlt_bool q 0) with false.
    2: { symmetry. apply not_true_is_false. intros Hlt%Qlt_bool_iff.
         exact (Qlt_irrefl 0 (Qlt_trans _ _ _ Hq Hlt)). }
    rewrite Hqs. simpl. exists (q :: qs). split_and!; simpl; auto.
Qed.

Lemma gains_clip_upper ws :
  Forall is_gain ws ->
  exists qs,
    all_finite (map pf_neg (map clip_upper0 ws)) = Some qs
    /\ length qs = length ws
    /\ Forall (fun q => (q == 0)%Q) qs.
Proof.
  induction 1 as [|x ws (q & -> & Hq) Hws (qs & Hqs & Hlen & Hzero)]; simpl.
  - by exists [].
  - rewrite (proj2 (Qlt_bool_iff 0 q) Hq). simpl. rewrite Hqs. simpl.
    exists ((- 0)%Q :: qs). split_and!; simpl; [done|by f_equal|].
    constructor; [reflexivity|done].
Qed.

Lemma Qsum_positive qs :
  qs <> [] -> Forall (fun q => (0 < q)%Q) qs -> (0 < Qsum qs)%Q.
Proof.
  intros Hne Hpos. induction Hpos as [|q qs Hq Hqs IH]; [done|]. simpl.
  destruct qs as [|q' qs'].
  - simpl. by rewrite Qplus_0_r.
  - apply Qlt_trans with (0 + Qsum (q' :: qs'))%Q.
    + rewrite Qplus_0_l. by apply IH.
    + by apply Qplus_lt_le_compat; [|apply Qle_refl].
Qed.

Lemma Qsum_zero qs : Forall (fun q => (q == 0)%Q) qs -> (Qsum qs == 0)%Q.
Proof.
  induction 1 as [|q qs Hq Hqs IH]; simpl; [done|]. rewrite Hq, IH. ring.
Qed.

(** A full window of gains: the average gain is positive, the average
    loss is zero, and their quotient is +infinity. *)
Lemma gains_window_rs ws :
  length ws = 14%nat ->
  Forall is_gain ws ->
  pf_div (window_mean 14 (map clip_lower0 ws))
         (window_mean 14 (map pf_neg (map clip_upper0 ws)))
  = PInf.
Proof.
  intros Hlen Hgains. unfold window_mean.
  destruct (gains_clip_lower ws Hgains) as (gs & -> & Hglen & Hgpos).
  destruct (gains_clip_upper ws Hgains) as (ls & -> & Hllen & Hlzero).
  rewrite Hglen, Hllen, Hlen. simpl.
  assert (0 < Qsum gs / inject_Z (Z.of_nat 14))%Q as Hg.
  { apply Qlt_shift_div_l; [done|]. rewrite Qmult_0_l.
    apply Qsum_positive; [|done]. intros ->. simpl in Hglen. lia. }
  assert (Qsum ls / inject_Z (Z.of_nat 14) == 0)%Q as Hl.
  { rewrite (Qsum_zero ls Hlzero). reflexivity. }
  apply Qeq_bool_iff in Hl. rewrite Hl.
  replace (Qeq_bool (Qsum gs / inject_Z (Z.of_nat 14)) 0) with false.
  2: { symmetry. apply not_true_is_false. intros Heq%Qeq_bool_iff.
       rewrite Heq in Hg. by apply Qlt_irrefl in Hg. }
  by rewrite (proj2 (Qlt_bool_iff _ _) Hg).
Qed.

Lemma get_full_data_rsi_rising closes :
  strictly_increasing closes ->
  (15 <= length closes)%nat ->
  get_full_data_rsi closes = Some (Fin 100).
Proof.
  intros Hinc Hlen. rewrite get_full_data_rsi_window by lia.
  destruct closes as [|c rest]; [simpl in Hlen; lia|].
  simpl in Hinc, Hlen. simpl length. simpl diff.
  replace (S (length rest) - 14)%nat with (S (length rest - 14)) by lia.
  simpl map. simpl skipn.
  rewrite !skipn_map, !firstn_map.
  set (ws := firstn 14 (skipn (length rest - 14) (diff_from c rest))).
  rewrite (gains_window_rs ws).
  - reflexivity.
  - unfold ws. rewrite length_take, length_drop, length_diff_from. lia.
  - unfold ws. by apply Forall_take, Forall_drop, increasing_from_gains.
Qed.

Lemma rising_closes_increasing n : strictly_increasing (rising_closes n).
Proof.
  unfold rising_closes. generalize 1%nat as start.
  induction n as [|n IH]; intros start; simpl; [done|].
  specialize (IH (S start)). destruct n as [|n]; simpl in *; [done|].
  split; [|exact IH].
  unfold Qlt. simpl. lia.
Qed.

Lemma length_rising_closes n : length (rising_closes n) = n.
Proof. unfold rising_closes. by rewrite length_map, length_seq. Qed.

(** C5, as stated, does not hold: 14 rising closes give 13 changes, the
    window of 14 is not filled, and the RSI is NaN instead of 100. *)
Lemma rsi_rising_fourteen_not_ceiling :
  ~ (forall closes,
        strictly_increasing closes ->
        (14 <= length closes)%nat ->
        get_full_data_rsi closes = Some (Fin 100)).
Proof.
  intros H.
  specialize (H (rising_closes 14) (rising_closes_increasing 14)).
  rewrite length_rising_closes in H. specialize (H (le_n 14)).
  rewrite get_full_data_rsi_fourteen in H by apply length_rising_closes.
  discriminate H.
Qed.

(** C5, amended.  For every strictly increasing series of at least 15
    closes (so that the last 14 day-over-day changes exist and are all
    gains, and the average loss is 0) the computed RSI is the ceiling
    value 100: the division by the zero average loss gives +infinity and
    does not raise. *)
Theorem rsi_ceiling_for_rising_closes (closes : list Q) :
  strictly_increasing closes ->
  (15 <= length closes)%nat ->
  get_full_data_rsi closes = Some (Fin 100).
Proof. apply get_full_data_rsi_rising. Qed.

Lemma rsi_ceiling_for_rising_closes_witness :
  strictly_increasing (rising_closes 20)
  /\ (15 <= length (rising_closes 20))%nat
  /\ get_full_data_rsi (rising_closes 20) = Some (Fin 100).
Proof.
  assert (15 <= length (rising_closes 20))%nat as Hlen
    by (rewrite length_rising_closes; lia).
  split; [apply rising_closes_increasing|]. split; [exact Hlen|].
  apply (rsi_ceiling_for_rising_closes (rising_closes 20));
    [apply rising_closes_increasing|exact Hlen].
Defined.

(** C6.  With fewer than 14 closes the computed RSI is [None].  With
    exactly 14 closes the guard of [get_full_data] lets the computation
    run, the only window of 14 changes holds the NaN that [diff] puts
    first, and the computed RSI is NaN, a float, where the specification
    asks for [None]. *)
Theorem rsi_of_short_history :
  (forall closes, (length closes < 14)%nat -> get_full_data_rsi closes = None)
  /\ (forall closes, length closes = 14%nat -> get_full_data_rsi closes = Some NaN)
  /\ get_full_data_rsi (rising_closes 14) = Some NaN.
Proof.
  split_and!.
  - apply get_full_data_rsi_short.
  - apply get_full_data_rsi_fourteen.
  - apply get_full_data_rsi_fourteen, length_rising_closes.
Qed.

Lemma rsi_of_short_history_witness :
  get_full_data_rsi (rising_closes 13) = None.
Proof.
  destruct rsi_of_short_history as (Hshort & _).
  apply (Hshort (rising_closes 13)).
  rewrite length_rising_closes. lia.
Defined.

(** ** The store without a token *)

Lemma github_fetch_json_no_token {A} (p : doc_path A) w :
  token w = false -> github_fetch_json p w = (Raise RuntimeError, w).
Proof.
  intros Htok. unfold github_fetch_json, require_token, bind. by rewrite Htok.
Qed.

Lemma github_update_json_no_token {A} (p : doc_path A) (d : A) w :
  token w = false -> github_update_json p d w = (Raise RuntimeError, w).
Proof.
  intros Htok. unfold github_update_json, require_token, bind. by rewrite Htok.
Qed.

Lemma github_delete_file_no_token {A} (p : doc_path A) w :
  token w = false -> github_delete_file p w = (Raise RuntimeError, w).
Proof.
  intros Htok. unfold github_delete_file, require_token, bind. by rewrite Htok.
Qed.

Ltac run_no_token Htok :=
  unfold bind, try_except, get_world, ret, raise;
  rewrite ?(github_fetch_json_no_token _ _ Htok),
    ?(github_update_json_no_token _ _ _ Htok),
    ?(github_delete_file_no_token _ _ Htok);
  simpl; try reflexivity.

(** X1.  When GITHUB_TOKEN is not set, every endpoint that reads or
    writes the repository refuses and leaves the world as it is: no
    request is sent and no file changes.  The analysis-data endpoint
    answers 404, as it does for every failure; every other endpoint
    answers 500.  (The bulk refresh answers 503 first when yfinance is
    missing, and a status request with an invalid status is still
    answered with 400.) *)
Theorem no_token_refuses_without_a_request (w : World) :
  token w = false ->
  get_watchlist w = (Raise (HTTPException 500), w)
  /\ get_manifest w = (Raise (HTTPException 500), w)
  /\ (forall code, get_stock_data code w = (Raise (HTTPException 404), w))
  /\ (forall req, add_watchlist req w = (Raise (HTTPException 500), w))
  /\ (forall code, delete_watchlist code w = (Raise (HTTPException 500), w))
  /\ (forall req,
        existsb (String.eqb (wsr_status req)) VALID_STATUSES = true ->
        update_watchlist_status req w = (Raise (HTTPException 500), w))
  /\ (YFINANCE_AVAILABLE w = true ->
      update_watchlist_per w = (Raise (HTTPException 500), w))
  /\ (forall yf, get_portfolio yf w = (Raise (HTTPException 500), w))
  /\ (forall req, buy_stock req w = (Raise (HTTPException 500), w))
  /\ (forall req, sell_stock req w = (Raise (HTTPException 500), w))
  /\ reset_portfolio w = (Raise (HTTPException 500), w)
  /\ (forall code, delete_holding code w = (Raise (HTTPException 500), w))
  /\ (forall index, delete_trade index w = (Raise (HTTPException 500), w))
  /\ (forall yf, healthcheck yf w = (Raise (HTTPException 500), w))
  /\ (forall code, delete_report code w = (Raise (HTTPException 500), w)).
Proof.
  intros Htok. split_and!; intros.
  - unfold get_watchlist. run_no_token Htok.
  - unfold get_manifest. run_no_token Htok.
  - unfold get_stock_data. run_no_token Htok.
  - unfold add_watchlist. run_no_token Htok.
  - unfold delete_watchlist. run_no_token Htok.
  - unfold update_watchlist_status. rewrite H. run_no_token Htok.
  - unfold update_watchlist_per. unfold bind at 1, get_world at 1.
    unfold bind at 1. rewrite H. run_no_token Htok.
  - unfold get_portfolio. run_no_token Htok.
  - unfold buy_stock. run_no_token Htok.
  - unfold sell_stock. run_no_token Htok.
  - unfold reset_portfolio, on_runtime_error_500. run_no_token Htok.
  - unfold delete_holding. run_no_token Htok.
  - unfold delete_trade. run_no_token Htok.
  - unfold healthcheck. run_no_token Htok.
  - unfold delete_report. run_no_token Htok.
Qed.

Lemma no_token_refuses_without_a_request_witness :
  sell_stock (sample_sell_request 10) tokenless_world
  = (Raise (HTTPException 500), tokenless_world)
  /\ get_stock_data "7203" tokenless_world
     = (Raise (HTTPException 404), tokenless_world).
Proof.
  destruct (no_token_refuses_without_a_request tokenless_world eq_refl)
    as (_ & _ & Hdata & _ & _ & _ & _ & _ & _ & Hsell & _).
  split; [exact (Hsell (sample_sell_request 10))|exact (Hdata "7203"%string)].
Defined.

(** ** Healthy worlds *)

Lemma healthy_set_files f w : healthy w -> healthy (set_files f w).
Proof. by intros [? ?]. Qed.

Lemma fetch_guarded_spec {A} (p : doc_path A) (handler : exn -> M A) w r w1 :
  (forall e w0, exists e', handler e w0 = (Raise e', w0)) ->
  try_except (github_fetch_json p) handler w = (r, w1) ->
  files w1 = files w /\ env_eq w w1
  /\ match r with
     | Ok d => read_file p (files w) = Some d
     | Raise _ => True
     end.
Proof.
  intros Hraise. unfold try_except.
  destruct (github_fetch_json p w) as [[d|e] w0] eqn:Hf;
    apply github_fetch_json_spec in Hf as (Hfiles & Henv & Hread).
  - by intros [= <- <-].
  - destruct (Hraise e w0) as [e' ->]. by intros [= <- <-].
Qed.

Lemma fetch_guarded_healthy {A} (p : doc_path A) (handler : exn -> M A) w d :
  healthy w ->
  read_file p (files w) = Some d ->
  try_except (github_fetch_json p) handler w = (Ok d, w).
Proof.
  intros Hw Hread. unfold try_except.
  by rewrite github_fetch_json_healthy, Hread.
Qed.

Lemma fetch_guarded_healthy_absent {A} (p : doc_path A) (handler : exn -> M A) w :
  healthy w ->
  read_file p (files w) = None ->
  try_except (github_fetch_json p) handler w = handler FileNotFoundError w.
Proof.
  intros Hw Hread. unfold try_except.
  by rewrite github_fetch_json_healthy, Hread.
Qed.

Lemma guarded_update_healthy {A} (p : doc_path A) (d : A) w :
  healthy w ->
  try_except (github_update_json p d) on_runtime_error_500 w
  = (Ok tt, set_files (write_file p (Some d) (files w)) w).
Proof.
  intros Hw. unfold try_except. by rewrite github_update_json_healthy.
Qed.

(** ** Lists *)

Lemma filter_length_le {A} (f : A -> bool) (l : list A) :
  (length (List.filter f l) <= length l)%nat.
Proof.
  induction l as [|x l IH]; simpl; [lia|]. destruct (f x); simpl; lia.
Qed.

Lemma filter_length_all {A} (f : A -> bool) (l : list A) :
  length (List.filter f l) = length l <-> Forall (fun x => f x = true) l.
Proof.
  induction l as [|x l IH]; simpl.
  - split; [constructor|done].
  - pose proof (filter_length_le f l). destruct (f x) eqn:Hx; simpl.
    + rewrite Forall_cons. split.
      * intros [= Hlen]. split; [done|by apply IH].
      * intros [_ Hall]. f_equal. by apply IH.
    + split; [lia|]. intros [Hx' _]%Forall_cons. congruence.
Qed.

Lemma filter_all_id {A} (f : A -> bool) (l : list A) :
  Forall (fun x => f x = true) l -> List.filter f l = l.
Proof.
  induction 1 as [|x l Hx Hl IH]; simpl; [done|]. by rewrite Hx, IH.
Qed.

Lemma filter_Forall_pass {A} (f : A -> bool) (l : list A) :
  Forall (fun x => f x = true) (List.filter f l).
Proof.
  induction l as [|x l IH]; simpl; [constructor|].
  destruct (f x) eqn:Hx; [by constructor|done].
Qed.

Lemma update_first_length {A} (p : A -> bool) (f : A -> A) (l : list A) :
  length (update_first p f l) = length l.
Proof.
  induction l as [|x l IH]; simpl; [done|]. destruct (p x); simpl; by rewrite ?IH.
Qed.

Lemma update_first_map {A B} (p : A -> bool) (f : A -> A) (g : A -> B) (l : list A) :
  (forall x, g (f x) = g x) -> map g (update_first p f l) = map g l.
Proof.
  intros Hg. induction l as [|x l IH]; simpl; [done|].
  destruct (p x); simpl; by rewrite ?Hg, ?IH.
Qed.

Lemma update_first_none {A} (p : A -> bool) (f : A -> A) (l : list A) :
  find p l = None -> update_first p f l = l.
Proof.
  induction l as [|x l IH]; simpl; [done|].
  destruct (p x); [done|]. intros H. by rewrite IH.
Qed.

Lemma filter_drops_some {A} (f : A -> bool) (l : list A) :
  length (List.filter f l) <> length l -> exists x, In x l /\ f x = false.
Proof.
  induction l as [|x l IH]; simpl; [done|].
  destruct (f x) eqn:Hx; simpl.
  - intros Hne. destruct IH as (y & Hin & Hy); [lia|]. eauto.
  - eauto.
Qed.

(** ** Watchlist: add, delete, status *)

Lemma negb_eqb_true_iff (a b : string) : negb (String.eqb a b) = true <-> a <> b.
Proof. rewrite negb_true_iff. apply String.eqb_neq. Qed.

Lemma existsb_code_In code entries :
  existsb (fun item => String.eqb (w_code item) code) entries = true
  <-> In code (map w_code entries).
Proof.
  rewrite existsb_exists, in_map_iff. split.
  - intros (x & Hin & Heq%String.eqb_eq). eauto.
  - intros (x & Heq & Hin). exists x. split; [done|]. by apply String.eqb_eq.
Qed.

Lemma add_watchlist_healthy req w :
  healthy w ->
  ~ In (war_code req) (map w_code (stored_watchlist w)) ->
  add_watchlist req w
  = (Ok (S (length (stored_watchlist w))),
     set_files
       (write_file GH_WATCHLIST_PATH
          (Some (mkWatchlist (stored_watchlist w ++ [new_entry req (today w)])))
          (files w))
       w).
Proof.
  intros Hw Hfresh. unfold stored_watchlist in *. unfold add_watchlist, bind at 1.
  destruct (f_watchlist (files w)) as [data|] eqn:Hdata.
  - rewrite (fetch_guarded_healthy _ _ _ data Hw) by done.
    unfold bind at 1.
    destruct (existsb _ (watchlist data)) eqn:Hdup.
    { by apply existsb_code_In in Hdup. }
    unfold ret at 1, bind at 1, get_world at 1, bind at 1.
    rewrite guarded_update_healthy by done. unfold ret. cbn [watchlist].
    by rewrite length_app, Nat.add_1_r.
  - rewrite fetch_guarded_healthy_absent by done.
    unfold ret at 1, bind at 1. cbn [watchlist existsb app].
    unfold ret at 1, bind at 1, get_world at 1, bind at 1.
    by rewrite guarded_update_healthy.
Qed.

Lemma add_watchlist_duplicate req w w1 data :
  github_fetch_json GH_WATCHLIST_PATH w = (Ok data, w1) ->
  In (war_code req) (map w_code (watchlist data)) ->
  add_watchlist req w = (Raise (HTTPException 409), w1).
Proof.
  intros Hfetch Hin. unfold add_watchlist, bind at 1, try_except at 1.
  rewrite Hfetch. unfold bind at 1.
  by rewrite (proj2 (existsb_code_In _ _) Hin).
Qed.

(** X2.  A code that is already on the watchlist is not added again: the
    request is answered with HTTP 409 right after the fetch, before any
    write.  In particular, once an entry was added on a working store,
    every further add with the same code is rejected and the stored
    watchlist stays as the first add left it. *)
Theorem add_watchlist_rejects_duplicate :
  (forall req w w1 data,
      github_fetch_json GH_WATCHLIST_PATH w = (Ok data, w1) ->
      In (war_code req) (map w_code (watchlist data)) ->
      add_watchlist req w = (Raise (HTTPException 409), w1)
      /\ files w1 = files w)
  /\ (forall req req2 w count w1,
        healthy w ->
        add_watchlist req w = (Ok count, w1) ->
        war_code req2 = war_code req ->
        add_watchlist req2 w1 = (Raise (HTTPException 409), w1)).
Proof.
  split.
  - intros req w w1 data Hfetch Hin.
    split; [by eapply add_watchlist_duplicate|].
    by apply github_fetch_json_spec in Hfetch as (? & _).
  - intros req req2 w count w1 Hw Hadd Hcode.
    assert (~ In (war_code req) (map w_code (stored_watchlist w))) as Hfresh.
    { unfold stored_watchlist.
      destruct (f_watchlist (files w)) as [data|] eqn:Hdata; [|simpl; tauto].
      intros Hin.
      rewrite (add_watchlist_duplicate req w w data) in Hadd; [done| |done].
      rewrite github_fetch_json_healthy by done. simpl. by rewrite Hdata. }
    rewrite add_watchlist_healthy in Hadd by done.
    injection Hadd as _ <-.
    eapply add_watchlist_duplicate.
    + rewrite github_fetch_json_healthy by by apply healthy_set_files.
      reflexivity.
    + simpl. rewrite map_app, in_app_iff. right. simpl. auto.
Qed.

Lemma add_watchlist_rejects_duplicate_witness :
  add_watchlist (mkWatchlistAddRequest "6501" "Hitachi again" EmptyString "C" None)
    (snd (add_watchlist sample_add_request (sample_world empty_files)))
  = (Raise (HTTPException 409),
     snd (add_watchlist sample_add_request (sample_world empty_files))).
Proof.
  destruct add_watchlist_rejects_duplicate as (_ & Htwice).
  apply (Htwice sample_add_request _ (sample_world empty_files) 1%nat);
    [split; reflexivity | reflexivity | reflexivity].
Defined.

(** X3.  Adding keeps the codes of the watchlist pairwise distinct, and
    the count it answers is the number of entries now stored. *)
Theorem add_watchlist_keeps_codes_unique req w count w' :
  codes_unique (stored_watchlist w) ->
  add_watchlist req w = (Ok count, w') ->
  codes_unique (stored_watchlist w')
  /\ count = length (stored_watchlist w')
  /\ In (war_code req) (map w_code (stored_watchlist w')).
Proof.
  intros Hunique Hadd.
  apply add_watchlist_spec in Hadd as (_ & entries & Hstored & Hfresh & -> & Hfiles).
  unfold stored_watchlist, codes_unique in *. rewrite Hfiles. simpl.
  split_and!; [|done|].
  - rewrite map_app. apply NoDup_app. split_and!.
    + destruct Hstored as [Hs | ->]; [by rewrite Hs in Hunique|constructor].
    + intros c Hc ->%list_elem_of_singleton.
      apply list_elem_of_In, in_map_iff in Hc as (x & Hx & Hin).
      rewrite Forall_forall in Hfresh.
      by apply (Hfresh x); [apply list_elem_of_In|].
    + apply NoDup_singleton.
  - rewrite map_app, in_app_iff. right. simpl. auto.
Qed.

Lemma add_watchlist_keeps_codes_unique_witness :
  codes_unique
    (stored_watchlist
       (snd (add_watchlist sample_add_request (sample_world sample_watchlist_files)))).
Proof.
  apply (add_watchlist_keeps_codes_unique sample_add_request
           (sample_world sample_watchlist_files) 3%nat).
  - unfold codes_unique. apply (bool_decide_unpack _). vm_compute. exact I.
  - reflexivity.
Defined.

Lemma delete_watchlist_spec code w r w' :
  delete_watchlist code w = (r, w') ->
  env_eq w w'
  /\ match r with
     | Ok count =>
         exists data,
           f_watchlist (files w) = Some data
           /\ In code (map w_code (watchlist data))
           /\ count
              = length (List.filter (fun x => negb (String.eqb (w_code x) code))
                          (watchlist data))
           /\ files w'
              = write_file GH_WATCHLIST_PATH
                  (Some (mkWatchlist
                           (List.filter
                              (fun x => negb (String.eqb (w_code x) code))
                              (watchlist data))))
                  (files w)
     | Raise e => files w' = files w
     end.
Proof.
  unfold delete_watchlist, bind at 1.
  match goal with
  | |- context [try_except ?m ?h w] =>
      destruct (try_except m h w) as [[data|e] w1] eqn:Hf;
        (apply fetch_guarded_spec in Hf as (Hfiles1 & Henv1 & Hread);
         [|by intros; eexists])
  end.
  2: { intros [= <- <-]; auto. }
  simpl in Hread. unfold bind at 1.
  destruct (Nat.eqb_spec
              (length (List.filter (fun x => negb (String.eqb (w_code x) code))
                         (watchlist data)))
              (length (watchlist data))) as [Hsame|Hless].
  { unfold raise at 1. intros [= <- <-]; auto. }
  unfold ret at 1, bind at 1.
  step_update w1 w2 Hu; [unfold ret|]; intros [= <- <-];
    (split; [by eapply env_eq_trans|]); rewrite Hfiles1 in Hu.
  2: { by destruct Hu. }
  exists data. split_and!; [done| |done..].
  apply filter_drops_some in Hless as (x & Hin & Hx).
  apply negb_false_iff, String.eqb_eq in Hx. apply in_map_iff. eauto.
Qed.

Lemma delete_watchlist_healthy code w data :
  healthy w ->
  f_watchlist (files w) = Some data ->
  delete_watchlist code w
  = if (length (List.filter (fun x => negb (String.eqb (w_code x) code))
                  (watchlist data))
        =? length (watchlist data))%nat
    then (Raise (HTTPException 404), w)
    else (Ok (length (List.filter (fun x => negb (String.eqb (w_code x) code))
                        (watchlist data))),
          set_files
            (write_file GH_WATCHLIST_PATH
               (Some (mkWatchlist
                        (List.filter (fun x => negb (String.eqb (w_code x) code))
                           (watchlist data))))
               (files w))
            w).
Proof.
  intros Hw Hdata. unfold delete_watchlist, bind at 1.
  rewrite (fetch_guarded_healthy _ _ _ data Hw) by done.
  unfold bind at 1.
  destruct (_ =? _)%nat; [done|].
  unfold ret at 1, bind at 1. by rewrite guarded_update_healthy.
Qed.

(** X4.  Deleting a code from the watchlist removes every entry of that
    code and nothing else: the stored watchlist is the earlier list
    filtered by the code, so the remaining entries keep their order and
    their number of occurrences, and no other document changes; the
    count answered is their number, smaller than before.  A code that is
    not on the list is
    answered with 404 and nothing is written; a watchlist file that does
    not exist is answered with 500, not 404. *)
Theorem delete_watchlist_removes_the_code :
  (forall code w count w',
      delete_watchlist code w = (Ok count, w') ->
      exists data,
        f_watchlist (files w) = Some data
        /\ In code (map w_code (watchlist data))
        /\ stored_watchlist w'
           = List.filter (fun x => negb (String.eqb (w_code x) code))
               (watchlist data)
        /\ f_portfolio (files w') = f_portfolio (files w)
        /\ f_manifest (files w') = f_manifest (files w)
        /\ f_stocks (files w') = f_stocks (files w)
        /\ ~ In code (map w_code (stored_watchlist w'))
        /\ (forall x,
              In x (stored_watchlist w') <-> In x (watchlist data) /\ w_code x <> code)
        /\ count = length (stored_watchlist w')
        /\ (count < length (watchlist data))%nat)
  /\ (forall code w data,
        healthy w ->
        f_watchlist (files w) = Some data ->
        ~ In code (map w_code (watchlist data)) ->
        delete_watchlist code w = (Raise (HTTPException 404), w))
  /\ (forall code w,
        healthy w ->
        f_watchlist (files w) = None ->
        delete_watchlist code w = (Raise (HTTPException 500), w)).
Proof.
  split_and!.
  - intros code w count w' Hrun.
    apply delete_watchlist_spec in Hrun as (_ & data & Hdata & Hin & -> & Hfiles).
    exists data. unfold stored_watchlist. rewrite Hfiles. simpl.
    split_and!; [done..| | |done|].
    + intros (x & Hx & Hxin)%in_map_iff.
      apply filter_In in Hxin as [_ Hne]. by apply negb_eqb_true_iff in Hne.
    + intros x. rewrite filter_In, negb_eqb_true_iff. tauto.
    + pose proof (filter_length_le
                    (fun x => negb (String.eqb (w_code x) code)) (watchlist data)).
      assert (length (List.filter (fun x => negb (String.eqb (w_code x) code))
                        (watchlist data)) <> length (watchlist data)); [|lia].
      intros Hall%filter_length_all.
      apply in_map_iff in Hin as (x & Hx & Hxin).
      rewrite Forall_forall in Hall.
      specialize (Hall x (proj2 (list_elem_of_In _ _) Hxin)).
      by apply negb_eqb_true_iff in Hall.
  - intros code w data Hw Hdata Hnotin.
    rewrite (delete_watchlist_healthy code w data) by done.
    replace (_ =? _)%nat with true; [done|].
    symmetry. apply Nat.eqb_eq, filter_length_all, Forall_forall.
    intros x Hx%list_elem_of_In. apply negb_eqb_true_iff. intros Hc.
    apply Hnotin, in_map_iff. eauto.
  - intros code w Hw Habsent. unfold delete_watchlist, bind at 1.
    by rewrite fetch_guarded_healthy_absent.
Qed.

Lemma delete_watchlist_removes_the_code_witness :
  stored_watchlist
    (snd (delete_watchlist "7203" (sample_world sample_watchlist_files)))
  = [sample_entry "6758" "archived"].
Proof.
  destruct delete_watchlist_removes_the_code as (Hok & _).
  destruct (Hok "7203"%string (sample_world sample_watchlist_files) 1%nat
              (snd (delete_watchlist "7203" (sample_world sample_watchlist_files)))
              eq_refl)
    as (data & Hdata & _ & Hstored & _).
  rewrite Hstored. simpl in Hdata. injection Hdata as <-. reflexivity.
Defined.

(** X5.  On a working store, deleting the code of an entry that was just
    added gives back the watchlist as it was before the add (the empty
    list when there was no file), and answers the earlier count. *)
Theorem add_then_delete_watchlist_restores req w count w1 :
  healthy w ->
  add_watchlist req w = (Ok count, w1) ->
  exists w2,
    delete_watchlist (war_code req) w1 = (Ok (length (stored_watchlist w)), w2)
    /\ stored_watchlist w2 = stored_watchlist w
    /\ count = S (length (stored_watchlist w)).
Proof.
  intros Hw Hadd.
  assert (~ In (war_code req) (map w_code (stored_watchlist w))) as Hfresh.
  { unfold stored_watchlist.
    destruct (f_watchlist (files w)) as [data|] eqn:Hdata; [|simpl; tauto].
    intros Hin.
    rewrite (add_watchlist_duplicate req w w data) in Hadd; [done| |done].
    rewrite github_fetch_json_healthy by done. simpl. by rewrite Hdata. }
  rewrite add_watchlist_healthy in Hadd by done. injection Hadd as <- <-.
  assert (List.filter (fun x => negb (String.eqb (w_code x) (war_code req)))
            (stored_watchlist w ++ [new_entry req (today w)])
          = stored_watchlist w) as Hfilter.
  { rewrite List.filter_app. simpl. rewrite String.eqb_refl. simpl.
    rewrite app_nil_r. apply filter_all_id, Forall_forall.
    intros x Hx%list_elem_of_In. apply negb_eqb_true_iff. intros Hc.
    apply Hfresh, in_map_iff. eauto. }
  eexists. split; [|split; [|reflexivity]].
  - erewrite delete_watchlist_healthy;
      [|by apply healthy_set_files|reflexivity].
    cbn [watchlist]. rewrite Hfilter, length_app. simpl.
    replace (_ =? _)%nat with false by (symmetry; apply Nat.eqb_neq; lia).
    reflexivity.
  - reflexivity.
Qed.

Lemma add_then_delete_watchlist_restores_witness :
  exists w2,
    delete_watchlist "6501"
      (snd (add_watchlist sample_add_request (sample_world sample_watchlist_files)))
    = (Ok 2%nat, w2)
    /\ stored_watchlist w2 = stored_watchlist (sample_world sample_watchlist_files).
Proof.
  destruct (add_then_delete_watchlist_restores sample_add_request
              (sample_world sample_watchlist_files) 3%nat
              (snd (add_watchlist sample_add_request
                      (sample_world sample_watchlist_files)))
              (conj eq_refl eq_refl) eq_refl)
    as (w2 & Hdelete & Hsame & _).
  exists w2. split; [exact Hdelete|exact Hsame].
Defined.

Lemma update_watchlist_status_spec req w r w' :
  update_watchlist_status req w = (r, w') ->
  env_eq w w'
  /\ match r with
     | Ok _ =>
         exists data x,
           existsb (String.eqb (wsr_status req)) VALID_STATUSES = true
           /\ f_watchlist (files w) = Some data
           /\ find (entry_has_code (wsr_code req)) (watchlist data) = Some x
           /\ files w'
              = write_file GH_WATCHLIST_PATH
                  (Some (mkWatchlist
                           (update_first (entry_has_code (wsr_code req))
                              (fun x => set_status x (wsr_status req))
                              (watchlist data))))
                  (files w)
     | Raise e => files w' = files w
     end.
Proof.
  unfold update_watchlist_status, bind at 1.
  destruct (existsb (String.eqb (wsr_status req)) VALID_STATUSES) eqn:Hvalid.
  2: { unfold raise. intros [= <- <-]. split; [apply env_eq_refl|done]. }
  unfold ret at 1, bind at 1.
  match goal with
  | |- context [try_except ?m ?h w] =>
      destruct (try_except m h w) as [[data|e] w1] eqn:Hf;
        (apply fetch_guarded_spec in Hf as (Hfiles1 & Henv1 & Hread);
         [|by intros; eexists])
  end.
  2: { intros [= <- <-]; auto. }
  simpl in Hread.
  destruct (find (entry_has_code (wsr_code req)) (watchlist data)) as [x|] eqn:Hfind.
  2: { unfold raise. intros [= <- <-]; auto. }
  intros Hu. apply guarded_update_spec in Hu as (Henv2 & Hu).
  split; [by eapply env_eq_trans|]. rewrite Hfiles1 in Hu.
  destruct r as [[]|e]; [|by destruct Hu].
  exists data, x. by split_and!.
Qed.

(** X6.  A status that is not one of watching, interested, archived is
    answered with HTTP 400 before anything else happens: no request is
    sent and the world is untouched, whatever the store holds.  With a
    valid status, a code that is not on the fetched watchlist is
    answered with 404 and nothing is written. *)
Theorem update_watchlist_status_validates_first :
  (forall req w,
      ~ In (wsr_status req) VALID_STATUSES ->
      update_watchlist_status req w = (Raise (HTTPException 400), w))
  /\ (forall req w w1 data,
        In (wsr_status req) VALID_STATUSES ->
        github_fetch_json GH_WATCHLIST_PATH w = (Ok data, w1) ->
        ~ In (wsr_code req) (map w_code (watchlist data)) ->
        update_watchlist_status req w = (Raise (HTTPException 404), w1)
        /\ files w1 = files w).
Proof.
  split.
  - intros req w Hbad. unfold update_watchlist_status, bind at 1.
    destruct (existsb _ VALID_STATUSES) eqn:Hvalid; [|done].
    apply existsb_exists in Hvalid as (s & Hin & Heq%String.eqb_eq).
    subst s. done.
  - intros req w w1 data Hvalid Hfetch Hnotin.
    pose proof Hfetch as (Hfiles & _)%github_fetch_json_spec.
    split; [|done].
    unfold update_watchlist_status, bind at 1.
    replace (existsb _ VALID_STATUSES) with true.
    2: { symmetry. apply existsb_exists. exists (wsr_status req).
         split; [done|apply String.eqb_refl]. }
    unfold ret at 1, bind at 1, try_except at 1. rewrite Hfetch.
    destruct (find _ (watchlist data)) as [x|] eqn:Hfind; [|done].
    apply find_some in Hfind as [Hin Hcode%String.eqb_eq].
    destruct Hnotin. apply in_map_iff. eauto.
Qed.

Lemma update_watchlist_status_validates_first_witness :
  update_watchlist_status (mkWatchlistStatusRequest "7203" "pending")
    (sample_world sample_watchlist_files)
  = (Raise (HTTPException 400), sample_world sample_watchlist_files).
Proof.
  destruct update_watchlist_status_validates_first as (Hinvalid & _).
  apply (Hinvalid (mkWatchlistStatusRequest "7203" "pending")).
  simpl. intros [H|[H|[H|[]]]]; discriminate H.
Defined.

(** X7.  A successful status change rewrites one entry only: the
    watchlist keeps its length and its codes in order, the first entry
    with the requested code now carries the requested status (its code,
    name, note, rank, PER and PER history are as before), and every entry
    with another code is unchanged. *)
Theorem update_watchlist_status_changes_one_entry req w w' :
  update_watchlist_status req w = (Ok tt, w') ->
  exists data x,
    f_watchlist (files w) = Some data
    /\ find (entry_has_code (wsr_code req)) (watchlist data) = Some x
    /\ find (entry_has_code (wsr_code req)) (stored_watchlist w')
       = Some (set_status x (wsr_status req))
    /\ map w_code (stored_watchlist w') = map w_code (watchlist data)
    /\ Forall2 (fun old new => w_code old <> wsr_code req -> new = old)
         (watchlist data) (stored_watchlist w').
Proof.
  intros Hrun.
  apply update_watchlist_status_spec in Hrun
    as (_ & data & x & _ & Hdata & Hfind & Hfiles).
  exists data, x. unfold stored_watchlist. rewrite Hfiles. simpl.
  split_and!; [done..| | |].
  - apply (find_update_first _ (fun y => set_status y (wsr_status req)) _ x Hfind).
    apply find_some in Hfind as [_ Hcode]. exact Hcode.
  - exact (update_first_map _ (fun y => set_status y (wsr_status req)) w_code _
             (fun _ => eq_refl)).
  - clear. induction (watchlist data) as [|y l IH]; simpl; [constructor|].
    destruct (entry_has_code (wsr_code req) y) eqn:Hy.
    + constructor.
      * intros Hne. by apply String.eqb_eq in Hy.
      * clear. induction l; constructor; auto.
    + by constructor.
Qed.

Lemma update_watchlist_status_changes_one_entry_witness :
  map w_status
    (stored_watchlist
       (snd (update_watchlist_status (mkWatchlistStatusRequest "6758" "interested")
               (sample_world sample_watchlist_files))))
  = [Some "watching"%string; Some "interested"%string].
Proof.
  destruct (update_watchlist_status_changes_one_entry
              (mkWatchlistStatusRequest "6758" "interested")
              (sample_world sample_watchlist_files)
              (snd (update_watchlist_status
                      (mkWatchlistStatusRequest "6758" "interested")
                      (sample_world sample_watchlist_files)))
              eq_refl)
    as (data & x & _).
  reflexivity.
Defined.

(** ** The bulk PER refresh *)

Section RefreshPer.
Variables (today : string) (info : TickerInfo).

Lemma refresh_per_code entry : w_code (fst (refresh_per today info entry)) = w_code entry.
Proof. reflexivity. Qed.

Lemma refresh_per_status entry :
  w_status (fst (refresh_per today info entry)) = w_status entry.
Proof. reflexivity. Qed.

Lemma existsb_update_first {A} (p : A -> bool) (f : A -> A) (l : list A) :
  (forall x, p (f x) = p x) -> existsb p (update_first p f l) = existsb p l.
Proof.
  intros Hp. induction l as [|x l IH]; simpl; [done|].
  destruct (p x) eqn:Hx; simpl; [by rewrite Hp, Hx|by rewrite Hx, IH].
Qed.

Lemma update_first_twice {A} (p : A -> bool) (f : A -> A) (l : list A) :
  (forall x, p (f x) = p x) -> (forall x, f (f x) = f x) ->
  update_first p f (update_first p f l) = update_first p f l.
Proof.
  intros Hp Hf. induction l as [|x l IH]; simpl; [done|].
  destruct (p x) eqn:Hx; simpl; [by rewrite Hp, Hx, Hf|by rewrite Hx, IH].
Qed.

Lemma update_first_app_new {A} (p : A -> bool) (f : A -> A) (l : list A) x :
  existsb p l = false -> p x = true ->
  update_first p f (l ++ [x]) = l ++ [f x].
Proof.
  intros Hnone Hx. induction l as [|y l IH]; simpl in *; [by rewrite Hx|].
  apply orb_false_elim in Hnone as [Hy Hl]. by rewrite Hy, IH.
Qed.

(** A second refresh of an entry on the same day with the same quote
    changes nothing. *)
Lemma refresh_per_idempotent entry :
  fst (refresh_per today info (fst (refresh_per today info entry)))
  = fst (refresh_per today info entry).
Proof.
  unfold refresh_per. simpl. do 2 f_equal.
  set (per := option_map (fun p => py_round p 1)
                match forwardPE info with
                | Some p => Some p
                | None => trailingPE info
                end).
  set (history := match w_per_history entry with Some h => h | None => [] end).
  set (f := fun h : PerRecord => mkPerRecord (ph_date h) per "yfinance").
  destruct (existsb (fun h => String.eqb (ph_date h) today) history) eqn:Hsame.
  - rewrite existsb_update_first, Hsame by done.
    by apply update_first_twice.
  - rewrite existsb_app. simpl. rewrite String.eqb_refl, orb_true_r.
    rewrite (update_first_app_new _ f) by (done || apply String.eqb_refl).
    reflexivity.
Qed.

(** After a refresh the history has a record for the day, one more
    record than before only if the day had none, and dates that were
    pairwise distinct still are. *)
Lemma refresh_per_history entry :
  let history := per_history_of entry in
  let history1 := per_history_of (fst (refresh_per today info entry)) in
  In today (map ph_date history1)
  /\ length history1
     = (length history
        + if existsb (fun h => String.eqb (ph_date h) today) history
          then 0 else 1)%nat
  /\ (NoDup (map ph_date history) -> NoDup (map ph_date history1)).
Proof.
  unfold per_history_of, refresh_per. simpl.
  set (per := option_map (fun p => py_round p 1)
                match forwardPE info with
                | Some p => Some p
                | None => trailingPE info
                end).
  set (history := match w_per_history entry with Some h => h | None => [] end).
  set (f := fun h : PerRecord => mkPerRecord (ph_date h) per "yfinance").
  assert (map ph_date (update_first (fun h => String.eqb (ph_date h) today) f history)
          = map ph_date history) as Hdates
    by (by apply update_first_map).
  destruct (existsb (fun h => String.eqb (ph_date h) today) history) eqn:Hsame.
  - rewrite Hdates, update_first_length. split_and!; [|lia|done].
    apply existsb_exists in Hsame as (h & Hin & Heq%String.eqb_eq).
    apply in_map_iff. eauto.
  - rewrite map_app, length_app. simpl. split_and!; [|done|].
    + apply in_app_iff. right. simpl. auto.
    + intros Hnd. apply NoDup_app. split_and!; [done| |apply NoDup_singleton].
      intros d Hd ->%list_elem_of_singleton.
      apply list_elem_of_In, in_map_iff in Hd as (h & Hh & Hin).
      assert (existsb (fun h => String.eqb (ph_date h) today) history = true)
        as Hex; [|congruence].
      apply existsb_exists. exists h. split; [done|by apply String.eqb_eq].
Qed.
End RefreshPer.

Lemma refresh_all_idempotent w entries :
  fst (fst (refresh_all w (fst (fst (refresh_all w entries)))))
  = fst (fst (refresh_all w entries)).
Proof.
  induction entries as [|entry rest IH]; simpl; [done|].
  destruct (refresh_all w rest) as [[es rs] errs] eqn:Hrest. simpl in IH.
  destruct (is_archived entry) eqn:Harch; simpl.
  - destruct (refresh_all w es) as [[es2 rs2] errs2]. simpl in IH.
    rewrite Harch. simpl. by rewrite IH.
  - destruct (ticker_info w (w_code entry)) as [info|] eqn:Hinfo; simpl.
    + destruct (refresh_all w es) as [[es2 rs2] errs2]. simpl in IH.
      unfold is_archived in *. simpl. rewrite Harch, Hinfo. simpl.
      rewrite IH. f_equal.
      exact (refresh_per_idempotent (today w) info entry).
    + destruct (refresh_all w es) as [[es2 rs2] errs2]. simpl in IH.
      rewrite Harch, Hinfo. simpl. by rewrite IH.
Qed.

Lemma refresh_all_codes w entries :
  map pr_code (snd (fst (refresh_all w entries)))
  = map w_code
      (List.filter (fun e => negb (is_archived e) && quoted w e) entries)
  /\ map pe_code (snd (refresh_all w entries))
     = map w_code
         (List.filter (fun e => negb (is_archived e) && negb (quoted w e)) entries).
Proof.
  unfold quoted. induction entries as [|entry rest [IHr IHe]]; simpl; [done|].
  destruct (refresh_all w rest) as [[es rs] errs]. simpl in *.
  destruct (is_archived entry); simpl; [done|].
  destruct (ticker_info w (w_code entry)); simpl; by rewrite IHr, IHe.
Qed.

Lemma update_watchlist_per_healthy w data :
  healthy w ->
  YFINANCE_AVAILABLE w = true ->
  f_watchlist (files w) = Some data ->
  update_watchlist_per w
  = (Ok (mkUpdatePerResponse
           (length (snd (fst (refresh_all w (watchlist data)))))
           (snd (fst (refresh_all w (watchlist data))))
           (snd (refresh_all w (watchlist data)))),
     match snd (fst (refresh_all w (watchlist data))) with
     | [] => w
     | _ :: _ =>
         set_files
           (write_file GH_WATCHLIST_PATH
              (Some (mkWatchlist (fst (fst (refresh_all w (watchlist data))))))
              (files w))
           w
     end).
Proof.
  intros Hw Havail Hdata.
  unfold update_watchlist_per, bind at 1, get_world at 1, bind at 1.
  rewrite Havail. unfold ret at 1, bind at 1, try_except at 1, bind at 1.
  rewrite github_fetch_json_healthy by done. simpl read_file. rewrite Hdata.
  unfold ret at 1, bind at 1, get_world at 1.
  destruct (refresh_all w (watchlist data)) as [[entries rs] errs]. simpl.
  unfold bind at 1. destruct rs as [|r0 rs]; [done|].
  by rewrite guarded_update_healthy.
Qed.

(** X8.  The bulk refresh keeps one PER record per day.  For one entry,
    the refreshed history holds a record for the day, is longer by one
    only if the day had no record, and keeps its dates distinct; a
    second refresh on the same day with the same quote leaves the entry
    as the first made it.  For the endpoint: once a refresh has stored
    its results, a second refresh on that day with the same quotes
    leaves the stored watchlist exactly as it is. *)
Theorem bulk_refresh_one_record_per_day :
  (forall today info entry,
      In today (map ph_date (per_history_of (fst (refresh_per today info entry))))
      /\ length (per_history_of (fst (refresh_per today info entry)))
         = (length (per_history_of entry)
            + if existsb (fun h => String.eqb (ph_date h) today)
                   (per_history_of entry)
              then 0 else 1)%nat
      /\ (NoDup (map ph_date (per_history_of entry)) ->
          NoDup (map ph_date (per_history_of (fst (refresh_per today info entry)))))
      /\ fst (refresh_per today info (fst (refresh_per today info entry)))
         = fst (refresh_per today info entry))
  /\ (forall w resp1 w1 r2 w2,
        update_watchlist_per w = (Ok resp1, w1) ->
        results resp1 <> [] ->
        update_watchlist_per w1 = (r2, w2) ->
        f_watchlist (files w2) = f_watchlist (files w1)).
Proof.
  split.
  - intros today info entry.
    pose proof (refresh_per_history today info entry) as (Hin & Hlen & Hnd).
    split_and!; [done..|apply refresh_per_idempotent].
  - intros w resp1 w1 r2 w2 Hrun1 Hwrote Hrun2.
    apply update_watchlist_per_spec in Hrun1 as (Henv & Hrun1).
    destruct Hrun1 as [[-> _]|(data & Hdata & -> & Hfiles1)]; [done|].
    simpl in Hwrote.
    destruct (snd (fst (refresh_all w (watchlist data)))) as [|r0 rs] eqn:Hrs;
      [done|].
    apply update_watchlist_per_spec in Hrun2 as (_ & Hrun2).
    destruct r2 as [resp2|e]; [|by rewrite Hrun2].
    destruct Hrun2 as [[_ ->]|(data1 & Hdata1 & _ & ->)]; [done|].
    rewrite Hfiles1 in Hdata1. simpl in Hdata1. injection Hdata1 as <-.
    cbn [watchlist].
    destruct (snd (fst (refresh_all w1 (fst (fst (refresh_all w (watchlist data)))))));
      [done|].
    simpl. rewrite Hfiles1. simpl. do 2 f_equal.
    rewrite (refresh_all_env w w1) by done. apply refresh_all_idempotent.
Qed.

Lemma bulk_refresh_one_record_per_day_witness :
  length (per_history_of
            (fst (refresh_per "2024-03-01" (mkTickerInfo (Some (123 # 10)) None)
                    (fst (refresh_per "2024-03-01"
                            (mkTickerInfo (Some (123 # 10)) None)
                            (sample_entry "7203" "watching"))))))
  = 1%nat.
Proof.
  destruct bulk_refresh_one_record_per_day as (Hentry & _).
  destruct (Hentry "2024-03-01"%string (mkTickerInfo (Some (123 # 10)) None)
              (sample_entry "7203" "watching")) as (_ & _ & _ & Hidem).
  rewrite Hidem. reflexivity.
Defined.

(** X9.  The bulk refresh goes on past a failing quote and writes only
    when something was refreshed.  Without yfinance it answers 503 at
    once.  Otherwise its results list, in order, the codes of the
    entries that are not archived and have a quote, its errors those
    that are not archived and have none, [updated] is the number of
    results, and when there is no result no file is written. *)
Theorem bulk_refresh_tolerates_failures :
  (forall w,
      YFINANCE_AVAILABLE w = false ->
      update_watchlist_per w = (Raise (HTTPException 503), w))
  /\ (forall w resp w',
        update_watchlist_per w = (Ok resp, w') ->
        updated resp = length (results resp)
        /\ (results resp = [] -> files w' = files w)
        /\ (resp = mkUpdatePerResponse 0 [] []
            \/ exists data,
                 f_watchlist (files w) = Some data
                 /\ map pr_code (results resp)
                    = map w_code
                        (List.filter
                           (fun e => negb (is_archived e) && quoted w e)
                           (watchlist data))
                 /\ map pe_code (errors resp)
                    = map w_code
                        (List.filter
                           (fun e => negb (is_archived e) && negb (quoted w e))
                           (watchlist data)))).
Proof.
  split.
  - intros w Hno. unfold update_watchlist_per, bind at 1, get_world at 1, bind at 1.
    by rewrite Hno.
  - intros w resp w' Hrun.
    apply update_watchlist_per_spec in Hrun as (_ & Hrun).
    destruct Hrun as [[-> Hfiles]|(data & Hdata & -> & Hfiles)]; simpl.
    + split_and!; auto.
    + pose proof (refresh_all_codes w (watchlist data)) as [Hr He].
      split_and!; [done| |right; eauto].
      intros Hnone. by rewrite Hnone in Hfiles.
Qed.

Lemma bulk_refresh_tolerates_failures_witness :
  update_watchlist_per
    (mkWorld sample_watchlist_files true [] "2024-03-01" false (fun _ => None))
  = (Raise (HTTPException 503),
     mkWorld sample_watchlist_files true [] "2024-03-01" false (fun _ => None)).
Proof.
  destruct bulk_refresh_tolerates_failures as (Hdown & _).
  apply Hdown. reflexivity.
Defined.

(** X10.  The bulk refresh never adds, removes, reorders, renames or
    re-statuses an entry: after it, whatever it answers, the stored
    watchlist has the same codes and the same statuses in the same
    order. *)
Theorem bulk_refresh_keeps_entries w r w' :
  update_watchlist_per w = (r, w') ->
  map w_code (stored_watchlist w') = map w_code (stored_watchlist w)
  /\ map w_status (stored_watchlist w') = map w_status (stored_watchlist w).
Proof.
  intros Hrun. apply update_watchlist_per_spec in Hrun as (_ & Hrun).
  unfold stored_watchlist.
  destruct r as [resp|e]; [|by rewrite Hrun].
  destruct Hrun as [[_ ->]|(data & Hdata & _ & ->)]; [done|].
  rewrite Hdata.
  destruct (snd (fst (refresh_all w (watchlist data)))); [by rewrite Hdata|].
  simpl. pose proof (refresh_all_entries w (watchlist data)) as Hall.
  induction Hall as [|x y xs ys (Hc & Hs & _) Hall IH]; simpl; [done|].
  destruct IH as [IHc IHs]. by rewrite Hc, Hs, IHc, IHs.
Qed.

Lemma bulk_refresh_keeps_entries_witness :
  map w_code
    (stored_watchlist (snd (update_watchlist_per (quoting_world sample_watchlist_files))))
  = ["7203"; "6758"]%string.
Proof.
  apply (bulk_refresh_keeps_entries (quoting_world sample_watchlist_files)
           (fst (update_watchlist_per (quoting_world sample_watchlist_files)))
           (snd (update_watchlist_per (quoting_world sample_watchlist_files)))).
  reflexivity.
Defined.

Lemma update_watchlist_status_healthy req w data x :
  healthy w ->
  In (wsr_status req) VALID_STATUSES ->
  f_watchlist (files w) = Some data ->
  find (entry_has_code (wsr_code req)) (watchlist data) = Some x ->
  update_watchlist_status req w
  = (Ok tt,
     set_files
       (write_file GH_WATCHLIST_PATH
          (Some (mkWatchlist
                   (update_first (entry_has_code (wsr_code req))
                      (fun y => set_status y (wsr_status req)) (watchlist data))))
          (files w))
       w).
Proof.
  intros Hw Hvalid Hdata Hfind. unfold update_watchlist_status, bind at 1.
  replace (existsb _ VALID_STATUSES) with true.
  2: { symmetry. apply existsb_exists. exists (wsr_status req).
       split; [done|apply String.eqb_refl]. }
  unfold ret at 1, bind at 1.
  rewrite (fetch_guarded_healthy _ _ _ data Hw) by done.
  rewrite Hfind. by rewrite guarded_update_healthy.
Qed.

(** X11.  An entry leaves the archive by a status change: on a working
    store with yfinance, after an entry was added and its status set to
    watching or interested, the next bulk refresh handles its code (it
    is among the results or among the errors). *)
Theorem status_change_brings_entry_into_refresh req status w count w1 :
  healthy w ->
  YFINANCE_AVAILABLE w = true ->
  status = "watching"%string \/ status = "interested"%string ->
  add_watchlist req w = (Ok count, w1) ->
  exists w2 resp w3,
    update_watchlist_status (mkWatchlistStatusRequest (war_code req) status) w1
    = (Ok tt, w2)
    /\ update_watchlist_per w2 = (Ok resp, w3)
    /\ In (war_code req) (handled_codes resp).
Proof.
  intros Hw Havail Hstatus Hadd.
  assert (~ In (war_code req) (map w_code (stored_watchlist w))) as Hfresh.
  { unfold stored_watchlist.
    destruct (f_watchlist (files w)) as [data|] eqn:Hdata; [|simpl; tauto].
    intros Hin.
    rewrite (add_watchlist_duplicate req w w data) in Hadd; [done| |done].
    rewrite github_fetch_json_healthy by done. simpl. by rewrite Hdata. }
  rewrite add_watchlist_healthy in Hadd by done. injection Hadd as _ <-.
  set (entries := stored_watchlist w ++ [new_entry req (today w)]).
  assert (exists x, find (entry_has_code (war_code req)) entries = Some x)
    as [x Hfind].
  { destruct (find (entry_has_code (war_code req)) entries) eqn:Hfind; [eauto|].
    assert (entry_has_code (war_code req) (new_entry req (today w)) = false)
      as Hno.
    { apply (find_none _ _ Hfind). apply in_app_iff. right. simpl. auto. }
    unfold entry_has_code in Hno. simpl in Hno.
    by rewrite String.eqb_refl in Hno. }
  eexists _, _, _. split_and!.
  - eapply update_watchlist_status_healthy;
      [by apply healthy_set_files| |reflexivity|exact Hfind].
    destruct Hstatus as [-> | ->]; simpl; auto.
  - eapply update_watchlist_per_healthy;
      [by apply healthy_set_files|exact Havail|reflexivity].
  - unfold handled_codes. cbn [results errors watchlist].
    apply refresh_all_handled.
    exists (set_status x status). split_and!.
    + assert (find (entry_has_code (war_code req))
                (update_first (entry_has_code (war_code req))
                   (fun y => set_status y status) entries)
              = Some (set_status x status)) as Hnew.
      { apply (find_update_first _ (fun y => set_status y status) _ x Hfind).
        by apply find_some in Hfind as [_ ?]. }
      by apply find_some in Hnew as [? _].
    + apply find_some in Hfind as [_ Hcode]. by apply String.eqb_eq in Hcode.
    + by destruct Hstatus as [-> | ->].
Qed.

Lemma status_change_brings_entry_into_refresh_witness :
  exists w2 resp w3,
    update_watchlist_status (mkWatchlistStatusRequest "6501" "watching")
      (snd (add_watchlist sample_add_request (quoting_world empty_files)))
    = (Ok tt, w2)
    /\ update_watchlist_per w2 = (Ok resp, w3)
    /\ In "6501"%string (handled_codes resp).
Proof.
  apply (status_change_brings_entry_into_refresh sample_add_request "watching"
           (quoting_world empty_files) 1%nat
           (snd (add_watchlist sample_add_request (quoting_world empty_files))));
    [split; reflexivity | reflexivity | (left; reflexivity) | reflexivity].
Defined.

(** ** The portfolio: what buy, sell and the deletions store *)

Lemma buy_stock_run req w r w' :
  buy_stock req w = (r, w') ->
  match r with
  | Ok trade =>
      exists data hs,
        (f_portfolio (files w) = Some data \/ data = mkPortfolio [] [])
        /\ trade = buy_trade req (today w)
        /\ buy_holdings req (today w) (holdings data) = Ok hs
        /\ files w'
           = write_file GH_PORTFOLIO_PATH
               (Some (mkPortfolio hs (trade_history data ++ [trade]))) (files w)
  | Raise _ => files w' = files w
  end.
Proof.
  unfold buy_stock, bind at 1.
  match goal with
  | |- context [try_except ?m ?h w] =>
      destruct (try_except m h w) as [[data|e] w1] eqn:Hf;
        apply fetch_or_default_spec in Hf as (Hfiles1 & Henv1 & Hread)
  end.
  2: { intros [= <- <-]; auto. }
  pose proof Henv1 as (_ & Htoday & _).
  unfold bind at 1, get_world at 1. unfold bind at 1.
  assert (forall rhs : result (list Holding),
             (match find (has_code (br_code req)) (holdings data) with
              | Some existing =>
                  let* q :=
                    lift (py_truediv
                            (float_add
                               (float_mul_int (h_avg_cost existing)
                                  (h_shares existing))
                               (float_mul_int (br_price req) (br_shares req)))
                            (h_shares existing + br_shares req)) in
                  ret (update_first (has_code (br_code req))
                         (fun h =>
                            set_avg_cost
                              (set_shares h (h_shares existing + br_shares req))
                              (py_round q 2))
                         (holdings data))
              | None =>
                  ret (holdings data
                       ++ [mkHolding (br_code req) (br_name req) (br_shares req)
                             (br_price req) (today w1) (br_note req)])
              end) w1
             = (buy_holdings req (today w1) (holdings data), w1)) as Hpure.
  { intros _. unfold buy_holdings.
    destruct (find (has_code (br_code req)) (holdings data)); [|done].
    unfold bind, lift, ret. by destruct (py_truediv _ _). }
  rewrite (Hpure (Ok [])). clear Hpure.
  destruct (buy_holdings req (today w1) (holdings data)) as [hs|e] eqn:Hhs.
  2: { intros [= <- <-]; auto. }
  unfold bind at 1. step_update w1 w2 Hu; [unfold ret|]; intros [= <- <-];
    rewrite Hfiles1 in Hu; [|by destruct Hu].
  rewrite Htoday in *. exists data, hs. split_and!; [|done..].
  simpl in Hread. destruct Hread; auto.
Qed.

Lemma delete_holding_spec code w r w' :
  delete_holding code w = (r, w') ->
  env_eq w w'
  /\ match r with
     | Ok answer =>
         exists data existing,
           answer = upper code
           /\ f_portfolio (files w) = Some data
           /\ find (has_code (upper code)) (holdings data) = Some existing
           /\ files w'
              = write_file GH_PORTFOLIO_PATH
                  (Some (mkPortfolio
                           (List.filter (fun h => negb (has_code (upper code) h))
                              (holdings data))
                           (trade_history data)))
                  (files w)
     | Raise e => files w' = files w
     end.
Proof.
  unfold delete_holding, bind at 1.
  match goal with
  | |- context [try_except ?m ?h w] =>
      destruct (try_except m h w) as [[data|e] w1] eqn:Hf;
        (apply fetch_guarded_spec in Hf as (Hfiles1 & Henv1 & Hread);
         [|by intros []; eexists])
  end.
  2: { intros [= <- <-]; auto. }
  simpl in Hread.
  destruct (find (has_code (upper code)) (holdings data)) as [existing|] eqn:Hfind.
  2: { unfold raise. intros [= <- <-]; auto. }
  unfold bind at 1. step_update w1 w2 Hu; [unfold ret|]; intros [= <- <-];
    (split; [by eapply env_eq_trans|]); rewrite Hfiles1 in Hu;
    [|by destruct Hu].
  exists data, existing. by split_and!.
Qed.

(** ** Holdings as the values of the replay dictionary *)

Lemma find_dict_values k d :
  dict_inv d -> find (has_code k) (dict_values d) = dict_get k d.
Proof.
  intros [_ Hall]. induction Hall as [|[k' v] d Hkv Hd IH]; simpl in *; [done|].
  unfold has_code at 1. rewrite Hkv. by destruct (String.eqb k' k).
Qed.

Lemma dict_values_set_new {V} k (v : V) d :
  dict_get k d = None -> dict_values (dict_set k v d) = dict_values d ++ [v].
Proof.
  induction d as [|[k' v'] d IH]; simpl; [done|].
  destruct (String.eqb k' k); [done|]. intros H. simpl. by rewrite IH.
Qed.

Lemma dict_values_set_old k v d h :
  dict_inv d ->
  dict_get k d = Some h ->
  dict_values (dict_set k v d)
  = update_first (has_code k) (fun _ => v) (dict_values d).
Proof.
  intros [_ Hall]. induction Hall as [|[k' v'] d Hkv Hd IH]; simpl in *; [done|].
  unfold has_code at 1. rewrite Hkv.
  destruct (String.eqb k' k); [done|]. intros H. simpl. by rewrite IH.
Qed.

Lemma dict_values_del k d :
  dict_inv d ->
  dict_values (dict_del k d)
  = List.filter (fun h => negb (has_code k h)) (dict_values d).
Proof.
  intros [Hnd Hall]. induction Hall as [|[k' v'] d Hkv Hd IH]; simpl in *; [done|].
  apply NoDup_cons in Hnd as [Hnotin Hnd].
  unfold has_code at 1. rewrite Hkv.
  destruct (String.eqb_spec k' k) as [->|Hne]; simpl.
  - symmetry. apply filter_all_id, Forall_forall.
    intros h Hh. apply negb_eqb_true_iff. intros Hcode.
    apply Hnotin. apply list_elem_of_In.
    apply list_elem_of_In, in_map_iff in Hh as ([k1 v1] & <- & Hin).
    rewrite Forall_forall in Hd.
    specialize (Hd _ (proj2 (list_elem_of_In _ _) Hin)). simpl in *.
    apply in_map_iff. exists (k1, v1). split; [simpl; congruence|done].
  - by rewrite IH.
Qed.

Lemma update_first_ext {A} (p : A -> bool) (f g : A -> A) (l : list A) x :
  find p l = Some x -> f x = g x -> update_first p f l = update_first p g l.
Proof.
  induction l as [|y l IH]; simpl; [done|].
  destruct (p y); [by intros [= ->] ->|]. intros H1 H2. by rewrite IH.
Qed.

Lemma replay_from_app hs l1 l2 :
  replay_from hs (l1 ++ l2)
  = result_bind (replay_from hs l1) (fun hs' => replay_from hs' l2).
Proof.
  revert hs. induction l1 as [|t l1 IH]; intros hs; simpl; [done|].
  destruct (replay_trade hs t); simpl; [apply IH|done].
Qed.

(** The dictionary behind a successful rebuild. *)
Lemma rebuild_holdings_dict history hs :
  rebuild_holdings history = Ok hs ->
  exists d, replay_from [] history = Ok d /\ dict_inv d /\ dict_values d = hs.
Proof.
  unfold rebuild_holdings.
  pose proof (replay_from_refines history [] dict_inv_nil) as Href.
  destruct (replay_from [] history) as [d|e]; simpl; [|done].
  intros [= <-]. destruct Href as [Hinv _]. eauto.
Qed.

Lemma buy_replay req today d hs :
  dict_inv d ->
  br_note req = EmptyString ->
  buy_holdings req today (dict_values d) = Ok hs ->
  exists d', replay_trade d (buy_trade req today) = Ok d' /\ dict_values d' = hs.
Proof.
  intros Hinv Hnote. unfold buy_holdings, replay_trade, buy_trade. simpl.
  rewrite find_dict_values by done.
  destruct (dict_get (br_code req) d) as [h|] eqn:Hget.
  - destruct (py_truediv _ _) as [q|e]; simpl; [|done].
    intros [= <-]. eexists. split; [done|].
    rewrite (dict_values_set_old _ _ _ h) by done.
    apply update_first_ext with h; [by rewrite find_dict_values|done].
  - intros [= <-]. eexists. split; [done|].
    rewrite dict_values_set_new by done. by rewrite Hnote.
Qed.

Lemma sell_replay (t : Trade) d existing :
  dict_inv d ->
  t_action t = "sell"%string ->
  find (has_code (t_code t)) (dict_values d) = Some existing ->
  t_shares t <= h_shares existing ->
  exists d',
    replay_trade d t = Ok d'
    /\ dict_values d' = sold_holdings (t_code t) (t_shares t) existing (dict_values d).
Proof.
  intros Hinv Hsell Hfind Hle. unfold replay_trade, sold_holdings.
  rewrite Hsell. simpl.
  pose proof Hfind as Hget. rewrite find_dict_values in Hget by done.
  rewrite Hget. simpl.
  assert (dict_inv (dict_set (t_code t)
                      (set_shares existing (h_shares existing - t_shares t)) d))
    as Hinv1 by (apply dict_inv_set; [done|]; simpl; by eapply dict_inv_get).
  assert (dict_values (dict_set (t_code t)
                         (set_shares existing (h_shares existing - t_shares t)) d)
          = update_first (has_code (t_code t))
              (fun h => set_shares h (h_shares h - t_shares t)) (dict_values d))
    as Hvalues.
  { rewrite (dict_values_set_old _ _ _ existing) by done.
    by apply update_first_ext with existing. }
  destruct (Z.leb_spec (h_shares existing - t_shares t) 0).
  - replace (h_shares existing - t_shares t =? 0) with true
      by (symmetry; apply Z.eqb_eq; lia).
    eexists. split; [done|]. by rewrite dict_values_del, Hvalues.
  - replace (h_shares existing - t_shares t =? 0) with false
      by (symmetry; apply Z.eqb_neq; lia).
    eexists. split; [done|]. exact Hvalues.
Qed.

Lemma ledger_consistent_snoc data t d' :
  ledger_consistent data ->
  (forall d, replay_from [] (trade_history data) = Ok d ->
             dict_inv d -> dict_values d = holdings data ->
             replay_trade d t = Ok d') ->
  ledger_consistent (mkPortfolio (dict_values d') (trade_history data ++ [t])).
Proof.
  unfold ledger_consistent. intros (d & Hd & Hinv & Hvalues)%rebuild_holdings_dict Hstep.
  unfold rebuild_holdings. simpl. rewrite replay_from_app, Hd. simpl.
  by rewrite (Hstep d Hd Hinv Hvalues).
Qed.

Lemma sell_stock_trade_code req w trade w' :
  sell_stock req w = (Ok trade, w') -> t_code trade = sr_code req.
Proof.
  unfold sell_stock, bind at 1, try_except at 1.
  destruct (github_fetch_json GH_PORTFOLIO_PATH w) as [[data|e] w1].
  2: { destruct e; unfold raise; intros [= ]. }
  destruct (find (has_code (sr_code req)) (holdings data)) as [existing|].
  2: { unfold raise; intros [= ]. }
  destruct (h_shares existing <? sr_shares req).
  { unfold raise; intros [= ]. }
  unfold bind at 1, get_world at 1, bind at 1.
  match goal with
  | |- context [try_except ?m ?h w1] =>
      destruct (try_except m h w1) as [[[]|e] w2]
  end.
  - unfold ret. by intros [= <- _].
  - intros [= ].
Qed.

(** X13.  Recording keeps the ledger consistent.  If the stored holdings
    are what the replay of the stored history gives, then after a
    successful sell, and after a successful buy whose note is empty, the
    stored holdings are again what the replay of the stored history
    gives (the history being the earlier one with the new trade at its
    end).  A portfolio that does not exist yet counts as the empty one. *)
Theorem recording_keeps_ledger_consistent :
  (forall req w trade w',
      ledger_consistent (stored_portfolio w) ->
      br_note req = EmptyString ->
      buy_stock req w = (Ok trade, w') ->
      ledger_consistent (stored_portfolio w')
      /\ exists history,
           trade_history (stored_portfolio w') = history ++ [trade]
           /\ (history = trade_history (stored_portfolio w) \/ history = []))
  /\ (forall req w trade w',
        ledger_consistent (stored_portfolio w) ->
        sell_stock req w = (Ok trade, w') ->
        ledger_consistent (stored_portfolio w')
        /\ trade_history (stored_portfolio w')
           = trade_history (stored_portfolio w) ++ [trade]).
Proof.
  split.
  - intros req w trade w' Hcons Hnote Hrun.
    apply buy_stock_run in Hrun as (data & hs & Hdata & -> & Hhs & Hfiles).
    assert (ledger_consistent data) as Hcons'.
    { destruct Hdata as [Hdata| ->]; [|reflexivity].
      unfold stored_portfolio in Hcons. by rewrite Hdata in Hcons. }
    unfold stored_portfolio at 1 2. rewrite Hfiles. simpl. split.
    + pose proof Hcons' as (d & Hd & Hinv & Hvalues)%rebuild_holdings_dict.
      rewrite <- Hvalues in Hhs.
      destruct (buy_replay _ _ _ _ Hinv Hnote Hhs) as (d' & Hstep & <-).
      apply ledger_consistent_snoc; [done|].
      intros d0 Hd0 _ _. congruence.
    + eexists. split; [reflexivity|].
      destruct Hdata as [Hdata| ->]; [|by right].
      left. unfold stored_portfolio. by rewrite Hdata.
  - intros req w trade w' Hcons Hrun. pose proof Hrun as Hrun0.
    apply sell_stock_spec in Hrun
      as (_ & data & existing & Hdata & Hfind & Hle & Haction & Hshares & Hfiles).
    unfold stored_portfolio in *. rewrite Hdata in *. rewrite Hfiles. simpl.
    split; [|done].
    pose proof Hcons as (d & Hd & Hinv & Hvalues)%rebuild_holdings_dict.
    rewrite <- Hvalues in Hfind.
    rewrite <- Hshares in Hle.
    rewrite <- (sell_stock_trade_code _ _ _ _ Hrun0) in Hfind |- *.
    rewrite <- Hshares, <- Hvalues.
    destruct (sell_replay trade d existing Hinv Haction Hfind Hle)
      as (d' & Hstep & <-).
    apply (ledger_consistent_snoc data trade d' Hcons).
    intros d0 Hd0 _ _. congruence.
Qed.

Lemma recording_keeps_ledger_consistent_witness :
  ledger_consistent
    (stored_portfolio
       (snd (buy_stock (mkBuyRequest "6758" "Sony" 5 12600 EmptyString)
               (sample_world ledger_files)))).
Proof.
  destruct recording_keeps_ledger_consistent as (Hbuy & _).
  destruct (Hbuy (mkBuyRequest "6758" "Sony" 5 12600 EmptyString)
              (sample_world ledger_files)
              (buy_trade (mkBuyRequest "6758" "Sony" 5 12600 EmptyString)
                 "2024-03-01")
              (snd (buy_stock (mkBuyRequest "6758" "Sony" 5 12600 EmptyString)
                      (sample_world ledger_files))))
    as [Hcons _].
  - vm_compute. reflexivity.
  - reflexivity.
  - vm_compute. reflexivity.
  - exact Hcons.
Defined.

(** ** Recording on a working store *)

Lemma fetch_portfolio_or_default_healthy w :
  healthy w ->
  try_except (github_fetch_json GH_PORTFOLIO_PATH)
    (fun e => match e with
              | FileNotFoundError => ret (mkPortfolio [] [])
              | _ => raise (HTTPException 500)
              end) w
  = (Ok (stored_portfolio w), w).
Proof.
  intros Hw. unfold try_except, stored_portfolio.
  rewrite github_fetch_json_healthy by done. simpl.
  by destruct (f_portfolio (files w)).
Qed.

Lemma buy_stock_healthy req w :
  healthy w ->
  buy_stock req w
  = match buy_holdings req (today w) (holdings (stored_portfolio w)) with
    | Ok hs =>
        (Ok (buy_trade req (today w)),
         set_files
           (write_file GH_PORTFOLIO_PATH
              (Some (mkPortfolio hs
                       (trade_history (stored_portfolio w)
                        ++ [buy_trade req (today w)])))
              (files w))
           w)
    | Raise e => (Raise e, w)
    end.
Proof.
  intros Hw. unfold buy_stock, bind at 1.
  rewrite fetch_portfolio_or_default_healthy by done.
  unfold bind at 1, get_world at 1. unfold bind at 1, buy_holdings.
  destruct (find (has_code (br_code req)) (holdings (stored_portfolio w))).
  - unfold bind at 1, lift at 1. destruct (py_truediv _ _); simpl; [|done].
    unfold ret at 1, bind at 1. by rewrite guarded_update_healthy.
  - unfold ret at 1, bind at 1. by rewrite guarded_update_healthy.
Qed.

Lemma sell_stock_healthy req w data existing :
  healthy w ->
  f_portfolio (files w) = Some data ->
  find (has_code (sr_code req)) (holdings data) = Some existing ->
  sr_shares req <= h_shares existing ->
  sell_stock req w
  = (Ok (sell_trade req (today w) existing),
     set_files
       (write_file GH_PORTFOLIO_PATH
          (Some (mkPortfolio
                   (sold_holdings (sr_code req) (sr_shares req) existing
                      (holdings data))
                   (trade_history data ++ [sell_trade req (today w) existing])))
          (files w))
       w).
Proof.
  intros Hw Hdata Hfind Hle. unfold sell_stock, bind at 1.
  rewrite (fetch_guarded_healthy _ _ _ data Hw) by done.
  rewrite Hfind.
  replace (h_shares existing <? sr_shares req) with false
    by (symmetry; apply Z.ltb_ge; lia).
  unfold bind at 1, get_world at 1, bind at 1.
  by rewrite guarded_update_healthy.
Qed.

Lemma pop_at_last {A} (l : list A) x : pop_at (length l) (l ++ [x]) = l.
Proof.
  unfold pop_at. rewrite firstn_app, firstn_all, Nat.sub_diag. simpl.
  rewrite app_nil_r. rewrite skipn_all2; [apply app_nil_r|].
  rewrite length_app. simpl. lia.
Qed.

Lemma nth_error_last {A} (l : list A) x : nth_error (l ++ [x]) (length l) = Some x.
Proof. rewrite nth_error_app2 by lia. by rewrite Nat.sub_diag. Qed.

Lemma delete_last_trade_restores w data hs t :
  healthy w ->
  ledger_consistent data ->
  f_portfolio (files w) = Some (mkPortfolio hs (trade_history data ++ [t])) ->
  exists w2,
    delete_trade (Z.of_nat (length (trade_history data))) w = (Ok t, w2)
    /\ f_portfolio (files w2) = Some data.
Proof.
  intros Hw Hcons Hstored. eexists. split.
  - eapply (delete_trade_healthy _ w _ t (holdings data)); [done|exact Hstored|..].
    + apply nth_error_last.
    + cbn [trade_history]. by rewrite pop_at_last.
  - simpl. cbn [trade_history]. rewrite pop_at_last. by destruct data.
Qed.

(** X14.  Deleting the trade that was recorded last undoes it.  On a
    working store whose ledger is consistent, right after a successful
    buy or sell, deleting the last index of the history answers that
    trade and stores the portfolio document exactly as it was before
    the trade was recorded. *)
Theorem deleting_the_last_trade_undoes_it (w : World) (data : Portfolio) :
  healthy w ->
  f_portfolio (files w) = Some data ->
  ledger_consistent data ->
  (forall req trade w1,
      buy_stock req w = (Ok trade, w1) ->
      exists w2,
        delete_trade (Z.of_nat (length (trade_history data))) w1 = (Ok trade, w2)
        /\ f_portfolio (files w2) = Some data)
  /\ (forall req trade w1,
        sell_stock req w = (Ok trade, w1) ->
        exists w2,
          delete_trade (Z.of_nat (length (trade_history data))) w1 = (Ok trade, w2)
          /\ f_portfolio (files w2) = Some data).
Proof.
  intros Hw Hdata Hcons.
  assert (stored_portfolio w = data) as Hstored
    by (unfold stored_portfolio; by rewrite Hdata).
  split.
  - intros req trade w1. rewrite buy_stock_healthy, Hstored by done.
    destruct (buy_holdings req (today w) (holdings data)) as [hs|e]; [|done].
    intros [= <- <-].
    apply (delete_last_trade_restores _ data hs);
      [by apply healthy_set_files|done|reflexivity].
  - intros req trade w1 Hrun.
    pose proof Hrun as (_ & data0 & existing & Hdata0 & Hfind & Hle & _)%sell_stock_spec.
    assert (data0 = data) as -> by congruence.
    rewrite (sell_stock_healthy req w data existing) in Hrun by done.
    injection Hrun as <- <-.
    apply (delete_last_trade_restores _ data
             (sold_holdings (sr_code req) (sr_shares req) existing (holdings data)));
      [by apply healthy_set_files|done|reflexivity].
Qed.

Lemma deleting_the_last_trade_undoes_it_witness :
  exists w2,
    delete_trade 5
      (snd (sell_stock (mkSellRequest "9984" 5 8100) (sample_world ledger_files)))
    = (Ok (sell_trade (mkSellRequest "9984" 5 8100) "2024-03-01"
             (mkHolding "9984" "9984" 5 8000 "2024-01-10" EmptyString)),
       w2)
    /\ f_portfolio (files w2) = f_portfolio ledger_files.
Proof.
  destruct (deleting_the_last_trade_undoes_it (sample_world ledger_files)
              (mkPortfolio
                 [mkHolding "6758" "6758" 10 12000 "2024-01-10" EmptyString;
                  mkHolding "9984" "9984" 5 8000 "2024-01-10" EmptyString]
                 sample_history))
    as (_ & Hsell).
  - split; reflexivity.
  - reflexivity.
  - vm_compute. reflexivity.
  - apply (Hsell (mkSellRequest "9984" 5 8100)). vm_compute. reflexivity.
Defined.

(** ** Codes of the holdings *)

Lemma NoDup_map_filter {A B} (g : A -> B) (f : A -> bool) (l : list A) :
  NoDup (map g l) -> NoDup (map g (List.filter f l)).
Proof.
  induction l as [|x l IH]; simpl; [done|].
  intros [Hnotin Hnd]%NoDup_cons. destruct (f x); simpl; [|by apply IH].
  apply NoDup_cons. split; [|by apply IH].
  rewrite list_elem_of_In, in_map_iff. intros (y & Hy & Hin).
  apply filter_In in Hin as [Hin _].
  apply Hnotin, list_elem_of_In, in_map_iff. eauto.
Qed.

Lemma find_none_code code hs :
  find (has_code code) hs = None -> ~ In code (map h_code hs).
Proof.
  intros Hfind (h & Hcode & Hin)%in_map_iff.
  pose proof (find_none _ _ Hfind h Hin) as Hno.
  unfold has_code in Hno. rewrite Hcode in Hno.
  by rewrite String.eqb_refl in Hno.
Qed.

Lemma buy_holdings_codes req today hs0 hs :
  holding_codes_unique hs0 ->
  buy_holdings req today hs0 = Ok hs ->
  holding_codes_unique hs.
Proof.
  unfold holding_codes_unique, buy_holdings. intros Hnd.
  destruct (find (has_code (br_code req)) hs0) as [existing|] eqn:Hfind.
  - destruct (py_truediv _ _) as [q|e]; simpl; [|done]. intros [= <-].
    by rewrite update_first_map.
  - intros [= <-]. rewrite map_app. simpl.
    apply NoDup_app. split_and!; [done| |apply NoDup_singleton].
    intros c Hc ->%list_elem_of_singleton.
    by apply (find_none_code _ _ Hfind), list_elem_of_In.
Qed.

Lemma sold_holdings_codes code shares existing hs :
  holding_codes_unique hs ->
  holding_codes_unique (sold_holdings code shares existing hs).
Proof.
  unfold holding_codes_unique, sold_holdings. intros Hnd.
  assert (NoDup (map h_code
                   (update_first (has_code code)
                      (fun h => set_shares h (h_shares h - shares)) hs))) as Hnd1
    by (by rewrite update_first_map).
  destruct (_ =? 0); [by apply NoDup_map_filter|done].
Qed.

(** X12.  The holdings never hold a code twice.  Recording a buy or a
    sell and deleting a holding keep the codes of the stored holdings
    pairwise distinct if they were so before, and the holdings that
    delete-trade stores always have pairwise distinct codes. *)
Theorem holdings_codes_stay_unique :
  (forall req w trade w',
      holding_codes_unique (holdings (stored_portfolio w)) ->
      buy_stock req w = (Ok trade, w') ->
      holding_codes_unique (holdings (stored_portfolio w')))
  /\ (forall req w trade w',
        holding_codes_unique (holdings (stored_portfolio w)) ->
        sell_stock req w = (Ok trade, w') ->
        holding_codes_unique (holdings (stored_portfolio w')))
  /\ (forall code w answer w',
        holding_codes_unique (holdings (stored_portfolio w)) ->
        delete_holding code w = (Ok answer, w') ->
        holding_codes_unique (holdings (stored_portfolio w')))
  /\ (forall index w deleted w',
        delete_trade index w = (Ok deleted, w') ->
        holding_codes_unique (holdings (stored_portfolio w'))).
Proof.
  unfold stored_portfolio. split_and!.
  - intros req w trade w' Hnd Hrun.
    apply buy_stock_run in Hrun as (data & hs & Hdata & _ & Hhs & ->). simpl.
    eapply buy_holdings_codes; [|exact Hhs].
    destruct Hdata as [Hdata| ->]; [by rewrite Hdata in Hnd|constructor].
  - intros req w trade w' Hnd Hrun.
    apply sell_stock_spec in Hrun as (_ & data & existing & Hdata & _ & _ & _ & _ & ->).
    rewrite Hdata in Hnd. simpl. by apply sold_holdings_codes.
  - intros code w answer w' Hnd Hrun.
    apply delete_holding_spec in Hrun as (_ & data & existing & _ & Hdata & _ & ->).
    rewrite Hdata in Hnd. simpl. by apply NoDup_map_filter.
  - intros index w deleted w' Hrun.
    apply delete_trade_spec in Hrun as (_ & data & hs & _ & _ & _ & Hrebuild & ->).
    simpl. pose proof (rebuild_holdings_refines
                          (pop_at (Z.to_nat index) (trade_history data))) as Href.
    rewrite Hrebuild in Href. by destruct Href.
Qed.

Lemma holdings_codes_stay_unique_witness :
  holding_codes_unique
    (holdings (stored_portfolio
                 (snd (buy_stock sample_buy_request (sample_world ledger_files))))).
Proof.
  destruct holdings_codes_stay_unique as (Hbuy & _).
  apply (Hbuy sample_buy_request (sample_world ledger_files)
           (buy_trade sample_buy_request "2024-03-01")).
  - unfold holding_codes_unique. apply (bool_decide_unpack _). vm_compute. exact I.
  - vm_compute. reflexivity.
Defined.

(** ** Deleting a trade: bounds and what the replay keeps *)

(** X15.  An index outside the history is answered with 404 and nothing
    is written: a negative index, an index equal to or above the number
    of trades, every index on an empty history; and so is a portfolio
    file that does not exist. *)
Theorem delete_trade_checks_the_index :
  (forall index w w1 data,
      github_fetch_json GH_PORTFOLIO_PATH w = (Ok data, w1) ->
      index < 0 \/ Z.of_nat (length (trade_history data)) <= index ->
      delete_trade index w = (Raise (HTTPException 404), w1)
      /\ files w1 = files w)
  /\ (forall index w,
        healthy w ->
        f_portfolio (files w) = None ->
        delete_trade index w = (Raise (HTTPException 404), w))
  /\ (forall index w hs,
        healthy w ->
        f_portfolio (files w) = Some (mkPortfolio hs []) ->
        delete_trade index w = (Raise (HTTPException 404), w)).
Proof.
  assert (forall index w w1 data,
             github_fetch_json GH_PORTFOLIO_PATH w = (Ok data, w1) ->
             index < 0 \/ Z.of_nat (length (trade_history data)) <= index ->
             delete_trade index w = (Raise (HTTPException 404), w1)) as Hout.
  { intros index w w1 data Hfetch Hrange.
    unfold delete_trade, bind at 1, try_except at 1. rewrite Hfetch.
    replace ((index <? 0) || (Z.of_nat (length (trade_history data)) <=? index))
      with true; [done|].
    symmetry. apply orb_true_iff.
    destruct Hrange; [left; by apply Z.ltb_lt|right; by apply Z.leb_le]. }
  split_and!.
  - intros index w w1 data Hfetch Hrange. split; [by apply (Hout _ _ _ data)|].
    by apply github_fetch_json_spec in Hfetch as (? & _).
  - intros index w Hw Habsent. unfold delete_trade, bind at 1.
    by rewrite fetch_guarded_healthy_absent.
  - intros index w hs Hw Hdata. eapply (Hout _ _ _ (mkPortfolio hs [])).
    + rewrite github_fetch_json_healthy by done. simpl. by rewrite Hdata.
    + simpl. lia.
Qed.

Lemma delete_trade_checks_the_index_witness :
  delete_trade 5 (sample_world ledger_files)
  = (Raise (HTTPException 404), sample_world ledger_files).
Proof.
  destruct delete_trade_checks_the_index as (Hout & _).
  apply (Hout 5 (sample_world ledger_files) (sample_world ledger_files)
           (mkPortfolio
              [mkHolding "6758" "6758" 10 12000 "2024-01-10" EmptyString;
               mkHolding "9984" "9984" 5 8000 "2024-01-10" EmptyString]
              sample_history)).
  - reflexivity.
  - right. simpl. lia.
Defined.

Lemma rebuilt_from_set_shares trades h s :
  rebuilt_from trades h -> rebuilt_from trades (set_shares h s).
Proof. done. Qed.

Lemma replay_trade_rebuilt all d t d' :
  In t all ->
  Forall (fun p => rebuilt_from all (snd p)) d ->
  replay_trade d t = Ok d' ->
  Forall (fun p => rebuilt_from all (snd p)) d'.
Proof.
  intros Hin Hall. unfold replay_trade.
  destruct (String.eqb_spec (t_action t) "buy") as [Hbuy|_].
  - destruct (dict_get (t_code t) d) as [h|] eqn:Hget.
    + destruct (py_truediv _ _) as [q|e]; simpl; [|done]. intros [= <-].
      apply dict_set_Forall; [done|].
      exact (dict_get_Forall _ _ _ _ Hall Hget).
    + intros [= <-]. apply dict_set_Forall; [done|].
      split; [done|]. exists t. by split_and!.
  - destruct (String.eqb (t_action t) "sell"); [|by intros [= <-]].
    destruct (dict_get (t_code t) d) as [h|] eqn:Hget; [|by intros [= <-]].
    simpl. destruct (_ <=? 0); intros [= <-].
    + rewrite dict_del_set. by apply dict_del_Forall.
    + apply dict_set_Forall; [done|].
      exact (dict_get_Forall _ _ _ _ Hall Hget).
Qed.

Lemma replay_from_rebuilt all rest : forall d d',
  (forall t, In t rest -> In t all) ->
  Forall (fun p => rebuilt_from all (snd p)) d ->
  replay_from d rest = Ok d' ->
  Forall (fun p => rebuilt_from all (snd p)) d'.
Proof.
  induction rest as [|t rest IH]; intros d d' Hsub Hall; simpl.
  - by intros [= <-].
  - destruct (replay_trade d t) as [d1|e] eqn:Hstep; simpl; [|done].
    apply IH; [by intros; apply Hsub; right|].
    eapply replay_trade_rebuilt; [|done..]. apply Hsub. by left.
Qed.

(** X16.  A replay rebuilds the holdings from the trades alone: after a
    successful delete-trade every stored holding has an empty note, and
    its name and purchase date are those of a buy of its code among the
    surviving trades.  Notes given at buy time are gone. *)
Theorem delete_trade_rebuilds_from_trades index w deleted w' :
  delete_trade index w = (Ok deleted, w') ->
  Forall (rebuilt_from (trade_history (stored_portfolio w')))
    (holdings (stored_portfolio w')).
Proof.
  intros Hrun.
  apply delete_trade_spec in Hrun as (_ & data & hs & _ & _ & _ & Hrebuild & Hfiles).
  unfold stored_portfolio. rewrite Hfiles. simpl.
  unfold rebuild_holdings in Hrebuild.
  destruct (replay_from [] (pop_at (Z.to_nat index) (trade_history data)))
    as [d|e] eqn:Hreplay; simpl in Hrebuild; [|done].
  injection Hrebuild as <-.
  apply Forall_map.
  eapply (replay_from_rebuilt _ _ [] d); [done|constructor|exact Hreplay].
Qed.

Lemma delete_trade_rebuilds_from_trades_witness :
  Forall (fun h => h_note h = EmptyString)
    (holdings (stored_portfolio
                 (snd (delete_trade 0 (sample_world sample_portfolio_files))))).
Proof.
  eapply Forall_impl.
  - apply (delete_trade_rebuilds_from_trades 0 (sample_world sample_portfolio_files)
             (sample_buy "7203" 100 1000)).
    reflexivity.
  - intros h [Hnote _]. exact Hnote.
Defined.

(** ** Resetting the portfolio and deleting a holding *)

(** X17.  On a working store a reset leaves an empty portfolio document
    and touches no other document; right after it every sell, every
    holding deletion and every trade deletion is answered with 404 and
    changes nothing. *)
Theorem reset_portfolio_empties_the_ledger (w : World) :
  healthy w ->
  exists w1,
    reset_portfolio w = (Ok tt, w1)
    /\ f_portfolio (files w1) = Some (mkPortfolio [] [])
    /\ f_watchlist (files w1) = f_watchlist (files w)
    /\ f_manifest (files w1) = f_manifest (files w)
    /\ f_stocks (files w1) = f_stocks (files w)
    /\ (forall req, sell_stock req w1 = (Raise (HTTPException 404), w1))
    /\ (forall code, delete_holding code w1 = (Raise (HTTPException 404), w1))
    /\ (forall index, delete_trade index w1 = (Raise (HTTPException 404), w1)).
Proof.
  intros Hw. eexists. split.
  { unfold reset_portfolio. by apply guarded_update_healthy. }
  assert (healthy
            (set_files
               (write_file GH_PORTFOLIO_PATH (Some (mkPortfolio [] [])) (files w)) w))
    as Hw1 by (by apply healthy_set_files).
  split_and!; try reflexivity.
  - intros req. unfold sell_stock, bind at 1.
    by rewrite (fetch_guarded_healthy _ _ _ (mkPortfolio [] []) Hw1).
  - intros code. unfold delete_holding, bind at 1.
    by rewrite (fetch_guarded_healthy _ _ _ (mkPortfolio [] []) Hw1).
  - intros index. unfold delete_trade, bind at 1.
    rewrite (fetch_guarded_healthy _ _ _ (mkPortfolio [] []) Hw1) by done.
    cbn [trade_history length].
    replace ((index <? 0) || (Z.of_nat 0 <=? index)) with true; [done|].
    symmetry. apply orb_true_iff.
    destruct (Z.ltb_spec index 0); [by left|right; apply Z.leb_le; lia].
Qed.

Lemma reset_portfolio_empties_the_ledger_witness :
  exists w1,
    reset_portfolio (sample_world ledger_files) = (Ok tt, w1)
    /\ f_portfolio (files w1) = Some (mkPortfolio [] []).
Proof.
  destruct (reset_portfolio_empties_the_ledger (sample_world ledger_files))
    as (w1 & Hrun & Hempty & _).
  - split; reflexivity.
  - exists w1. split; [exact Hrun|exact Hempty].
Defined.

Lemma upper_ascii_idempotent c : upper_ascii (upper_ascii c) = upper_ascii c.
Proof. destruct c as [[] [] [] [] [] [] [] []]; reflexivity. Qed.

Lemma upper_idempotent s : upper (upper s) = upper s.
Proof.
  induction s as [|c s IH]; simpl; [done|].
  by rewrite upper_ascii_idempotent, IH.
Qed.

(** X18.  Delete-holding looks the code up in upper case.  When it
    succeeds it answers the upper-case code, no holding with that code
    is left, every other holding is kept, and the trade history is not
    touched.  It treats a code and its upper-case form alike.  A holding
    whose stored code is not in upper case can never be removed by it:
    whatever code is requested, that holding is still stored afterwards. *)
Theorem delete_holding_matches_upper_case :
  (forall code w answer w',
      delete_holding code w = (Ok answer, w') ->
      answer = upper code
      /\ find (has_code (upper code)) (holdings (stored_portfolio w')) = None
      /\ (forall h,
            In h (holdings (stored_portfolio w'))
            <-> In h (holdings (stored_portfolio w)) /\ h_code h <> upper code)
      /\ trade_history (stored_portfolio w') = trade_history (stored_portfolio w))
  /\ (forall code w, delete_holding (upper code) w = delete_holding code w)
  /\ (forall code w r w' h,
        In h (holdings (stored_portfolio w)) ->
        upper (h_code h) <> h_code h ->
        delete_holding code w = (r, w') ->
        In h (holdings (stored_portfolio w'))).
Proof.
  split_and!.
  - intros code w answer w' Hrun.
    apply delete_holding_spec in Hrun
      as (_ & data & existing & -> & Hdata & Hfind & Hfiles).
    unfold stored_portfolio. rewrite Hfiles, Hdata. simpl.
    split_and!; [done|apply find_filter_negb| |done].
    intros h. rewrite filter_In. unfold has_code.
    rewrite negb_eqb_true_iff. tauto.
  - intros code w. unfold delete_holding. by rewrite upper_idempotent.
  - intros code w r w' h Hin Hlower Hrun.
    apply delete_holding_spec in Hrun as (_ & Hrun).
    unfold stored_portfolio in *.
    destruct r as [answer|e]; [|by rewrite Hrun].
    destruct Hrun as (data & existing & _ & Hdata & _ & ->).
    rewrite Hdata in Hin. simpl. apply filter_In. split; [done|].
    unfold has_code. apply negb_eqb_true_iff. intros Hcode.
    apply Hlower. by rewrite Hcode, upper_idempotent.
Qed.

Lemma delete_holding_matches_upper_case_witness :
  fst (delete_holding "toyota"
         (sample_world
            (mkFiles None
               (Some (mkPortfolio
                        [mkHolding "toyota" "Toyota" 100 1000 "2024-01-10" EmptyString]
                        []))
               None ∅)))
  = Raise (HTTPException 404).
Proof.
  destruct delete_holding_matches_upper_case as (_ & Hsame & _).
  rewrite <- (Hsame "toyota"%string). reflexivity.
Defined.

(** X19.  A deleted holding is forgotten by the next replay.  Delete-
    holding leaves the trade history alone, and delete-trade rebuilds
    the holdings from the history only; so a trade deletion that follows
    a holding deletion stores exactly the portfolio it would have stored
    without the holding deletion. *)
Theorem delete_trade_ignores_deleted_holdings code index w a w1 b w2 c w3 :
  delete_holding code w = (Ok a, w1) ->
  delete_trade index w1 = (Ok b, w2) ->
  delete_trade index w = (Ok c, w3) ->
  f_portfolio (files w2) = f_portfolio (files w3) /\ b = c.
Proof.
  intros Hholding Hafter Hdirect.
  apply delete_holding_spec in Hholding
    as (_ & data & existing & _ & Hdata & _ & Hfiles1).
  apply delete_trade_spec in Hafter
    as (_ & data1 & hs1 & Hdata1 & _ & Hnth1 & Hrebuild1 & ->).
  apply delete_trade_spec in Hdirect
    as (_ & data0 & hs0 & Hdata0 & _ & Hnth0 & Hrebuild0 & ->).
  rewrite Hfiles1 in Hdata1. simpl in Hdata1. injection Hdata1 as <-.
  assert (data0 = data) as -> by congruence.
  simpl in *. split; congruence.
Qed.

Lemma delete_trade_ignores_deleted_holdings_witness :
  f_portfolio
    (files (snd (delete_trade 4
                   (snd (delete_holding "6758" (sample_world ledger_files))))))
  = f_portfolio (files (snd (delete_trade 4 (sample_world ledger_files)))).
Proof.
  apply (delete_trade_ignores_deleted_holdings "6758" 4 (sample_world ledger_files)
           "6758" (snd (delete_holding "6758" (sample_world ledger_files)))
           (sample_buy "9984" 5 8000)
           (snd (delete_trade 4
                   (snd (delete_holding "6758" (sample_world ledger_files)))))
           (sample_buy "9984" 5 8000)
           (snd (delete_trade 4 (sample_world ledger_files))));
    vm_compute; reflexivity.
Defined.

(** ** Live prices and the portfolio view *)

(** X20.  [get_current_price] never raises and never answers a zero
    price: its answer is [None] or a price that counts as true.  It is
    [None] without yfinance and when the quote fails; otherwise it is
    [currentPrice] if that is set and not zero, else
    [regularMarketPrice] if that is set and not zero, else [None]. *)
Theorem get_current_price_is_none_or_a_price (available : bool) (yf : Ticker)
    (code : string) :
  (get_current_price available yf code = None
   \/ truthy (get_current_price available yf code) = true)
  /\ (available = false -> get_current_price available yf code = None)
  /\ (yf code = None -> get_current_price available yf code = None)
  /\ (forall info closes,
        available = true ->
        yf code = Some (info, closes) ->
        get_current_price available yf code
        = if truthy (currentPrice info) then currentPrice info
          else if truthy (regularMarketPrice info) then regularMarketPrice info
          else None).
Proof.
  unfold get_current_price, py_or. split_and!.
  - destruct available; simpl; [|by left].
    destruct (yf code) as [[info closes]|]; [|by left].
    destruct (truthy (currentPrice info)) eqn:Hc; [rewrite Hc; by right|].
    destruct (truthy (regularMarketPrice info)) eqn:Hr; [by right|by left].
  - by intros ->.
  - intros ->. by destruct available.
  - intros info closes -> ->. simpl.
    destruct (truthy (currentPrice info)) eqn:Hc; [by rewrite Hc|done].
Qed.

Lemma get_current_price_is_none_or_a_price_witness :
  get_current_price true
    (fun _ => Some (mkQuoteInfo (Some (Fin 0)) (Some (Fin 2510)) None None None
                      None None, []))
    "7203"
  = Some (Fin 2510).
Proof.
  destruct (get_current_price_is_none_or_a_price true
              (fun _ => Some (mkQuoteInfo (Some (Fin 0)) (Some (Fin 2510)) None
                                None None None None, []))
              "7203") as (_ & _ & _ & Hvalue).
  rewrite (Hvalue _ _ eq_refl eq_refl). reflexivity.
Defined.

Lemma view_holding_raises current h e :
  view_holding current h = Raise e -> e = ZeroDivisionError.
Proof.
  unfold view_holding. destruct (truthy current); [|done].
  destruct current as [c|]; [|done]. unfold pf_truediv.
  destruct (Qeq_bool (h_avg_cost h) 0); simpl; [by intros [= <-]|done].
Qed.

Lemma view_holding_has_cost current h :
  has_cost h ->
  exists v, view_holding current h = Ok v /\ hv_holding v = h
            /\ hv_current_price v = current.
Proof.
  intros Hcost. unfold view_holding.
  destruct (truthy current); [|by eexists].
  destruct current as [c|]; [|by eexists]. unfold pf_truediv.
  destruct (Qeq_bool (h_avg_cost h) 0) eqn:Hz.
  - apply Qeq_bool_iff in Hz. done.
  - simpl. by eexists.
Qed.

Lemma view_holding_free current h :
  truthy current = true ->
  (h_avg_cost h == 0)%Q ->
  view_holding current h = Raise ZeroDivisionError.
Proof.
  intros Htrue Hzero. unfold view_holding. rewrite Htrue.
  destruct current as [c|]; [|done]. unfold pf_truediv.
  by rewrite (proj2 (Qeq_bool_iff _ _) Hzero).
Qed.

Lemma view_holdings_raises available yf hs e :
  view_holdings available yf hs = Raise e -> e = ZeroDivisionError.
Proof.
  induction hs as [|h hs IH]; simpl; [done|].
  destruct (view_holding _ h) as [v|e'] eqn:Hv; simpl.
  - destruct (view_holdings available yf hs); simpl; [done|].
    intros [= <-]. by apply IH.
  - intros [= <-]. by eapply view_holding_raises.
Qed.

Lemma view_holdings_has_cost available yf hs :
  Forall has_cost hs ->
  exists vs,
    view_holdings available yf hs = Ok vs
    /\ map hv_holding vs = hs
    /\ map hv_current_price vs
       = map (fun h => get_current_price available yf (h_code h)) hs.
Proof.
  induction 1 as [|h hs Hh Hhs (vs & Hvs & Hmap & Hprices)]; simpl.
  - by exists [].
  - destruct (view_holding_has_cost (get_current_price available yf (h_code h)) h Hh)
      as (v & -> & Hv & Hp).
    simpl. rewrite Hvs. simpl. exists (v :: vs). simpl.
    by rewrite Hv, Hp, Hmap, Hprices.
Qed.

Lemma view_holdings_free available yf hs h :
  In h hs ->
  (h_avg_cost h == 0)%Q ->
  truthy (get_current_price available yf (h_code h)) = true ->
  view_holdings available yf hs = Raise ZeroDivisionError.
Proof.
  intros Hin Hzero Htrue.
  destruct (view_holdings available yf hs) as [vs|e] eqn:Hrun.
  2: { by apply view_holdings_raises in Hrun as ->. }
  exfalso. revert vs Hrun.
  induction hs as [|h0 hs IH]; [done|]. simpl. intros vs.
  destruct Hin as [->|Hin].
  - by rewrite view_holding_free.
  - destruct (view_holding _ h0); simpl; [|done].
    destruct (view_holdings available yf hs) as [vs0|]; simpl; [|done].
    intros _. by eapply IH.
Qed.

Lemma view_holdings_unavailable yf hs :
  view_holdings false yf hs = Ok (map bare_view hs).
Proof. induction hs as [|h hs IH]; simpl; [done|]. by rewrite IH. Qed.

Lemma get_portfolio_healthy yf w :
  healthy w ->
  get_portfolio yf w
  = (result_bind
       (view_holdings (YFINANCE_AVAILABLE w) yf (holdings (stored_portfolio w)))
       (fun vs => Ok (vs, trade_history (stored_portfolio w))),
     w).
Proof.
  intros Hw. unfold get_portfolio, bind at 1.
  rewrite fetch_portfolio_or_default_healthy by done.
  unfold bind at 1, get_world at 1, bind at 1, lift at 1.
  by destruct (view_holdings _ yf _).
Qed.

(** X21.  The portfolio view reads and never writes.  On a working
    store: if no holding has average cost zero it answers one view per
    holding, in order, each with the price [get_current_price] gives,
    and the trade history; without yfinance every view is the bare
    holding; but a single holding with average cost zero whose price is
    available makes the whole request fail with an uncaught
    [ZeroDivisionError]. *)
Theorem get_portfolio_view :
  (forall yf w r w', get_portfolio yf w = (r, w') -> files w' = files w)
  /\ (forall yf w,
        healthy w ->
        Forall has_cost (holdings (stored_portfolio w)) ->
        exists vs,
          get_portfolio yf w = (Ok (vs, trade_history (stored_portfolio w)), w)
          /\ map hv_holding vs = holdings (stored_portfolio w)
          /\ map hv_current_price vs
             = map (fun h => get_current_price (YFINANCE_AVAILABLE w) yf (h_code h))
                 (holdings (stored_portfolio w)))
  /\ (forall yf w,
        healthy w ->
        YFINANCE_AVAILABLE w = false ->
        get_portfolio yf w
        = (Ok (map bare_view (holdings (stored_portfolio w)),
               trade_history (stored_portfolio w)), w))
  /\ (forall yf w h,
        healthy w ->
        In h (holdings (stored_portfolio w)) ->
        (h_avg_cost h == 0)%Q ->
        truthy (get_current_price (YFINANCE_AVAILABLE w) yf (h_code h)) = true ->
        get_portfolio yf w = (Raise ZeroDivisionError, w)).
Proof.
  split_and!.
  - intros yf w r w'. unfold get_portfolio, bind at 1.
    match goal with
    | |- context [try_except ?m ?h w] =>
        destruct (try_except m h w) as [[data|e] w1] eqn:Hf;
          apply fetch_or_default_spec in Hf as (Hfiles1 & _ & _)
    end.
    2: { by intros [= _ <-]. }
    unfold bind at 1, get_world at 1, bind at 1, lift at 1.
    destruct (view_holdings _ yf _); unfold ret; by intros [= _ <-].
  - intros yf w Hw Hcost. rewrite get_portfolio_healthy by done.
    destruct (view_holdings_has_cost (YFINANCE_AVAILABLE w) yf _ Hcost)
      as (vs & -> & Hmap & Hprices).
    by exists vs.
  - intros yf w Hw Hno. rewrite get_portfolio_healthy by done.
    by rewrite Hno, view_holdings_unavailable.
  - intros yf w h Hw Hin Hzero Htrue. rewrite get_portfolio_healthy by done.
    by rewrite (view_holdings_free _ _ _ h).
Qed.

Lemma get_portfolio_view_witness :
  get_portfolio (flat_quotes 2500) (sample_world free_share_files)
  = (Raise ZeroDivisionError, sample_world free_share_files).
Proof.
  destruct get_portfolio_view as (_ & _ & _ & Hfree).
  apply (Hfree (flat_quotes 2500) (sample_world free_share_files)
           (mkHolding "7203" "Toyota" 100 0 "2024-01-10" EmptyString)).
  - split; reflexivity.
  - right. left. reflexivity.
  - reflexivity.
  - reflexivity.
Defined.

(** ** Moving averages and cross signals *)



Lemma sma_of_short n closes : (length closes < n)%nat -> sma_of n closes = None.
Proof.
  intros Hlen. unfold sma_of.
  by replace (n <=? length closes)%nat with false
    by (symmetry; apply Nat.leb_gt; lia).
Qed.



Lemma pf_ltb_asym a b : pf_ltb a b && pf_ltb b a = false.
Proof.
  destruct a as [x| | |], b as [y| | |]; simpl; try reflexivity.
  destruct (Qlt_bool x y) eqn:Hxy; [|done]. simpl.
  apply not_true_is_false. intros Hyx.
  apply Qlt_bool_iff in Hxy, Hyx.
  exact (Qlt_irrefl x (Qlt_trans _ _ _ Hxy Hyx)).
Qed.

Lemma technical_of_short_sma200 closes :
  (length closes < 200)%nat ->
  sma200 (technical_of closes) = None
  /\ golden_cross (technical_of closes) = None
  /\ death_cross (technical_of closes) = None.
Proof.
  intros Hlen. unfold technical_of. cbn [sma200 golden_cross death_cross].
  rewrite (sma_of_short 200) by done.
  destruct (negb _ && _); simpl; rewrite ?andb_false_r; simpl; auto.
Qed.

Lemma technical_of_short_sma50 closes :
  (length closes < 50)%nat -> sma50 (technical_of closes) = None.
Proof.
  intros Hlen. unfold technical_of. cbn [sma50].
  rewrite (sma_of_short 50) by done. by destruct (negb _ && _).
Qed.

(** X23.  The cross signals of [get_full_data] are given together or not
    at all, and never both true; with fewer than 200 closes both are
    [None] and so is SMA200, with fewer than 50 closes SMA50 is [None]
    too. *)
Theorem cross_signals_are_exclusive (closes : list Q) :
  ((golden_cross (technical_of closes) = None
    /\ death_cross (technical_of closes) = None)
   \/ exists g d,
        golden_cross (technical_of closes) = Some g
        /\ death_cross (technical_of closes) = Some d
        /\ g && d = false)
  /\ ((length closes < 200)%nat ->
      sma200 (technical_of closes) = None
      /\ golden_cross (technical_of closes) = None
      /\ death_cross (technical_of closes) = None)
  /\ ((length closes < 50)%nat -> sma50 (technical_of closes) = None).
Proof.
  split_and!; [|apply technical_of_short_sma200|apply technical_of_short_sma50].
  unfold technical_of. cbn [golden_cross death_cross].
  destruct (negb _ && _); simpl; [|by left].
  destruct (truthy (sma_of 50 closes) && truthy (sma_of 200 closes)); [|by left].
  destruct (sma_of 50 closes) as [a|], (sma_of 200 closes) as [b|]; simpl;
    try (by left).
  right. eexists _, _. split_and!; [done..|]. apply pf_ltb_asym.
Qed.

Lemma cross_signals_are_exclusive_witness :
  sma200 (technical_of (rising_closes 60)) = None
  /\ golden_cross (technical_of (rising_closes 60)) = None
  /\ death_cross (technical_of (rising_closes 60)) = None.
Proof.
  apply (cross_signals_are_exclusive (rising_closes 60)).
  rewrite length_rising_closes. lia.
Defined.

(** ** The alert of a holding with a short price history *)

Lemma alert_of_quoted yf code info closes :
  yf code = Some (info, closes) ->
  alert_of true yf code
  = health_alert
      (mkSnapshot (Some (technical_of closes))
         (Some (mkFundamentals (returnOnEquity info) (operatingMargins info)
                  (revenueGrowth info)))
         (Some (mkPrice (py_or (currentPrice info) (regularMarketPrice info))
                  (fiftyTwoWeekHigh info) (fiftyTwoWeekLow info)))).
Proof. intros Hyf. unfold alert_of, get_full_data. simpl. by rewrite Hyf. Qed.

Lemma alert_without_sma200 data t :
  technical data = Some t ->
  sma200 t = None -> death_cross t = None ->
  (severity (health_alert data) <= 1)%nat.
Proof.
  intros Ht H200 Hdc. unfold health_alert.
  unfold red_condition, orange_condition, sma_gap_pct_of.
  rewrite Ht. simpl. rewrite H200, Hdc. simpl. rewrite andb_false_r.
  destruct (yellow_condition data); simpl; lia.
Qed.

(** X24.  What a short price history means for the alert of a code.  When
    [get_full_data] answers with an error the alert is green.  With fewer
    than 200 closes the alert is never red or orange, whatever the
    fundamentals are; with 14 closes or fewer it is green, whatever the
    price is. *)
Theorem short_history_limits_the_alert
    (available : bool) (yf : Ticker) (code : string) :
  (get_full_data available yf code = None ->
   alert_of available yf code = green)
  /\ (forall info closes,
        available = true -> yf code = Some (info, closes) ->
        ((length closes < 200)%nat ->
         (severity (alert_of available yf code) <= 1)%nat)
        /\ ((length closes <= 14)%nat ->
            alert_of available yf code = green)).
Proof.
  split.
  - intros Hnone. unfold alert_of. by rewrite Hnone.
  - intros info closes -> Hyf.
    rewrite (alert_of_quoted _ _ _ _ Hyf). split; intros Hlen.
    + destruct (technical_of_short_sma200 closes Hlen) as (H200 & _ & Hdc).
      by eapply alert_without_sma200.
    + assert (Hlen200 : (length closes < 200)%nat) by lia.
      destruct (technical_of_short_sma200 closes Hlen200) as (H200 & _ & Hdc).
      assert (H50 : sma50 (technical_of closes) = None)
        by (apply technical_of_short_sma50; lia).
      assert (Hrsi : rsi (technical_of closes) = None
                     \/ rsi (technical_of closes) = Some NaN).
      { unfold technical_of. cbn [rsi].
        destruct (decide (length closes = 14%nat)) as [H14|H14].
        - right. by apply get_full_data_rsi_fourteen.
        - left. apply get_full_data_rsi_short. lia. }
      remember (technical_of closes) as t eqn:Et. clear Et.
      unfold health_alert, red_condition, orange_condition, sma_gap_pct_of,
        yellow_condition.
      simpl. rewrite H200, Hdc, H50. simpl.
      by destruct Hrsi as [-> | ->].
Qed.

Lemma short_history_limits_the_alert_witness :
  alert_of true (rising_quotes 14) "7203" = green.
Proof.
  refine (proj2 (proj2 (short_history_limits_the_alert true (rising_quotes 14) "7203")
                   _ (rising_closes 14) eq_refl eq_refl) _).
  rewrite length_rising_closes. lia.
Defined.

(** ** [healthcheck] *)

Lemma count_levels_partition rs :
  (count_level green rs + count_level yellow rs
   + count_level orange rs + count_level red rs = length rs)%nat.
Proof.
  unfold count_level.
  induction rs as [|r rs IH]; simpl; [done|].
  destruct (hr_alert r); simpl; lia.
Qed.

Lemma count_level_all lvl rs :
  Forall (fun r => hr_alert r = lvl) rs ->
  count_level lvl rs = length rs.
Proof.
  unfold count_level. induction 1 as [|r rs Hr _ IH]; simpl; [done|].
  rewrite Hr. destruct lvl; simpl; by rewrite IH.
Qed.

Lemma healthcheck_spec yf w r w' :
  healthcheck yf w = (r, w') ->
  files w' = files w /\ env_eq w w'
  /\ match r with
     | Ok (s, rs) =>
         (exists data,
            (f_portfolio (files w) = Some data \/ data = mkPortfolio [] [])
            /\ rs = map (health_result (YFINANCE_AVAILABLE w) yf) (holdings data))
         /\ s = mkHealthSummary (count_level green rs) (count_level yellow rs)
                  (count_level orange rs) (count_level red rs)
     | Raise e => e = HTTPException 500
     end.
Proof.
  unfold healthcheck, bind at 1.
  match goal with
  | |- context [try_except ?m ?h w] =>
      destruct (try_except m h w) as [[data|e] w1] eqn:Hf
  end; apply fetch_or_default_spec in Hf as (Hfiles & Henv & Hread).
  2: { unfold raise. intros [= <- <-]. auto. }
  unfold bind, get_world, ret. intros [= <- <-].
  split_and!; [done..| |done].
  destruct Henv as (_ & _ & -> & _). by exists data.
Qed.

Lemma health_result_without_yfinance yf h :
  hr_alert (health_result false yf h) = green
  /\ hr_current_price (health_result false yf h) = None
  /\ hr_technical (health_result false yf h) = None
  /\ hr_fundamentals (health_result false yf h) = None.
Proof. by unfold health_result, get_full_data. Qed.

(** X25.  The health check reads and never writes; its only failure is
    HTTP 500.  It answers one result per holding of the portfolio it
    fetched (none when there is no file), in order and with the holding's
    code, name, shares and average cost, and the four counts of the
    summary add up to the number of results.  Without yfinance every
    holding is reported green, with no price and no indicators. *)
Theorem healthcheck_counts_every_holding yf w r w' :
  healthcheck yf w = (r, w') ->
  files w' = files w
  /\ match r with
     | Ok (s, rs) =>
         (n_green s + n_yellow s + n_orange s + n_red s = length rs)%nat
         /\ (exists data,
               (f_portfolio (files w) = Some data \/ data = mkPortfolio [] [])
               /\ map (fun r => (hr_code r, hr_name r, hr_shares r, hr_avg_cost r)) rs
                  = map (fun h => (h_code h, h_name h, h_shares h, h_avg_cost h))
                      (holdings data))
         /\ (YFINANCE_AVAILABLE w = false ->
             n_green s = length rs
             /\ Forall (fun r => hr_alert r = green
                                 /\ hr_current_price r = None
                                 /\ hr_technical r = None
                                 /\ hr_fundamentals r = None) rs)
     | Raise e => e = HTTPException 500
     end.
Proof.
  intros Hrun. apply healthcheck_spec in Hrun as (Hfiles & _ & Hr).
  split; [done|]. destruct r as [[s rs]|e]; [|done].
  destruct Hr as ((data & Hdata & Hrs) & ->). simpl.
  split_and!.
  - apply count_levels_partition.
  - exists data. split; [done|]. rewrite Hrs, map_map. by apply map_ext.
  - intros Hyf. rewrite Hyf in Hrs.
    assert (Hall : Forall (fun r => hr_alert r = green
                                    /\ hr_current_price r = None
                                    /\ hr_technical r = None
                                    /\ hr_fundamentals r = None) rs).
    { rewrite Hrs. apply Forall_map, Forall_forall. intros h _.
      apply health_result_without_yfinance. }
    split; [|done]. apply count_level_all.
    eapply Forall_impl; [exact Hall|]. by intros r0 (H & _).
Qed.

Lemma healthcheck_counts_every_holding_witness :
  files (snd (healthcheck (rising_quotes 14) health_world)) = files health_world.
Proof.
  exact (proj1 (healthcheck_counts_every_holding (rising_quotes 14) health_world
                  _ _ (surjective_pairing _))).
Defined.

Lemma get_stock_spec yf code w :
  get_stock yf code w
  = match get_full_data (YFINANCE_AVAILABLE w) yf code with
    | Some data => (Ok data, w)
    | None => (Raise (HTTPException 503), w)
    end.
Proof.
  unfold get_stock, bind, get_world.
  by destruct (get_full_data (YFINANCE_AVAILABLE w) yf code).
Qed.

(** X26.  The health check and the stock endpoint agree.  For every
    result of a health check, the stock endpoint asked for the result's
    code in the same world either answers the data whose alert, price
    and indicators the result carries, or answers 503, and then the
    result is green with no price and no indicators: a holding whose
    quote cannot be fetched is reported as healthy.  The stock endpoint
    never changes the world and needs no token. *)
Theorem healthcheck_agrees_with_get_stock yf w s rs w' r :
  healthcheck yf w = (Ok (s, rs), w') ->
  In r rs ->
  (exists data,
     get_stock yf (hr_code r) w = (Ok data, w)
     /\ hr_alert r = health_alert data
     /\ hr_current_price r = get2 (price data) current
     /\ hr_technical r = technical data
     /\ hr_fundamentals r = fundamentals data)
  \/ (get_stock yf (hr_code r) w = (Raise (HTTPException 503), w)
      /\ hr_alert r = green
      /\ hr_current_price r = None
      /\ hr_technical r = None
      /\ hr_fundamentals r = None).
Proof.
  intros Hrun Hin. apply healthcheck_spec in Hrun as (_ & _ & Hr).
  destruct Hr as ((data & _ & Hrs) & _).
  rewrite Hrs in Hin. apply in_map_iff in Hin as (h & <- & _).
  rewrite get_stock_spec. unfold health_result. simpl.
  destruct (get_full_data (YFINANCE_AVAILABLE w) yf (h_code h)) as [full|];
    simpl; [left; by exists full|by right].
Qed.

Lemma healthcheck_agrees_with_get_stock_witness :
  exists r,
    In r (snd (match fst (healthcheck (fun _ => None) health_world) with
               | Ok x => x
               | Raise _ => (mkHealthSummary 0 0 0 0, [])
               end))
    /\ get_stock (fun _ => None) (hr_code r) health_world
       = (Raise (HTTPException 503), health_world)
    /\ hr_alert r = green.
Proof.
  set (r := health_result true (fun _ => None)
              (mkHolding "6758" "6758" 10 12000 "2024-01-10" EmptyString)).
  exists r. split; [left; reflexivity|].
  destruct (healthcheck_agrees_with_get_stock (fun _ => None) health_world
              (mkHealthSummary 2 0 0 0)
              (map (health_result true (fun _ => None))
                 (holdings (stored_portfolio health_world)))
              health_world r eq_refl (or_introl eq_refl))
    as [(data & Hget & _) | (Hget & Halert & _)].
  - discriminate Hget.
  - split; [exact Hget|exact Halert].
Defined.

(** ** Deleting a report on a working store *)

Lemma github_delete_file_healthy {A} (p : doc_path A) w :
  healthy w ->
  github_delete_file p w
  = match read_file p (files w) with
    | Some _ => (Ok tt, set_files (write_file p None (files w)) w)
    | None => (Raise FileNotFoundError, w)
    end.
Proof.
  intros [Htok Hnet].
  unfold github_delete_file, require_token, urlopen, get_world, bind, raise, ret.
  rewrite Htok, Hnet. destruct (read_file p (files w)); [|done].
  by rewrite Hnet.
Qed.

Lemma code_differs_spec CODE s :
  code_differs CODE s = true <-> m_code s <> Some CODE.
Proof.
  unfold code_differs. destruct (m_code s) as [c|]; [|done].
  rewrite negb_true_iff. split.
  - intros Hne [= ->]. by rewrite String.eqb_refl in Hne.
  - intros Hne. apply String.eqb_neq. congruence.
Qed.

(** X27.  Deleting a report on a working store.  The code is put in upper
    case first, so a code and its upper-case form are treated alike.  If
    no report is stored under the upper-case code the answer is 404 and
    nothing changes.  If there is one and the manifest exists, the
    request succeeds: that report is gone and every other report is
    kept, the manifest lists exactly its earlier entries whose code is
    not the upper-case code, in order (entries without a code are kept),
    and the watchlist and the portfolio are untouched.  If there is a
    report but no manifest, the answer is 500 and the report is gone all
    the same. *)
Theorem delete_report_on_a_working_store code w :
  healthy w ->
  delete_report code w = delete_report (upper code) w
  /\ (f_stocks (files w) !! upper code = None ->
      delete_report code w = (Raise (HTTPException 404), w))
  /\ (is_Some (f_stocks (files w) !! upper code) ->
      exists w',
        f_stocks (files w') = delete (upper code) (f_stocks (files w))
        /\ f_watchlist (files w') = f_watchlist (files w)
        /\ f_portfolio (files w') = f_portfolio (files w)
        /\ match f_manifest (files w) with
           | Some manifest =>
               delete_report code w = (Ok tt, w')
               /\ (exists manifest',
                     f_manifest (files w') = Some manifest'
                     /\ stocks manifest'
                        = List.filter (code_differs (upper code)) (stocks manifest)
                     /\ (forall s, In s (stocks manifest') <->
                                   In s (stocks manifest)
                                   /\ m_code s <> Some (upper code)))
           | None =>
               delete_report code w = (Raise (HTTPException 500), w')
               /\ f_manifest (files w') = None
           end).
Proof.
  intros Hw. split_and!.
  - unfold delete_report. by rewrite upper_idempotent.
  - intros Hnone. unfold delete_report, bind at 1, try_except at 1.
    rewrite (github_delete_file_healthy _ _ Hw). simpl. by rewrite Hnone.
  - intros [content Hsome].
    set (w1 := set_files (write_file (stock_path (upper code)) None (files w)) w).
    assert (Hw1 : healthy w1) by by apply healthy_set_files.
    assert (Hrun : delete_report code w
                   = (try_except
                        (let* manifest := github_fetch_json GH_MANIFEST_PATH in
                         github_update_json GH_MANIFEST_PATH
                           (mkManifest (List.filter (code_differs (upper code))
                                          (stocks manifest))))
                        (fun _ => raise (HTTPException 500)) ;; ret tt) w1).
    { unfold delete_report, bind at 1, try_except at 1.
      rewrite (github_delete_file_healthy _ _ Hw). simpl. by rewrite Hsome. }
    assert (Hman1 : f_manifest (files w1) = f_manifest (files w)) by done.
    unfold bind at 1, try_except at 1, bind at 1 in Hrun.
    rewrite (github_fetch_json_healthy _ _ Hw1) in Hrun. simpl in Hrun.
    destruct (f_manifest (files w)) as [manifest|] eqn:Hman.
    + rewrite (github_update_json_healthy _ _ _ Hw1) in Hrun. simpl in Hrun.
      eexists. split_and!; [| | |exact Hrun|]; [done..|].
      eexists. split_and!; [done..|].
      intros s. simpl. by rewrite filter_In, code_differs_spec.
    + exists w1. by split_and!.
Qed.

Lemma delete_report_on_a_working_store_witness :
  delete_report "7203a" (sample_world sample_report_files)
  = (Raise (HTTPException 404), sample_world sample_report_files).
Proof.
  refine (proj1 (proj2 (delete_report_on_a_working_store "7203a"
                          (sample_world sample_report_files) _)) _).
  - split; reflexivity.
  - reflexivity.
Defined.

(** ** The read endpoints *)

Lemma fetch_or_default_healthy {A} (p : doc_path A) (dflt : A) w :
  healthy w ->
  try_except (github_fetch_json p)
    (fun e => match e with
              | FileNotFoundError => ret dflt
              | _ => raise (HTTPException 500)
              end) w = (Ok (stored_or p dflt w), w).
Proof.
  intros Hw. unfold try_except, stored_or.
  rewrite (github_fetch_json_healthy _ _ Hw).
  by destruct (read_file p (files w)).
Qed.

(** X28.  The read endpoints never write.  The watchlist and the manifest
    endpoints fail with HTTP 500 only, and on a working store they answer
    the stored document, or an empty list when there is no file.  The
    analysis-data endpoint looks the code up in upper case and answers
    every failure with 404: a missing report, but also a missing token
    or a failing network. *)
Theorem read_endpoints_never_write (w : World) :
  (forall r w',
     get_watchlist w = (r, w') ->
     files w' = files w
     /\ match r with
        | Ok d => f_watchlist (files w) = Some d \/ d = mkWatchlist []
        | Raise e => e = HTTPException 500
        end)
  /\ (forall r w',
        get_manifest w = (r, w') ->
        files w' = files w
        /\ match r with
           | Ok d => f_manifest (files w) = Some d \/ d = mkManifest []
           | Raise e => e = HTTPException 500
           end)
  /\ (forall code r w',
        get_stock_data code w = (r, w') ->
        files w' = files w
        /\ match r with
           | Ok content => f_stocks (files w) !! upper code = Some content
           | Raise e => e = HTTPException 404
           end)
  /\ (forall code, get_stock_data code w = get_stock_data (upper code) w)
  /\ (token w = false ->
      forall code, get_stock_data code w = (Raise (HTTPException 404), w))
  /\ (healthy w ->
      get_watchlist w = (Ok (stored_or GH_WATCHLIST_PATH (mkWatchlist []) w), w)
      /\ get_manifest w = (Ok (stored_or GH_MANIFEST_PATH (mkManifest []) w), w)
      /\ forall code,
           get_stock_data code w
           = (match f_stocks (files w) !! upper code with
              | Some content => Ok content
              | None => Raise (HTTPException 404)
              end, w)).
Proof.
  split_and!.
  - intros r w' Hrun. unfold get_watchlist in Hrun.
    apply fetch_or_default_spec in Hrun as (Hfiles & _ & Hr). by split.
  - intros r w' Hrun. unfold get_manifest in Hrun.
    apply fetch_or_default_spec in Hrun as (Hfiles & _ & Hr). by split.
  - intros code r w'. unfold get_stock_data, try_except.
    destruct (github_fetch_json (stock_path (upper code)) w) as [[d|e] w0] eqn:Hf;
      apply github_fetch_json_spec in Hf as (Hfiles & _ & Hread).
    + by intros [= <- <-].
    + unfold raise. by intros [= <- <-].
  - intros code. unfold get_stock_data. by rewrite upper_idempotent.
  - intros Htok code. unfold get_stock_data, try_except, github_fetch_json,
      require_token, bind. by rewrite Htok.
  - intros Hw. split_and!.
    + by apply fetch_or_default_healthy.
    + by apply fetch_or_default_healthy.
    + intros code. unfold get_stock_data, try_except.
      rewrite (github_fetch_json_healthy _ _ Hw). simpl.
      by destruct (f_stocks (files w) !! upper code).
Qed.

Lemma read_endpoints_never_write_witness :
  get_stock_data "7203" tokenless_world
  = (Raise (HTTPException 404), tokenless_world).
Proof.
  exact (proj1 (proj2 (proj2 (proj2 (proj2
           (read_endpoints_never_write tokenless_world))))) eq_refl "7203"%string).
Defined.

(** ** Falling closes *)

Lemma round_half_even_comp x y : (x == y)%Q -> round_half_even x = round_half_even y.
Proof.
  intros Hxy. unfold round_half_even.
  rewrite (Qfloor_comp _ _ Hxy).
  replace (Qcompare (x - inject_Z (Qfloor y)) (1 # 2))
    with (Qcompare (y - inject_Z (Qfloor y)) (1 # 2)); [done|].
  apply Qcompare_comp; [by rewrite Hxy|reflexivity].
Qed.

Lemma py_round_comp x y n : (x == y)%Q -> py_round x n = py_round y n.
Proof.
  intros Hxy. unfold py_round. apply Qred_complete.
  set (s := inject_Z (10 ^ Z.of_nat n)).
  rewrite (round_half_even_comp (x * s) (y * s)); [reflexivity|].
  by rewrite Hxy.
Qed.

Lemma decreasing_from_losses prev closes :
  decreasing_from prev closes -> Forall is_loss (diff_from prev closes).
Proof.
  revert prev. induction closes as [|c rest IH]; intros prev; simpl.
  - constructor.
  - intros [Hlt Hrest]. constructor; [|by apply IH].
    exists (c - prev)%Q. split; [done|].
    apply Qlt_minus_iff in Hlt. apply Qlt_minus_iff.
    eapply Qlt_le_trans; [exact Hlt|]. apply Qle_lteq. right. ring.
Qed.

Lemma losses_clip_lower ws :
  Forall is_loss ws ->
  exists qs,
    all_finite (map clip_lower0 ws) = Some qs
    /\ length qs = length ws
    /\ Forall (fun q => (q == 0)%Q) qs.
Proof.
  induction 1 as [|x ws (q & -> & Hq) Hws (qs & Hqs & Hlen & Hzero)]; simpl.
  - by exists [].
  - rewrite (proj2 (Qlt_bool_iff q 0) Hq). simpl. rewrite Hqs. simpl.
    exists (0%Q :: qs). split_and!; simpl; [done|by f_equal|].
    constructor; [reflexivity|done].
Qed.

Lemma losses_clip_upper ws :
  Forall is_loss ws ->
  exists qs,
    all_finite (map pf_neg (map clip_upper0 ws)) = Some qs
    /\ length qs = length ws
    /\ Forall (fun q => (0 < q)%Q) qs.
Proof.
  induction 1 as [|x ws (q & -> & Hq) Hws (qs & Hqs & Hlen & Hpos)]; simpl.
  - by exists [].
  - replace (Qlt_bool 0 q) with false.
    2: { symmetry. apply not_true_is_false. intros Hlt%Qlt_bool_iff.
         exact (Qlt_irrefl 0 (Qlt_trans _ _ _ Hlt Hq)). }
    simpl. rewrite Hqs. simpl. exists ((- q)%Q :: qs).
    split_and!; simpl; [done|by f_equal|].
    constructor; [|done].
    apply Qlt_minus_iff in Hq. by rewrite Qplus_0_l in Hq.
Qed.

(** A full window of losses: the average gain is zero, the average loss
    is positive, and their quotient is zero. *)
Lemma losses_window_rs ws :
  length ws = 14%nat ->
  Forall is_loss ws ->
  exists x,
    pf_div (window_mean 14 (map clip_lower0 ws))
           (window_mean 14 (map pf_neg (map clip_upper0 ws)))
    = Fin x
    /\ (x == 0)%Q.
Proof.
  intros Hlen Hlosses. unfold window_mean.
  destruct (losses_clip_lower ws Hlosses) as (gs & -> & Hglen & Hgzero).
  destruct (losses_clip_upper ws Hlosses) as (ls & -> & Hllen & Hlpos).
  rewrite Hglen, Hllen, Hlen. simpl.
  assert (0 < Qsum ls / inject_Z (Z.of_nat 14))%Q as Hl.
  { apply Qlt_shift_div_l; [done|]. rewrite Qmult_0_l.
    apply Qsum_positive; [|done]. intros ->. simpl in Hllen. lia. }
  replace (Qeq_bool (Qsum ls / inject_Z (Z.of_nat 14)) 0) with false.
  2: { symmetry. apply not_true_is_false. intros Heq%Qeq_bool_iff.
       rewrite Heq in Hl. by apply Qlt_irrefl in Hl. }
  eexists. split; [reflexivity|].
  rewrite (Qsum_zero gs Hgzero). unfold Qdiv. ring.
Qed.

Lemma rsi_of_zero_rs x :
  (x == 0)%Q -> pf_round (rsi_of_rs (Fin x)) 1 = Fin 0.
Proof.
  intros Hx. unfold rsi_of_rs, pf_sub. simpl.
  replace (Qeq_bool (1 + x) 0) with false.
  2: { symmetry. apply not_true_is_false. intros Heq%Qeq_bool_iff.
       rewrite Hx in Heq. discriminate Heq. }
  simpl. f_equal.
  rewrite (py_round_comp _ 0 1); [reflexivity|].
  rewrite Hx. reflexivity.
Qed.

Lemma get_full_data_rsi_falling closes :
  strictly_decreasing closes ->
  (15 <= length closes)%nat ->
  get_full_data_rsi closes = Some (Fin 0).
Proof.
  intros Hdec Hlen. rewrite get_full_data_rsi_window by lia.
  destruct closes as [|c rest]; [simpl in Hlen; lia|].
  simpl in Hdec, Hlen. simpl length. simpl diff.
  replace (S (length rest) - 14)%nat with (S (length rest - 14)) by lia.
  simpl map. simpl skipn.
  rewrite !skipn_map, !firstn_map.
  set (ws := firstn 14 (skipn (length rest - 14) (diff_from c rest))).
  destruct (losses_window_rs ws) as (x & -> & Hx).
  - unfold ws. rewrite length_take, length_drop, length_diff_from. lia.
  - unfold ws. by apply Forall_take, Forall_drop, decreasing_from_losses.
  - by rewrite rsi_of_zero_rs.
Qed.

Lemma inject_Z_succ_nat a b :
  a = S b -> (inject_Z (Z.of_nat a) == inject_Z (Z.of_nat b) + 1)%Q.
Proof.
  intros ->. rewrite Nat2Z.inj_succ. unfold Z.succ.
  rewrite inject_Z_plus. reflexivity.
Qed.

Lemma falling_closes_from n m start prev :
  (prev == inject_Z (Z.of_nat (n - start)) + 1)%Q ->
  (start + m <= n)%nat ->
  decreasing_from prev
    (map (fun i => inject_Z (Z.of_nat (n - i))) (seq start m)).
Proof.
  revert start prev.
  induction m as [|m IH]; intros start prev Hprev Hle; simpl; [done|]. split.
  - rewrite Hprev. rewrite <- (Qplus_0_r (inject_Z _)) at 1.
    apply Qplus_lt_r. reflexivity.
  - apply IH; [|lia]. apply inject_Z_succ_nat. lia.
Qed.

Lemma falling_closes_decreasing n : strictly_decreasing (falling_closes n).
Proof.
  unfold falling_closes. destruct n as [|n]; [done|].
  change (seq 0 (S n)) with (0%nat :: seq 1 n).
  cbn [map strictly_decreasing].
  apply falling_closes_from; [|lia]. apply inject_Z_succ_nat. lia.
Qed.

Lemma length_falling_closes n : length (falling_closes n) = n.
Proof. unfold falling_closes. by rewrite length_map, length_seq. Qed.

(** X29.  Closes that fell every day.  For a history of at least 15
    closes, each lower than the one before, [get_full_data] computes an
    RSI of exactly 0, and the alert of the code is then never green,
    whatever the quote and the fundamentals are. *)
Theorem falling_closes_are_never_green
    (yf : Ticker) (code : string) (info : QuoteInfo) (closes : list Q) :
  yf code = Some (info, closes) ->
  strictly_decreasing closes ->
  (15 <= length closes)%nat ->
  get_full_data_rsi closes = Some (Fin 0)
  /\ (exists data,
        get_full_data true yf code = Some data
        /\ get2 (technical data) rsi = Some (Fin 0))
  /\ alert_of true yf code <> green.
Proof.
  intros Hyf Hdec Hlen.
  pose proof (get_full_data_rsi_falling closes Hdec Hlen) as Hrsi.
  split_and!; [done| |].
  - unfold get_full_data. simpl. rewrite Hyf. eexists. split; [reflexivity|].
    simpl. exact Hrsi.
  - rewrite (alert_of_quoted _ _ _ _ Hyf).
    assert (Hrsi' : rsi (technical_of closes) = Some (Fin 0)) by done.
    remember (technical_of closes) as t eqn:Et. clear Et.
    unfold health_alert.
    destruct (red_condition _); [done|].
    destruct (orange_condition _); [done|].
    unfold yellow_condition. simpl. by rewrite Hrsi'.
Qed.

Lemma falling_closes_are_never_green_witness :
  alert_of true (falling_quotes 15) "7203" <> green.
Proof.
  refine (proj2 (proj2 (falling_closes_are_never_green (falling_quotes 15) "7203"
                          _ (falling_closes 15) eq_refl _ _))).
  - apply falling_closes_decreasing.
  - rewrite length_falling_closes. lia.
Defined.
